(** * E-Commerce API: the protected routes of [server.js] over a relational store

    A request handler is a function from the store to a new store and a
    reply.  The SQL text of each query is embedded as a function on the
    tables it names; the schema script gives the columns and their types.
    JavaScript Numbers are IEEE-754 binary64 values, kept here as primitive
    floats; INTEGER columns are integers checked against the 32-bit range
    and NUMERIC(10,2) columns are counts of hundredths.

    Modelled routes: the [verifyToken] middleware, GET /api/profile,
    POST, PUT and DELETE on /api/products, POST and GET /api/cart and
    POST /api/checkout; then, in [Rest], POST /api/register,
    POST /api/login, GET /api/products and GET /api/orders.  The routes
    that share the server's one connection are served one after the other;
    a checkout opens a connection of its own, and two checkouts may
    overlap: the handlers are modelled as served one at a time, and
    [overlapping_checkouts] gives one interleaving of two checkouts.  No
    query of the repository but the order history asks for an order of its
    rows, so the order in which rows come back is a parameter of each
    request. *)

From Stdlib Require Import ZArith List String Ascii Bool Floats Uint63 Lia.
From Stdlib Require Import Permutation.
Import ListNotations.
Open Scope Z_scope.

(** ** JavaScript values *)

Module Js.

(** A value found in a parsed JSON body or in a decoded token.  Objects and
    arrays are kept by their source text: the handlers only test them for
    truthiness and hand them to the database driver. *)
Inductive value :=
| Undefined
| Null
| Bool (b : bool)
| Num (x : float)
| Str (s : string)
| Obj (src : string).

(** [!v] is [negb (truthy v)]: undefined, null, false, +0, -0, NaN and the
    empty string are falsy. *)
Definition truthy (v : value) : bool :=
  match v with
  | Undefined | Null => false
  | Bool b => b
  | Num x =>
      match Prim2SF x with
      | S754_zero _ | S754_nan => false
      | _ => true
      end
  | Str s => match s with EmptyString => false | String _ _ => true end
  | Obj _ => true
  end.

(** The Number of an integer (exact below 2^53; the driver returns INTEGER
    columns this way). *)
Definition number_of_Z (z : Z) : float :=
  if z <? 0 then PrimFloat.opp (PrimFloat.of_uint63 (Uint63.of_Z (- z)))
  else PrimFloat.of_uint63 (Uint63.of_Z z).

(** The integer a Number denotes, when it has no fractional part. *)
Definition integer_of_number (x : float) : option Z :=
  match Prim2SF x with
  | S754_zero _ => Some 0
  | S754_finite s m e =>
      let sign (n : Z) := if s then - n else n in
      if 0 <=? e then Some (sign (Zpos m * 2 ^ e))
      else if Zpos m mod 2 ^ (- e) =? 0 then Some (sign (Zpos m / 2 ^ (- e)))
      else None
  | S754_infinity _ | S754_nan => None
  end.

(** [s.split(sep)] for a one-character separator. *)
Fixpoint split (sep : ascii) (s : string) : list string :=
  match s with
  | EmptyString => [EmptyString]
  | String c rest =>
      if Ascii.eqb c sep then EmptyString :: split sep rest
      else match split sep rest with
           | [] => [String c EmptyString]
           | w :: ws => String c w :: ws
           end
  end.

End Js.

(** ** The relational store *)

Module Pg.

(** A NUMERIC(10,2) value: a count of hundredths, or the special value NaN
    that the type admits. *)
Inductive numeric :=
| NVal (cents : Z)
| NNaN.

Definition int4_min : Z := -2147483648.
Definition int4_max : Z := 2147483647.

Definition in_int4 (z : Z) : bool := (int4_min <=? z) && (z <=? int4_max).

(** A query parameter after conversion to the type of its column. *)
Inductive bound (A : Type) :=
| Refused
| IsNull
| Val (a : A).
Arguments Refused {A}.
Arguments IsNull {A}.
Arguments Val {A} a.

(** What the driver and the server do with parameters that are text: the
    input syntax is the server's, not the repository's.  [int4in] and
    [numeric_in] read a string bound to an INTEGER or NUMERIC(10,2) column;
    [varchar_in] and [text_in] give the text stored for a value bound to a
    VARCHAR(255) or TEXT column.  [None] is an error raised by the
    statement. *)
Record text_input := {
  int4in : string -> option Z;
  numeric_in : string -> option numeric;
  varchar_in : Js.value -> option string;
  text_in : Js.value -> option string
}.

(** A Number bound to a NUMERIC(10,2) column.  The driver sends
    [x.toString()], the shortest decimal that reads back as [x], and the
    server rounds that decimal to two places, half away from zero.  When a
    decimal with at most three places reads back as [x] it is that shortest
    decimal; otherwise no rounding boundary lies between the decimal and the
    exact value of [x], and rounding the exact value gives the same cents. *)
Definition numeric_of_number (x : float) : option numeric :=
  match Prim2SF x with
  | S754_nan => Some NNaN
  | S754_infinity _ => None
  | S754_zero _ => Some (NVal 0)
  | S754_finite s m e =>
      let scaled (k : Z) :=
        if 0 <=? e then Zpos m * 2 ^ e * k
        else (2 * Zpos m * k + 2 ^ (- e)) / (2 * 2 ^ (- e)) in
      let m3 := scaled 1000 in
      let c :=
        if PrimFloat.eqb (PrimFloat.div (Js.number_of_Z m3) (Js.number_of_Z 1000))
                         (PrimFloat.abs x)
        then (m3 + 5) / 10
        else scaled 100 in
      if c <? 10 ^ 10 then Some (NVal (if s then - c else c)) else None
  end.

Section Binding.

Variable tin : text_input.

(** Parameter bound to an INTEGER column or compared with one. *)
Definition bind_int4 (v : Js.value) : bound Z :=
  match v with
  | Js.Undefined | Js.Null => IsNull
  | Js.Num x =>
      match Js.integer_of_number x with
      | Some z => if in_int4 z then Val z else Refused
      | None => Refused
      end
  | Js.Str s =>
      match int4in tin s with
      | Some z => Val z
      | None => Refused
      end
  | Js.Bool _ | Js.Obj _ => Refused
  end.

(** Parameter bound to a NUMERIC(10,2) column. *)
Definition bind_numeric (v : Js.value) : bound numeric :=
  match v with
  | Js.Undefined | Js.Null => IsNull
  | Js.Num x =>
      match numeric_of_number x with
      | Some n => Val n
      | None => Refused
      end
  | Js.Str s =>
      match numeric_in tin s with
      | Some n => Val n
      | None => Refused
      end
  | Js.Bool _ | Js.Obj _ => Refused
  end.

(** Parameter bound to a VARCHAR(255) column. *)
Definition bind_varchar (v : Js.value) : bound string :=
  match v with
  | Js.Undefined | Js.Null => IsNull
  | _ =>
      match varchar_in tin v with
      | Some s => Val s
      | None => Refused
      end
  end.

(** Parameter bound to a TEXT column. *)
Definition bind_text (v : Js.value) : bound string :=
  match v with
  | Js.Undefined | Js.Null => IsNull
  | _ =>
      match text_in tin v with
      | Some s => Val s
      | None => Refused
      end
  end.

End Binding.

(** Rows of the four relations of the schema.  The [created_at] columns take
    the server clock and are read by none of the handlers below; of a user
    only the key matters to them. *)
Record user := {
  u_id : Z;
  u_email : string
}.

Record product := {
  p_id : Z;
  p_name : string;
  p_description : option string;
  p_price : numeric;
  p_stock : Z;
  p_image_url : option string
}.

Record order := {
  o_id : Z;
  o_user_id : Z;
  o_total_amount : numeric;
  o_status : string
}.

(** [oi_order_id = None] is the NULL that marks a cart line. *)
Record order_item := {
  oi_id : Z;
  oi_order_id : option Z;
  oi_product_id : Z;
  oi_quantity : Z;
  oi_price : numeric
}.

Record tables := {
  users : list user;
  products : list product;
  orders : list order;
  order_items : list order_item
}.

(** The store: the tables, and the SERIAL sequences, which a rollback does
    not rewind. *)
Record db := {
  store : tables;
  products_id_seq : Z;
  orders_id_seq : Z;
  order_items_id_seq : Z
}.

Definition set_products (ps : list product) (t : tables) : tables :=
  {| users := users t; products := ps; orders := orders t;
     order_items := order_items t |}.

Definition set_orders (os : list order) (t : tables) : tables :=
  {| users := users t; products := products t; orders := os;
     order_items := order_items t |}.

Definition set_order_items (ls : list order_item) (t : tables) : tables :=
  {| users := users t; products := products t; orders := orders t;
     order_items := ls |}.

Definition set_store (t : tables) (d : db) : db :=
  {| store := t; products_id_seq := products_id_seq d;
     orders_id_seq := orders_id_seq d;
     order_items_id_seq := order_items_id_seq d |}.

Definition set_stock (n : Z) (p : product) : product :=
  {| p_id := p_id p; p_name := p_name p; p_description := p_description p;
     p_price := p_price p; p_stock := n; p_image_url := p_image_url p |}.

Definition set_order_id (o : option Z) (l : order_item) : order_item :=
  {| oi_id := oi_id l; oi_order_id := o; oi_product_id := oi_product_id l;
     oi_quantity := oi_quantity l; oi_price := oi_price l |}.

Definition in_cart (l : order_item) : bool :=
  match oi_order_id l with
  | None => true
  | Some _ => false
  end.

(** [nextval] of each sequence. *)
Definition next_products_id (d : db) : db :=
  {| store := store d; products_id_seq := products_id_seq d + 1;
     orders_id_seq := orders_id_seq d;
     order_items_id_seq := order_items_id_seq d |}.

Definition next_orders_id (d : db) : db :=
  {| store := store d; products_id_seq := products_id_seq d;
     orders_id_seq := orders_id_seq d + 1;
     order_items_id_seq := order_items_id_seq d |}.

Definition next_order_items_id (d : db) : db :=
  {| store := store d; products_id_seq := products_id_seq d;
     orders_id_seq := orders_id_seq d;
     order_items_id_seq := order_items_id_seq d + 1 |}.

(** [SELECT ... FROM products WHERE id = $1] *)
Definition products_with_id (id : Z) (t : tables) : list product :=
  filter (fun p => p_id p =? id) (products t).

(** *** Rows without an order
    A SELECT with no ORDER BY returns its rows in the order in which the
    executor produces them: the order of the plan it runs and of the places
    the row versions have in the heap, which an UPDATE moves.  An
    [executor] stands for that choice: from the rows still to come, the
    position of the row that comes next, a position past the end being the
    last.  The lists kept in [tables] say which rows a table holds, not
    where they lie. *)
Definition executor (R : Type) : Type := list R -> nat.

(** The row at position [i] of [r :: rest], and the other rows. *)
Fixpoint take {R : Type} (i : nat) (r : R) (rest : list R) : R * list R :=
  match i, rest with
  | S j, r' :: rest' => let (x, others) := take j r' rest' in (x, r :: others)
  | _, _ => (r, rest)
  end.

Fixpoint produce {R : Type} (next : executor R) (n : nat) (rows : list R)
  : list R :=
  match n, rows with
  | S m, r :: rest =>
      let (x, others) := take (next rows) r rest in x :: produce next m others
  | _, _ => []
  end.

(** The rows of a query in the order in which they come back. *)
Definition returned {R : Type} (next : executor R) (rows : list R) : list R :=
  produce next (List.length rows) rows.

(** [COALESCE($n, column)] *)
Definition coalesce {A : Type} (b : option A) (old : A) : A :=
  match b with
  | Some a => a
  | None => old
  end.

(** [UPDATE products SET stock = stock - $1 WHERE id = $2]; the statement
    raises when a new stock leaves the INTEGER range. *)
Definition sql_update_stock (quantity product_id : Z) (t : tables)
  : option tables :=
  if existsb (fun p => (p_id p =? product_id)
                       && negb (in_int4 (p_stock p - quantity))) (products t)
  then None
  else Some (set_products
               (map (fun p => if p_id p =? product_id
                              then set_stock (p_stock p - quantity) p
                              else p) (products t)) t).

(** [INSERT INTO orders(user_id, total_amount, status) VALUES($1, $2, $3)]
    with the key already drawn from the sequence; the key is unique and
    [user_id] references [users]. *)
Definition sql_insert_order (id user_id : Z) (total_amount : numeric)
  (status : string) (t : tables) : option tables :=
  if in_int4 id && negb (existsb (fun o => o_id o =? id) (orders t))
     && existsb (fun u => u_id u =? user_id) (users t)
  then Some (set_orders
               (orders t ++ [{| o_id := id; o_user_id := user_id;
                                o_total_amount := total_amount;
                                o_status := status |}]) t)
  else None.

(** [UPDATE order_items SET order_id = $1 WHERE order_id IS NULL] *)
Definition sql_bind_cart (order_id : Z) (t : tables) : tables :=
  set_order_items
    (map (fun l => if in_cart l then set_order_id (Some order_id) l else l)
         (order_items t)) t.

End Pg.

(** ** The request handlers of [server.js] *)

Module Server.

Import Pg.

(** The decoded payload of a token ([req.user]). *)
Record claims := {
  userId : Js.value;
  email : Js.value
}.

(** What lies outside the repository: token verification under the
    server's secret and clock, and the text input of the store. *)
Record environment := {
  jwt_verify : string -> option claims;
  pg_input : text_input
}.

(** The fields a handler destructures from [req.body]; a missing field is
    [Js.Undefined]. *)
Record product_body := {
  name : Js.value;
  description : Js.value;
  price : Js.value;
  stock : Js.value;
  image_url : Js.value
}.

Record cart_body := {
  product_id : Js.value;
  quantity : Js.value
}.

(** A row of the cart listing. *)
Record cart_row := {
  cr_product_id : Z;
  cr_quantity : Z;
  cr_price : numeric;
  cr_product_name : string;
  cr_image_url : option string
}.

(** A row of the query that opens the checkout. *)
Record cart_item := {
  ci_id : Z;
  ci_product_id : Z;
  ci_quantity : Z;
  ci_price : numeric;
  ci_stock : Z
}.

(** Bodies of the replies.  [InsufficientStock id] is the message
    [`Insufficient stock for product ID ${id}.`]. *)
Inductive payload :=
| Message (message : string)
| Profile (message : string) (user : claims)
| ProductReply (message : string) (product : Pg.product)
| DeletedReply (message : string) (id : Z)
| ItemReply (message : string) (item : order_item)
| CartReply (rows : list cart_row)
| InsufficientStock (product_id : Z)
| CheckoutReply (message : string) (order_id : Z) (total_amount : float)
| ErrorPage.

Record response := {
  status : Z;
  json : payload
}.

Definition internal_error : response :=
  {| status := 500; json := Message "Internal server error." |}.

(** The framework's own reply to a handler that ends by raising: status
    500 and its error page, [ErrorPage]. *)
Definition framework_error : response :=
  {| status := 500; json := ErrorPage |}.

(** *** Middleware *)

Inductive verified :=
| Rejected (res : response)
| Next (user : claims).

(** [authHeader && authHeader.split(' ')[1]]; [None] is [undefined]. *)
Definition bearer_token (authHeader : option string) : option string :=
  match authHeader with
  | None => None
  | Some EmptyString => Some EmptyString
  | Some h => nth_error (Js.split " "%char h) 1
  end.

Section Handlers.

Variable env : environment.

Definition verifyToken (authHeader : option string) : verified :=
  match bearer_token authHeader with
  | None =>
      Rejected {| status := 401;
                  json := Message "Authorization token is missing." |}
  | Some token =>
      match jwt_verify env token with
      | None => Rejected {| status := 403; json := Message "Invalid token." |}
      | Some user => Next user
      end
  end.

(** A route registered as [app.METHOD(path, verifyToken, handler)]. *)
Definition protected {S : Type}
  (handler : claims -> S -> S * option response)
  (authHeader : option string) (s : S) : S * option response :=
  match verifyToken authHeader with
  | Rejected res => (s, Some res)
  | Next user => handler user s
  end.

(** *** Queries *)

(** The rows of [FROM order_items oi JOIN products p
     ON oi.product_id = p.id WHERE oi.order_id IS NULL]: one for each pair
    of a cart line and a product with its key.  A query returns them in the
    order of its executor. *)
Definition cart_join {R : Type} (row : order_item -> product -> R)
  (t : tables) : list R :=
  flat_map (fun oi =>
              map (row oi)
                  (filter (fun p => p_id p =? oi_product_id oi) (products t)))
           (filter in_cart (order_items t)).

Definition cart_row_of (oi : order_item) (p : product) : cart_row :=
  {| cr_product_id := oi_product_id oi; cr_quantity := oi_quantity oi;
     cr_price := oi_price oi; cr_product_name := p_name p;
     cr_image_url := p_image_url p |}.

(** [SELECT oi.id, oi.product_id, oi.quantity, p.price, p.stock] *)
Definition cart_item_of (oi : order_item) (p : product) : cart_item :=
  {| ci_id := oi_id oi; ci_product_id := oi_product_id oi;
     ci_quantity := oi_quantity oi; ci_price := p_price p;
     ci_stock := p_stock p |}.

Definition required {A : Type} (b : bound A) : option A :=
  match b with
  | Val a => Some a
  | IsNull | Refused => None
  end.

Definition nullable {A : Type} (b : bound A) : option (option A) :=
  match b with
  | Val a => Some (Some a)
  | IsNull => Some None
  | Refused => None
  end.

(** *** GET /api/profile *)
Definition get_profile (user : claims) (d : db) : db * option response :=
  (d, Some {| status := 200;
              json := Profile "You have access to a protected route!" user |}).

(** *** POST /api/products *)
Definition post_products (body : product_body) (user : claims) (d : db)
  : db * option response :=
  if negb (Js.truthy (name body)) || negb (Js.truthy (price body))
     || negb (Js.truthy (stock body))
  then (d, Some {| status := 400;
                   json := Message "Name, price, and stock are required." |})
  else
    match required (bind_varchar (pg_input env) (name body)),
          nullable (bind_text (pg_input env) (description body)),
          required (bind_numeric (pg_input env) (price body)),
          required (bind_int4 (pg_input env) (stock body)),
          nullable (bind_varchar (pg_input env) (image_url body)) with
    | Some n, Some dsc, Some pr, Some st, Some img =>
        let id := products_id_seq d in
        let row := {| p_id := id; p_name := n; p_description := dsc;
                      p_price := pr; p_stock := st; p_image_url := img |} in
        if in_int4 id && negb (existsb (fun p => p_id p =? id)
                                       (products (store d)))
        then (set_store (set_products (products (store d) ++ [row]) (store d))
                        (next_products_id d),
              Some {| status := 201;
                      json := ProductReply "Product added successfully!" row |})
        else (next_products_id d, Some internal_error)
    | _, _, _, _, _ => (d, Some internal_error)
    end.

(** *** PUT /api/products/:id *)
Definition put_products (id : string) (body : product_body) (user : claims)
  (d : db) : db * option response :=
  match nullable (bind_varchar (pg_input env) (name body)),
        nullable (bind_text (pg_input env) (description body)),
        nullable (bind_numeric (pg_input env) (price body)),
        nullable (bind_int4 (pg_input env) (stock body)),
        nullable (bind_varchar (pg_input env) (image_url body)),
        required (bind_int4 (pg_input env) (Js.Str id)) with
  | Some n, Some dsc, Some pr, Some st, Some img, Some key =>
      let updated (p : product) :=
        {| p_id := p_id p;
           p_name := coalesce n (p_name p);
           p_description := match dsc with
                            | Some s => Some s
                            | None => p_description p
                            end;
           p_price := coalesce pr (p_price p);
           p_stock := coalesce st (p_stock p);
           p_image_url := match img with
                          | Some s => Some s
                          | None => p_image_url p
                          end |} in
      match map updated (products_with_id key (store d)) with
      | [] => (d, Some {| status := 404;
                          json := Message "Product not found." |})
      | row :: _ =>
          (set_store
             (set_products
                (map (fun p => if p_id p =? key then updated p else p)
                     (products (store d))) (store d)) d,
           Some {| status := 200;
                   json := ProductReply "Product updated successfully!" row |})
      end
  | _, _, _, _, _, _ => (d, Some internal_error)
  end.

(** *** DELETE /api/products/:id
    The lines that reference the product go with it (ON DELETE CASCADE). *)
Definition delete_products (id : string) (user : claims) (d : db)
  : db * option response :=
  match required (bind_int4 (pg_input env) (Js.Str id)) with
  | Some key =>
      match products_with_id key (store d) with
      | [] => (d, Some {| status := 404;
                          json := Message "Product not found." |})
      | row :: _ =>
          (set_store
             (set_order_items
                (filter (fun l => negb (oi_product_id l =? key))
                        (order_items (store d)))
                (set_products
                   (filter (fun p => negb (p_id p =? key))
                           (products (store d))) (store d))) d,
           Some {| status := 200;
                   json := DeletedReply "Product deleted successfully!"
                                        (p_id row) |})
      end
  | None => (d, Some internal_error)
  end.

(** *** POST /api/cart *)
Definition post_cart (body : cart_body) (user : claims) (d : db)
  : db * option response :=
  let user_id := userId user in
  if negb (Js.truthy (product_id body)) || negb (Js.truthy (quantity body))
  then (d, Some {| status := 400;
                   json := Message "Product ID and quantity are required." |})
  else
    match bind_int4 (pg_input env) (product_id body) with
    | Refused => (d, Some internal_error)
    | IsNull => (d, Some {| status := 404;
                            json := Message "Product not found." |})
    | Val key =>
        match products_with_id key (store d) with
        | [] => (d, Some {| status := 404;
                            json := Message "Product not found." |})
        | p :: _ =>
            let productPrice := p_price p in
            match required (bind_int4 (pg_input env) (quantity body)) with
            | None => (d, Some internal_error)
            | Some q =>
                let id := order_items_id_seq d in
                let row := {| oi_id := id; oi_order_id := None;
                              oi_product_id := key; oi_quantity := q;
                              oi_price := productPrice |} in
                if in_int4 id && negb (existsb (fun l => oi_id l =? id)
                                               (order_items (store d)))
                then (set_store
                        (set_order_items (order_items (store d) ++ [row])
                                         (store d))
                        (next_order_items_id d),
                      Some {| status := 201;
                              json := ItemReply
                                        "Item added to cart successfully!"
                                        row |})
                else (next_order_items_id d, Some internal_error)
            end
        end
    end.

(** *** GET /api/cart *)
Definition get_cart (plan : executor cart_row) (user : claims) (d : db)
  : db * option response :=
  (d, Some {| status := 200;
              json := CartReply
                        (returned plan (cart_join cart_row_of (store d))) |}).

(** *** POST /api/checkout *)

(** The statements the handler issues on its own connection.  A fault
    assignment says which of them raise for a reason outside the tables
    (lost connection, server error); [CatchRollback] is the ROLLBACK of the
    [catch] block. *)
Inductive statement :=
| Connect
| Begin
| SelectCart
| UpdateStock (line : Z)
| InsertOrder
| BindCart
| Commit
| Rollback
| CatchRollback.

Definition faults := statement -> bool.

(** The open transaction: the tables as the connection sees them, or the
    aborted state in which the server refuses every statement but
    ROLLBACK. *)
Inductive transaction :=
| Live (t : tables)
| Aborted.

Definition run (flt : faults) (s : statement) (f : tables -> option tables)
  (tx : transaction) : transaction :=
  match tx with
  | Aborted => Aborted
  | Live t =>
      if flt s then Aborted
      else match f t with
           | Some t' => Live t'
           | None => Aborted
           end
  end.

(** [parseFloat] of a NUMERIC column, which the driver returns as decimal
    text: the Number nearest to that decimal, which is also the correctly
    rounded quotient of the hundredths by 100. *)
Definition parseFloat (n : numeric) : float :=
  match n with
  | NVal cents =>
      PrimFloat.div (Js.number_of_Z cents) (Js.number_of_Z 100)
  | NNaN => PrimFloat.nan
  end.

Inductive verification :=
| Insufficient (product_id : Z) (tx : transaction)
| Verified (totalAmount : float) (tx : transaction).

(** The loop over [cartItems]: each stock update is queued on the
    connection as soon as its line has passed, and runs there before any
    later statement. *)
Fixpoint verify_stock (flt : faults) (cartItems : list cart_item)
  (totalAmount : float) (tx : transaction) : verification :=
  match cartItems with
  | [] => Verified totalAmount tx
  | item :: rest =>
      if ci_quantity item >? ci_stock item
      then Insufficient (ci_product_id item) tx
      else
        verify_stock flt rest
          (PrimFloat.add totalAmount
             (PrimFloat.mul (parseFloat (ci_price item))
                            (Js.number_of_Z (ci_quantity item))))
          (run flt (UpdateStock (ci_id item))
               (sql_update_stock (ci_quantity item) (ci_product_id item)) tx)
  end.

(** The [catch] block: ROLLBACK, then 500.  When that ROLLBACK raises
    too, the handler ends by raising and the framework answers in its
    place; the server drops the transaction with the connection. *)
Definition caught (flt : faults) (d : db) : db * option response :=
  (d, Some (if flt CatchRollback then framework_error else internal_error)).

(** [SELECT oi.id, oi.product_id, oi.quantity, p.price, p.stock FROM
     order_items oi JOIN products p ... WHERE oi.order_id IS NULL] as it
    comes back to the handler. *)
Definition select_cart_items (plan : executor cart_item) (t : tables)
  : list cart_item :=
  returned plan (cart_join cart_item_of t).

(** The handler from [cartItems] on, run on the store as it is when the
    statements that follow the SELECT reach the server.

    Those statements are served in the order in which they are issued: the
    queued stock updates, then the ROLLBACK of a line that is short, or the
    INSERT, the binding of the cart and COMMIT.  No handler is attached to
    the promise of a queued update before [Promise.all], which comes after
    the INSERT and the binding have been awaited; so when a queued update
    raises, its rejection is unhandled, the runtime ends the process and
    no reply is sent ([None]).  The server then drops the transaction.

    The INSERT draws its key before the row is checked: a NULL [user_id]
    or an unknown user costs a value of the sequence.  A [user_id] or a
    total that cannot be read raises before the statement runs. *)
Definition checkout_from (flt : faults) (user : claims)
  (cartItems : list cart_item) (d : db) : db * option response :=
  let user_id := userId user in
  match cartItems with
  | [] =>
      if flt Rollback then caught flt d
      else (d, Some {| status := 400;
                       json := Message "Your cart is empty." |})
  | _ :: _ =>
      match verify_stock flt cartItems 0%float (Live (store d)) with
      | Insufficient pid Aborted => (d, None)
      | Insufficient pid (Live _) =>
          if flt Rollback then caught flt d
          else (d, Some {| status := 400; json := InsufficientStock pid |})
      | Verified totalAmount Aborted => (d, None)
      | Verified totalAmount (Live t1) =>
          if flt InsertOrder then caught flt d
          else
            match bind_int4 (pg_input env) user_id,
                  numeric_of_number totalAmount with
            | Val uid, Some amount =>
                let orderId := orders_id_seq d in
                let d1 := next_orders_id d in
                match sql_insert_order orderId uid amount "completed" t1 with
                | None => caught flt d1
                | Some t2 =>
                    if flt BindCart then caught flt d1
                    else
                      let t3 := sql_bind_cart orderId t2 in
                      if flt Commit then caught flt d1
                      else
                        (set_store t3 d1,
                         Some {| status := 200;
                                 json := CheckoutReply
                                           "Checkout successful!"
                                           orderId totalAmount |})
                end
            | IsNull, Some _ => caught flt (next_orders_id d)
            | _, _ => caught flt d
            end
      end
  end.

(** The handler served alone: every statement of its transaction finds the
    tables that its SELECT has read.  When [connect] fails, the ROLLBACK of
    the [catch] block raises on the client that is not connected. *)
Definition post_checkout (plan : executor cart_item) (flt : faults)
  (user : claims) (d : db) : db * option response :=
  if flt Connect then (d, Some framework_error)
  else if flt Begin || flt SelectCart then caught flt d
  else checkout_from flt user (select_cart_items plan (store d)) d.

(** Two checkouts whose transactions overlap, each on its own connection.
    The handler sets no isolation level, so each statement sees what is
    committed when it runs (READ COMMITTED), and its SELECT locks no row.
    Here both transactions have read the cart before either writes; the
    first then runs to its end, and the statements of the second, held back
    by the row locks of the first where they touch the same products, take
    effect after it.  A process that has ended sends no second reply. *)
Definition overlapping_checkouts
  (plan1 : executor cart_item) (flt1 : faults) (user1 : claims)
  (plan2 : executor cart_item) (flt2 : faults) (user2 : claims) (d : db)
  : db * option response * option response :=
  let cartItems1 := select_cart_items plan1 (store d) in
  let cartItems2 := select_cart_items plan2 (store d) in
  let (d1, r1) := checkout_from flt1 user1 cartItems1 d in
  match r1 with
  | None => (d1, None, None)
  | Some _ =>
      let (d2, r2) := checkout_from flt2 user2 cartItems2 d1 in
      (d2, r1, r2)
  end.

(** No statement raises for an outside reason. *)
Definition no_faults : faults := fun _ => false.

End Handlers.

End Server.

(** ** Notions used by the statements *)

Module Spec.

Import Pg Server.

(** PRIMARY KEY of [products], and the reference from [order_items]. *)
Definition keyed (t : tables) : Prop := NoDup (map p_id (products t)).

Definition referenced (t : tables) : Prop :=
  forall l, In l (order_items t) ->
            exists p, In p (products t) /\ p_id p = oi_product_id l.

Definition consistent (t : tables) : Prop := keyed t /\ referenced t.

(** The lines with no order: the cart. *)
Definition cart (t : tables) : list order_item :=
  filter in_cart (order_items t).

(** Units of one product asked for by the rows of a cart. *)
Definition requested (product_id : Z) (cartItems : list cart_item) : Z :=
  fold_right (fun item acc =>
                if ci_product_id item =? product_id
                then ci_quantity item + acc else acc) 0 cartItems.

(** The binary64 value nearest to a decimal of two places: the correctly
    rounded quotient of its hundredths by 100. *)
Definition nearest_binary64 (n : numeric) : float :=
  match n with
  | NVal cents => PrimFloat.div (Js.number_of_Z cents) (Js.number_of_Z 100)
  | NNaN => PrimFloat.nan
  end.

(** The sum of quantity times price over lines, each at the price that
    [price_of] gives it, in binary64 arithmetic, accumulated from 0 in the
    order of the list. *)
Definition total_at (price_of : order_item -> numeric)
  (lines : list order_item) : float :=
  fold_left (fun acc l =>
               PrimFloat.add acc
                 (PrimFloat.mul (nearest_binary64 (price_of l))
                                (Js.number_of_Z (oi_quantity l))))
            lines 0%float.

(** The sum at the price snapshots of the lines. *)
Definition snapshot_total (lines : list order_item) : float :=
  total_at oi_price lines.

(** The price the catalog has for the product of a line. *)
Definition catalog_price (t : tables) (l : order_item) : numeric :=
  match filter (fun p => p_id p =? oi_product_id l) (products t) with
  | p :: _ => p_price p
  | [] => NNaN
  end.

(** The sum at the prices of the catalog. *)
Definition catalog_total (t : tables) (lines : list order_item) : float :=
  total_at (catalog_price t) lines.

(** The same sum in exact decimal arithmetic, in hundredths. *)
Definition exact_total (lines : list order_item) : option Z :=
  fold_right (fun l acc =>
                match oi_price l, acc with
                | NVal c, Some a => Some (oi_quantity l * c + a)
                | _, _ => None
                end) (Some 0) lines.

(** Every catalog price equals the snapshot of each cart line on it. *)
Definition prices_current (t : tables) : Prop :=
  forall l p, In l (cart t) -> In p (products t) ->
              p_id p = oi_product_id l -> p_price p = oi_price l.

(** A row added to a total: the price of the row, as the binary64 value
    nearest to it, times the quantity, added in binary64 arithmetic. *)
Definition step (acc : float) (item : cart_item) : float :=
  PrimFloat.add acc
    (PrimFloat.mul (nearest_binary64 (ci_price item))
                   (Js.number_of_Z (ci_quantity item))).

(** [c] occurs in [s]. *)
Fixpoint contains (c : ascii) (s : string) : bool :=
  match s with
  | EmptyString => false
  | String a rest => Ascii.eqb a c || contains c rest
  end.

(** A line after the cart has been bound to an order: a cart line carries
    the order, a line of an earlier order is as it was. *)
Definition bound_to (order_id : Z) (l : order_item) : order_item :=
  match oi_order_id l with
  | None => {| oi_id := oi_id l; oi_order_id := Some order_id;
               oi_product_id := oi_product_id l;
               oi_quantity := oi_quantity l; oi_price := oi_price l |}
  | Some _ => l
  end.

(** A product with [n] units less in stock. *)
Definition lowered (n : Z) (p : product) : product :=
  {| p_id := p_id p; p_name := p_name p; p_description := p_description p;
     p_price := p_price p; p_stock := p_stock p - n;
     p_image_url := p_image_url p |}.

(** A row of the checkout's SELECT asks for more than is in stock. *)
Definition short (item : cart_item) : Prop := ci_quantity item > ci_stock item.

(** No stock update queued for these rows raises: none for a reason outside
    the tables, and none by taking a stock out of the INTEGER range. *)
Definition updates_served (flt : faults) (cartItems : list cart_item) : Prop :=
  forall item, In item cartItems ->
               flt (UpdateStock (ci_id item)) = false
               /\ in_int4 (ci_stock item - ci_quantity item) = true.

End Spec.

(** ** A sample shop *)

Module Sample.

Import Pg Server.

Fixpoint digits (s : string) (acc : Z) : option Z :=
  match s with
  | EmptyString => Some acc
  | String c rest =>
      let n := Z.of_nat (nat_of_ascii c) - 48 in
      if (0 <=? n) && (n <=? 9) then digits rest (10 * acc + n) else None
  end.

(** Text of an integer in plain decimal digits, with an optional minus
    sign. *)
Definition decimal (s : string) : option Z :=
  match s with
  | EmptyString => None
  | String "-" EmptyString => None
  | String "-" rest => option_map Z.opp (digits rest 0)
  | _ => digits s 0
  end.

(** A text input that reads plain decimal integers and keeps strings as
    they are; other text is refused. *)
Definition plain_input : text_input :=
  {| int4in := fun s => match decimal s with
                        | Some z => if in_int4 z then Some z else None
                        | None => None
                        end;
     numeric_in := fun s => match decimal s with
                            | Some z => if Z.abs z <? 10 ^ 8
                                        then Some (NVal (100 * z)) else None
                            | None => None
                            end;
     varchar_in := fun v => match v with
                            | Js.Str s => Some s
                            | _ => None
                            end;
     text_in := fun v => match v with
                         | Js.Str s => Some s
                         | _ => None
                         end |}.

Definition alice : claims :=
  {| userId := Js.Num 1; email := Js.Str "alice@example.com" |}.

Definition bob : claims :=
  {| userId := Js.Num 2; email := Js.Str "bob@example.com" |}.

(** Two tokens verify; every other one is invalid. *)
Definition env : environment :=
  {| jwt_verify := fun token =>
       if String.eqb token "alice.token" then Some alice
       else if String.eqb token "bob.token" then Some bob
       else None;
     pg_input := plain_input |}.

(** The rows of [seed_data.sql]. *)
Definition mouse : product :=
  {| p_id := 1; p_name := "Wireless Mouse";
     p_description :=
       Some "A high-quality wireless mouse with ergonomic design."%string;
     p_price := NVal 2550; p_stock := 100;
     p_image_url := Some "https://example.com/images/mouse.jpg"%string |}.

Definition keyboard : product :=
  {| p_id := 2; p_name := "Mechanical Keyboard";
     p_description :=
       Some "A durable mechanical keyboard with RGB backlighting."%string;
     p_price := NVal 8999; p_stock := 50;
     p_image_url := Some "https://example.com/images/keyboard.jpg"%string |}.

Definition shop : db :=
  {| store := {| users := [ {| u_id := 1; u_email := "alice@example.com" |};
                            {| u_id := 2; u_email := "bob@example.com" |} ];
                 products := [mouse; keyboard];
                 orders := [];
                 order_items := [] |};
     products_id_seq := 3;
     orders_id_seq := 1;
     order_items_id_seq := 1 |}.

Definition with_price (x : float) : product_body :=
  {| name := Js.Undefined; description := Js.Undefined;
     price := Js.Num x; stock := Js.Undefined; image_url := Js.Undefined |}.

Definition with_stock (x : float) : product_body :=
  {| name := Js.Undefined; description := Js.Undefined;
     price := Js.Undefined; stock := Js.Num x; image_url := Js.Undefined |}.

Definition add (id q : float) : cart_body :=
  {| product_id := Js.Num id; quantity := Js.Num q |}.

(** The state after a request. *)
Definition after (d : db) (h : db -> db * option response) : db := fst (h d).

(** Alice has put two mice in the cart. *)
Definition two_mice : db := after shop (post_cart env (add 1 2) alice).

(** Alice has asked for 101 mice; 100 are in stock. *)
Definition too_many : db := after shop (post_cart env (add 1 101) alice).

(** Alice and Bob have each put 60 mice in the cart. *)
Definition two_lines : db :=
  after (after shop (post_cart env (add 1 60) alice))
        (post_cart env (add 1 60) bob).

(** After Alice's two mice went into the cart at 25.50, the catalog price
    of the mouse is raised to 30. *)
Definition repriced : db :=
  after two_mice (put_products env "1" (with_price 30) alice).

(** A shop with a pencil at 0.10 and an eraser at 0.20, and one of each in
    the cart. *)
Definition stationery : db :=
  {| store := {| users := [ {| u_id := 1; u_email := "alice@example.com" |} ];
                 products :=
                   [ {| p_id := 1; p_name := "Pencil"; p_description := None;
                        p_price := NVal 10; p_stock := 5;
                        p_image_url := None |};
                     {| p_id := 2; p_name := "Eraser"; p_description := None;
                        p_price := NVal 20; p_stock := 5;
                        p_image_url := None |} ];
                 orders := [];
                 order_items := [] |};
     products_id_seq := 3;
     orders_id_seq := 1;
     order_items_id_seq := 1 |}.

Definition pencil_and_eraser : db :=
  after (after stationery (post_cart env (add 1 1) alice))
        (post_cart env (add 2 1) alice).

(** Rows come back as the lists of the tables have them, as from a scan of
    tables that were only inserted into. *)
Definition table_order {R : Type} : executor R := fun _ => 0%nat.

(** Rows come back last first. *)
Definition last_first {R : Type} : executor R := fun rows => List.length rows.

(** 51 keyboards, then 101 mice, are in the cart: more than the 50 and
    the 100 in stock. *)
Definition both_short : db :=
  after (after shop (post_cart env (add 2 51) alice))
        (post_cart env (add 1 101) alice).

(** One mouse is left in stock, and it is in the cart. *)
Definition last_unit : db :=
  after (after shop (put_products env "1" (with_stock 1) alice))
        (post_cart env (add 1 1) alice).

(** A shop with a pencil at 0.10, an eraser at 0.20 and a ruler at 0.30,
    and one of each in the cart, the ruler first. *)
Definition three_prices : db :=
  let d := {| store :=
                {| users := [ {| u_id := 1; u_email := "alice@example.com" |} ];
                   products :=
                     [ {| p_id := 1; p_name := "Pencil"; p_description := None;
                          p_price := NVal 10; p_stock := 5;
                          p_image_url := None |};
                       {| p_id := 2; p_name := "Eraser"; p_description := None;
                          p_price := NVal 20; p_stock := 5;
                          p_image_url := None |};
                       {| p_id := 3; p_name := "Ruler"; p_description := None;
                          p_price := NVal 30; p_stock := 5;
                          p_image_url := None |} ];
                   orders := [];
                   order_items := [] |};
              products_id_seq := 4;
              orders_id_seq := 1;
              order_items_id_seq := 1 |} in
  after (after (after d (post_cart env (add 3 1) alice))
               (post_cart env (add 2 1) alice))
        (post_cart env (add 1 1) alice).

(** The connection is lost at COMMIT. *)
Definition commit_fails : faults :=
  fun s => match s with
           | Commit => true
           | _ => false
           end.

End Sample.

(** ** The route table *)

Module Routes.

Import Pg Server.

(** A request to one of the routes registered behind [verifyToken].  A
    request that selects rows comes with the order in which they come back,
    a checkout also with the statements that raise while it is served. *)
Inductive request :=
| GetProfile
| PostProducts (body : product_body)
| PutProducts (id : string) (body : product_body)
| DeleteProducts (id : string)
| PostCart (body : cart_body)
| GetCart (plan : executor cart_row)
| PostCheckout (plan : executor cart_item) (flt : faults).

Section Serving.

Variable env : environment.

Definition handler (req : request) : claims -> db -> db * option response :=
  match req with
  | GetProfile => get_profile
  | PostProducts body => post_products env body
  | PutProducts id body => put_products env id body
  | DeleteProducts id => delete_products env id
  | PostCart body => post_cart env body
  | GetCart plan => get_cart plan
  | PostCheckout plan flt => post_checkout env plan flt
  end.

Definition serve (authHeader : option string) (req : request) (d : db)
  : db * option response :=
  protected env (handler req) authHeader d.

(** The store after a sequence of requests, each with its Authorization
    header.  A request that ends the process leaves the requests after it
    unserved. *)
Fixpoint serve_all (reqs : list (option string * request)) (d : db) : db :=
  match reqs with
  | [] => d
  | (authHeader, req) :: rest =>
      match serve authHeader req d with
      | (d', Some _) => serve_all rest d'
      | (d', None) => d'
      end
  end.

End Serving.

(** Every key in a table was drawn from its sequence: it lies below the
    next value. *)
Definition sequenced (d : db) : Prop :=
  (forall p, In p (products (store d)) -> p_id p < products_id_seq d)
  /\ (forall o, In o (orders (store d)) -> o_id o < orders_id_seq d)
  /\ (forall l, In l (order_items (store d)) ->
                oi_id l < order_items_id_seq d).

End Routes.

(** ** The remaining routes: accounts and listings *)

Module Rest.

Import Pg Server.

(** A row of [users] with all its columns but [created_at]. *)
Record account := {
  a_id : Z;
  a_email : string;
  a_password_hash : string;
  a_is_admin : bool
}.

(** The [users] relation and its sequence: all that POST /api/register and
    POST /api/login read and write. *)
Record registry := {
  accounts : list account;
  users_id_seq : Z
}.

(** The libraries the two routes call.  [bcrypt_hash salt data] is
    [bcrypt.hash(data, 10)] when the library draws [salt]; it and
    [bcrypt_compare] raise ([None]) on data they do not take.
    [jwt_sign now payload] is [jwt.sign(payload, JWT_SECRET,
    { expiresIn: '1h' })] at time [now]. *)
Record crypto := {
  bcrypt_hash : string -> Js.value -> option string;
  bcrypt_compare : Js.value -> string -> option bool;
  jwt_sign : Z -> claims -> string
}.

(** [const { email, password } = req.body] *)
Record credentials := {
  cred_email : Js.value;
  cred_password : Js.value
}.

(** An item of the [items] array of an order. *)
Record order_line := {
  ol_product_id : Z;
  ol_name : string;
  ol_quantity : Z;
  ol_price : numeric
}.

(** A row of the order history, without [created_at]. *)
Record order_row := {
  or_order_id : Z;
  or_total_amount : numeric;
  or_status : string;
  or_items : list order_line
}.

(** JSON bodies of the replies of these routes. *)
Inductive content :=
| Failed (message : string)
| Registered (message : string) (id : Z) (user_email : string)
| LoggedIn (message : string) (token : string)
| ProductRows (rows : list product)
| OrderRows (rows : list order_row).

Record answer := {
  code : Z;
  body : content
}.

Definition server_error : answer :=
  {| code := 500; body := Failed "Internal server error." |}.

(** *** GET /api/products *)
Definition get_products (plan : executor product) (d : db) : db * answer :=
  (d, {| code := 200;
         body := ProductRows (returned plan (products (store d))) |}).

(** [FROM orders o JOIN order_items oi ON o.id = oi.order_id
     JOIN products p ON oi.product_id = p.id]: the rows of one order, each
    as the object [json_build_object] makes of it. *)
Definition order_lines (t : tables) (o : order) : list order_line :=
  flat_map (fun oi =>
              map (fun p => {| ol_product_id := p_id p; ol_name := p_name p;
                               ol_quantity := oi_quantity oi;
                               ol_price := oi_price oi |})
                  (filter (fun p => p_id p =? oi_product_id oi) (products t)))
           (filter (fun oi => match oi_order_id oi with
                              | Some k => k =? o_id o
                              | None => false
                              end) (order_items t)).

(** The row of a group; [json_agg] takes the rows of the group as the
    executor feeds them. *)
Definition order_row_of (plan : executor order_line) (t : tables)
  (o : order) : order_row :=
  {| or_order_id := o_id o; or_total_amount := o_total_amount o;
     or_status := o_status o;
     or_items := returned plan (order_lines t o) |}.

(** An order has a group in the history when the join has a row for it. *)
Definition has_lines (t : tables) (o : order) : bool :=
  match order_lines t o with
  | [] => false
  | _ :: _ => true
  end.

Section Handlers.

Variable env : environment.
Variable lib : crypto.

(** [ORDER BY o.created_at DESC]: the creation times are the clock's, and
    so is the order they put on the rows. *)
Variable newest_first : list order -> list order.

(** A route behind [verifyToken] whose handler answers with an [answer]. *)
Definition guarded {S : Type} (handler : claims -> S -> S * answer)
  (authHeader : option string) (s : S) : S * (response + answer) :=
  match verifyToken env authHeader with
  | Rejected res => (s, inl res)
  | Next user => let (s', a) := handler user s in (s', inr a)
  end.

(** *** GET /api/orders
    [orders.id] is the primary key, so [GROUP BY o.id] has one group for
    each order that the join keeps. *)
Definition get_orders (plan : executor order_line) (user : claims)
  (d : db) : db * answer :=
  let user_id := userId user in
  match bind_int4 (pg_input env) user_id with
  | Refused => (d, server_error)
  | IsNull => (d, {| code := 200; body := OrderRows [] |})
  | Val uid =>
      (d, {| code := 200;
             body := OrderRows
                       (map (order_row_of plan (store d))
                            (newest_first
                               (filter (fun o => (o_user_id o =? uid)
                                                 && has_lines (store d) o)
                                       (orders (store d))))) |})
  end.

(** *** POST /api/register
    The hash is sixty characters of ASCII and is stored as it is.  A key
    already present in [users_pkey] raises the same error code as an email
    already present. *)
Definition post_register (salt : string) (body : credentials) (r : registry)
  : registry * answer :=
  if negb (Js.truthy (cred_email body))
     || negb (Js.truthy (cred_password body))
  then (r, {| code := 400;
              body := Failed "Email and password are required." |})
  else
    match bcrypt_hash lib salt (cred_password body) with
    | None => (r, server_error)
    | Some passwordHash =>
        match required (bind_varchar (pg_input env) (cred_email body)) with
        | None => (r, server_error)
        | Some e =>
            let id := users_id_seq r in
            let drawn := {| accounts := accounts r;
                            users_id_seq := users_id_seq r + 1 |} in
            if negb (in_int4 id) then (drawn, server_error)
            else if existsb (fun a => a_id a =? id) (accounts r)
                    || existsb (fun a => String.eqb (a_email a) e)
                               (accounts r)
            then (drawn, {| code := 409;
                            body := Failed "Email already in use." |})
            else
              ({| accounts :=
                    accounts r
                    ++ [{| a_id := id; a_email := e;
                           a_password_hash := passwordHash;
                           a_is_admin := false |}];
                  users_id_seq := users_id_seq r + 1 |},
               {| code := 201;
                  body := Registered "User registered successfully!" id e |})
        end
    end.

(** *** POST /api/login
    The email is compared as the text the driver sends for it. *)
Definition post_login (now : Z) (body : credentials) (r : registry)
  : registry * answer :=
  if negb (Js.truthy (cred_email body))
     || negb (Js.truthy (cred_password body))
  then (r, {| code := 400;
              body := Failed "Email and password are required." |})
  else
    match bind_text (pg_input env) (cred_email body) with
    | Refused => (r, server_error)
    | IsNull => (r, {| code := 401; body := Failed "Invalid credentials." |})
    | Val e =>
        match filter (fun a => String.eqb (a_email a) e) (accounts r) with
        | [] => (r, {| code := 401; body := Failed "Invalid credentials." |})
        | user :: _ =>
            match bcrypt_compare lib (cred_password body)
                                 (a_password_hash user) with
            | None => (r, server_error)
            | Some false =>
                (r, {| code := 401; body := Failed "Invalid credentials." |})
            | Some true =>
                let token :=
                  jwt_sign lib now
                    {| userId := Js.Num (Js.number_of_Z (a_id user));
                       email := Js.Str (a_email user) |} in
                (r, {| code := 200;
                       body := LoggedIn "Login successful!" token |})
            end
        end
    end.

End Handlers.

End Rest.

(** ** Notions used by the further statements *)

Module Notions.

Import Pg Server Rest.

(** The field is missing from the body, or is [null]: the driver binds NULL
    for it. *)
Definition absent (v : Js.value) : Prop := v = Js.Undefined \/ v = Js.Null.

(** The update leaves a product as it is but for the columns whose field is
    present in the body. *)
Definition kept_where_absent (body : product_body) (p p' : product) : Prop :=
  p_id p' = p_id p
  /\ (absent (name body) -> p_name p' = p_name p)
  /\ (absent (description body) -> p_description p' = p_description p)
  /\ (absent (price body) -> p_price p' = p_price p)
  /\ (absent (stock body) -> p_stock p' = p_stock p)
  /\ (absent (image_url body) -> p_image_url p' = p_image_url p).

(** The lines bound to an order. *)
Definition lines_of (t : tables) (order_id : Z) : list order_item :=
  filter (fun oi => match oi_order_id oi with
                    | Some k => k =? order_id
                    | None => false
                    end) (order_items t).

(** The reference from [order_items.order_id] to [orders]. *)
Definition bound_lines_referenced (t : tables) : Prop :=
  forall l k, In l (order_items t) -> oi_order_id l = Some k ->
              exists o, In o (orders t) /\ o_id o = k.

(** The keys and references of the order history: the primary key of
    [orders], the reference from [orders.user_id] to [users], and the
    reference from bound lines to [orders]. *)
Definition history_consistent (t : tables) : Prop :=
  NoDup (map o_id (orders t))
  /\ (forall o, In o (orders t) -> In (o_user_id o) (map u_id (users t)))
  /\ bound_lines_referenced t.

(** An order line without its price snapshot. *)
Definition without_price (l : order_item) : Z * option Z * Z * Z :=
  (oi_id l, oi_order_id l, oi_product_id l, oi_quantity l).

(** Two stores that differ at most in the price snapshots of their order
    lines. *)
Definition same_but_snapshots (d1 d2 : db) : Prop :=
  users (store d1) = users (store d2)
  /\ products (store d1) = products (store d2)
  /\ orders (store d1) = orders (store d2)
  /\ map without_price (order_items (store d1))
     = map without_price (order_items (store d2))
  /\ orders_id_seq d1 = orders_id_seq d2.

(** [ORDER BY] neither drops nor invents a row. *)
Definition same_rows (newest_first : list order -> list order) : Prop :=
  forall os o, In o (newest_first os) <-> In o os.

(** What an item of the history shows of an order line. *)
Definition shows (l : order_item) (item : order_line) : Prop :=
  ol_product_id item = oi_product_id l
  /\ ol_quantity item = oi_quantity l
  /\ ol_price item = oi_price l.

(** UNIQUE on [users.email] and the primary key of [users]. *)
Definition distinct_accounts (r : registry) : Prop :=
  NoDup (map a_email (accounts r)) /\ NoDup (map a_id (accounts r)).

End Notions.

(** ** Sample libraries for the remaining routes *)

Module SampleRest.

Import Pg Server Rest.

(** Stand-ins for bcrypt and for the signing side of jsonwebtoken: the hash
    of a string is the string behind a fixed prefix, and the two users of
    [Sample.env] are signed the tokens that it verifies. *)
Definition lib : crypto :=
  {| bcrypt_hash := fun salt data =>
       match data with
       | Js.Str p => Some ("$2b$10$" ++ p)%string
       | _ => None
       end;
     bcrypt_compare := fun data hash =>
       match data with
       | Js.Str p => Some (String.eqb hash ("$2b$10$" ++ p)%string)
       | _ => None
       end;
     jwt_sign := fun now payload =>
       match email payload with
       | Js.Str e =>
           if String.eqb e "alice@example.com" then "alice.token"%string
           else if String.eqb e "bob@example.com" then "bob.token"%string
           else "other.token"%string
       | _ => "other.token"%string
       end |}.

(** Creation times grow with the keys: the newest order is the last row. *)
Definition newest_first (os : list order) : list order := rev os.

Definition nobody : registry := {| accounts := []; users_id_seq := 1 |}.

Definition alice_signs_up : credentials :=
  {| cred_email := Js.Str "alice@example.com";
     cred_password := Js.Str "correct horse" |}.

End SampleRest.

(** * Properties *)

Import Pg Server Spec.

(** ** The order of rows *)

Lemma take_permutation {R : Type} (i : nat) (r : R) (rest : list R) :
  Permutation (r :: rest) (fst (take i r rest) :: snd (take i r rest)).
Proof.
  revert r rest. induction i as [|j IH]; intros r rest; simpl.
  - destruct rest; apply Permutation_refl.
  - destruct rest as [|r' rest']; [apply Permutation_refl|].
    specialize (IH r' rest').
    destruct (take j r' rest') as [x others]. simpl in *.
    apply Permutation_trans with (r :: x :: others).
    + now apply perm_skip.
    + apply perm_swap.
Qed.

Lemma take_length {R : Type} (i : nat) (r : R) (rest : list R) :
  List.length (snd (take i r rest)) = List.length rest.
Proof.
  revert r rest. induction i as [|j IH]; intros r rest; simpl.
  - destruct rest; reflexivity.
  - destruct rest as [|r' rest']; [reflexivity|].
    specialize (IH r' rest').
    destruct (take j r' rest') as [x others]. simpl in *. now rewrite IH.
Qed.

Lemma produce_permutation {R : Type} (next : executor R) (n : nat) :
  forall rows, List.length rows = n -> Permutation (produce next n rows) rows.
Proof.
  induction n as [|m IH]; intros rows Hn.
  - destruct rows; [apply Permutation_refl | discriminate].
  - destruct rows as [|r rest]; [discriminate|]. simpl.
    pose proof (take_permutation (next (r :: rest)) r rest) as P.
    pose proof (take_length (next (r :: rest)) r rest) as L.
    destruct (take (next (r :: rest)) r rest) as [x others]. simpl in *.
    apply Permutation_trans with (x :: others).
    + apply perm_skip. apply IH. rewrite L. now injection Hn.
    + now apply Permutation_sym.
Qed.

(** Whatever the executor, a query returns each of its rows once. *)
Lemma returned_permutation {R : Type} (next : executor R) (rows : list R) :
  Permutation (returned next rows) rows.
Proof. now apply produce_permutation. Qed.

Lemma returned_in {R : Type} (next : executor R) (rows : list R) (x : R) :
  In x (returned next rows) <-> In x rows.
Proof.
  split; apply Permutation_in;
    [|apply Permutation_sym]; apply returned_permutation.
Qed.

Lemma returned_nil {R : Type} (next : executor R) (rows : list R) :
  returned next rows = [] <-> rows = [].
Proof.
  split; intro H.
  - apply Permutation_nil. rewrite <- H. apply returned_permutation.
  - subst rows. reflexivity.
Qed.

Lemma returned_table_order {R : Type} (rows : list R) :
  returned Sample.table_order rows = rows.
Proof.
  unfold returned. induction rows as [|r rest IH]; simpl; [reflexivity|].
  f_equal. exact IH.
Qed.

Lemma produce_ext {R : Type} (next next' : executor R) (n : nat) :
  forall rows,
    (forall l, (List.length l <= List.length rows)%nat -> next l = next' l) ->
    produce next n rows = produce next' n rows.
Proof.
  induction n as [|m IH]; intros rows H; [reflexivity|].
  destruct rows as [|r rest]; [reflexivity|]. simpl.
  rewrite <- (H (r :: rest)) by reflexivity.
  pose proof (take_length (next (r :: rest)) r rest) as L.
  destruct (take (next (r :: rest)) r rest) as [x others]. simpl in L.
  f_equal. apply IH. intros l Hl. apply H. simpl. rewrite L in Hl. lia.
Qed.

Lemma take_at {R : Type} (before : list R) (x : R) (after : list R) :
  forall r rest, r :: rest = before ++ x :: after ->
                 take (List.length before) r rest = (x, before ++ after).
Proof.
  induction before as [|b before IH]; simpl; intros r rest E.
  - injection E as -> ->. destruct after; reflexivity.
  - injection E as -> ->.
    destruct (before ++ x :: after) as [|r' rest'] eqn:E.
    { destruct before; discriminate. }
    cbn [take List.length]. rewrite (IH r' rest' eq_refl). reflexivity.
Qed.

(** A relation that holds row by row holds of the rows as they come back,
    for the other side taken in the same order. *)
Lemma Forall2_returned {A B : Type} (P : A -> B -> Prop) (plan : executor B)
  (l : list A) (rows : list B) :
  Forall2 P l rows ->
  exists l', Permutation l' l /\ Forall2 P l' (returned plan rows).
Proof.
  intro F. apply Forall2_flip in F.
  destruct (Permutation_Forall2
              (Permutation_sym (returned_permutation plan rows)) F)
    as (l' & Pl & F').
  exists l'. split; [now apply Permutation_sym|].
  exact (Forall2_flip F').
Qed.

(** Every order of the rows is the order of some executor. *)
Lemma returned_any_order {R : Type} (rows' : list R) :
  forall rows, Permutation rows rows' ->
               exists next : executor R, returned next rows = rows'.
Proof.
  induction rows' as [|x rest' IH]; intros rows P.
  - apply Permutation_sym, Permutation_nil in P. subst rows.
    exists (fun _ => 0%nat). reflexivity.
  - assert (Hin : In x rows).
    { apply (Permutation_in x (Permutation_sym P)). now left. }
    apply in_split in Hin. destruct Hin as (before & after & ->).
    apply Permutation_sym, Permutation_cons_app_inv, Permutation_sym in P.
    destruct (IH _ P) as [next' Hnext'].
    exists (fun l =>
              if (List.length l =? List.length (before ++ x :: after))%nat
              then List.length before else next' l).
    unfold returned.
    destruct (before ++ x :: after) as [|r rest] eqn:E.
    { destruct before; discriminate. }
    cbn [List.length produce]. rewrite Nat.eqb_refl.
    rewrite (take_at before x after r rest (eq_sym E)).
    f_equal.
    assert (L : List.length rest = List.length (before ++ after)).
    { apply (f_equal (@List.length R)) in E. rewrite length_app in *.
      simpl in E. lia. }
    rewrite L, <- Hnext'. unfold returned. apply produce_ext.
    intros l Hl. cbv beta.
    match goal with
    | |- (if ?c then _ else _) = _ => destruct c eqn:Q
    end; [apply Nat.eqb_eq in Q; lia | reflexivity].
Qed.

(** ** The token check *)

Lemma split_without_separator (sep : ascii) (s : string) :
  contains sep s = false -> Js.split sep s = [s].
Proof.
  induction s as [|a rest IH]; simpl; intro H.
  - reflexivity.
  - apply orb_false_iff in H. destruct H as [Ha Hrest].
    rewrite Ha, (IH Hrest). reflexivity.
Qed.

Lemma bearer_token_of_header (token : string) :
  contains " " token = false ->
  bearer_token (Some ("Bearer " ++ token)%string) = Some token.
Proof.
  intro H. unfold bearer_token. simpl.
  rewrite (split_without_separator _ _ H). reflexivity.
Qed.

(** C9: a protected route answers 401 without running its handler when the
    request carries no bearer token, 403 without running its handler when
    the token does not verify, and otherwise runs the handler with the
    identity decoded from the token.  This holds for the token the
    middleware extracts from any header, and in particular for a missing
    header and for headers of the form [Bearer <token>]. *)
Theorem verifyToken_guards_protected_routes
  (env : environment) (S : Type)
  (handler : claims -> S -> S * option response) (s : S) :
  (forall authHeader,
      match bearer_token authHeader with
      | None =>
          protected env handler authHeader s
          = (s, Some {| status := 401;
                        json := Message "Authorization token is missing." |})
      | Some token =>
          match jwt_verify env token with
          | None =>
              protected env handler authHeader s
              = (s, Some {| status := 403; json := Message "Invalid token." |})
          | Some user => protected env handler authHeader s = handler user s
          end
      end)
  /\ protected env handler None s
     = (s, Some {| status := 401;
                   json := Message "Authorization token is missing." |})
  /\ (forall token,
         contains " " token = false ->
         jwt_verify env token = None ->
         protected env handler (Some ("Bearer " ++ token)%string) s
         = (s, Some {| status := 403; json := Message "Invalid token." |}))
  /\ (forall token user,
         contains " " token = false ->
         jwt_verify env token = Some user ->
         protected env handler (Some ("Bearer " ++ token)%string) s
         = handler user s).
Proof.
  assert (general : forall authHeader,
      match bearer_token authHeader with
      | None =>
          protected env handler authHeader s
          = (s, Some {| status := 401;
                        json := Message "Authorization token is missing." |})
      | Some token =>
          match jwt_verify env token with
          | None =>
              protected env handler authHeader s
              = (s, Some {| status := 403; json := Message "Invalid token." |})
          | Some user => protected env handler authHeader s = handler user s
          end
      end).
  { intro authHeader. unfold protected, verifyToken.
    destruct (bearer_token authHeader) as [token|]; [|reflexivity].
    destruct (jwt_verify env token) as [user|]; reflexivity. }
  split; [exact general|]. split; [exact (general None)|]. split.
  - intros token Hsp Hbad.
    pose proof (general (Some ("Bearer " ++ token)%string)) as G.
    rewrite (bearer_token_of_header _ Hsp), Hbad in G. exact G.
  - intros token user Hsp Hok.
    pose proof (general (Some ("Bearer " ++ token)%string)) as G.
    rewrite (bearer_token_of_header _ Hsp), Hok in G. exact G.
Qed.

Lemma verifyToken_guards_protected_routes_witness :
  protected Sample.env (post_cart Sample.env (Sample.add 1 2))
            (Some "Bearer alice.token"%string) Sample.shop
  = post_cart Sample.env (Sample.add 1 2) Sample.alice Sample.shop
  /\ protected Sample.env (post_cart Sample.env (Sample.add 1 2))
               (Some "Bearer mallory.token"%string) Sample.shop
     = (Sample.shop,
        Some {| status := 403; json := Message "Invalid token." |}).
Proof.
  split.
  - apply (proj2 (proj2 (proj2
             (verifyToken_guards_protected_routes Sample.env db
                (post_cart Sample.env (Sample.add 1 2)) Sample.shop)))
             "alice.token"%string Sample.alice); reflexivity.
  - apply (proj1 (proj2 (proj2
             (verifyToken_guards_protected_routes Sample.env db
                (post_cart Sample.env (Sample.add 1 2)) Sample.shop)))
             "mallory.token"%string); reflexivity.
Defined.

(** ** Creating a product *)

(** C10: POST /api/products answers 400 and stores nothing whenever name,
    price or stock is falsy; a price of 0 or a stock of 0 is falsy and so is
    rejected, although the columns would take either value. *)
Theorem post_products_rejects_falsy_fields
  (env : environment) (body : product_body) (user : claims) (d : db) :
  (Js.truthy (name body) = false \/ Js.truthy (price body) = false
   \/ Js.truthy (stock body) = false ->
   post_products env body user d
   = (d, Some {| status := 400;
                 json := Message "Name, price, and stock are required." |}))
  /\ (price body = Js.Num 0 \/ stock body = Js.Num 0 ->
      post_products env body user d
      = (d, Some {| status := 400;
                    json := Message "Name, price, and stock are required." |}))
  /\ bind_numeric (pg_input env) (Js.Num 0) = Val (NVal 0)
  /\ bind_int4 (pg_input env) (Js.Num 0) = Val 0.
Proof.
  assert (falsy : Js.truthy (name body) = false
                  \/ Js.truthy (price body) = false
                  \/ Js.truthy (stock body) = false ->
                  post_products env body user d
                  = (d, Some {| status := 400;
                                json := Message
                                  "Name, price, and stock are required." |})).
  { intro H. unfold post_products.
    destruct H as [H | [H | H]]; rewrite H; simpl;
      rewrite ?orb_true_r; reflexivity. }
  split; [exact falsy|]. split; [|split; reflexivity].
  intros [H | H]; apply falsy; rewrite H; auto.
Qed.

Lemma post_products_rejects_falsy_fields_witness :
  post_products Sample.env
    {| name := Js.Str "Gift card"; description := Js.Undefined;
       price := Js.Num 0; stock := Js.Num 10; image_url := Js.Undefined |}
    Sample.alice Sample.shop
  = (Sample.shop,
     Some {| status := 400;
             json := Message "Name, price, and stock are required." |})
  /\ post_products Sample.env
       {| name := Js.Str "Gift card"; description := Js.Undefined;
          price := Js.Num 5; stock := Js.Num 0; image_url := Js.Undefined |}
       Sample.alice Sample.shop
     = (Sample.shop,
        Some {| status := 400;
                json := Message "Name, price, and stock are required." |}).
Proof.
  split.
  - apply (proj1 (post_products_rejects_falsy_fields Sample.env _ _ _)).
    right; left; reflexivity.
  - apply (proj1 (proj2 (post_products_rejects_falsy_fields Sample.env _ _ _))).
    right; reflexivity.
Defined.

(** ** The checkout transaction *)

Section Checkout.

Variable env : environment.
Variable flt : faults.

(** The loop adds to the total what [step] adds: [parseFloat] gives the
    binary64 value nearest to the price. *)
Lemma loop_step (total : float) (item : cart_item) :
  PrimFloat.add total
    (PrimFloat.mul (parseFloat (ci_price item))
                   (Js.number_of_Z (ci_quantity item)))
  = step total item.
Proof. destruct item as [i pid q [cents|] st]; reflexivity. Qed.

Lemma verify_stock_aborted (cartItems : list cart_item) (total : float) :
  match verify_stock flt cartItems total Aborted with
  | Insufficient _ tx | Verified _ tx => tx = Aborted
  end.
Proof.
  revert total. induction cartItems as [|item rest IH]; intro total; simpl.
  - reflexivity.
  - destruct (ci_quantity item >? ci_stock item); [reflexivity|]. apply IH.
Qed.

Lemma verify_stock_total (cartItems : list cart_item) :
  forall total tx total' tx',
    verify_stock flt cartItems total tx = Verified total' tx' ->
    total' = fold_left step cartItems total
    /\ Forall (fun item => ci_quantity item <= ci_stock item) cartItems.
Proof.
  induction cartItems as [|item rest IH]; simpl; intros total tx total' tx' H.
  - inversion H; subst. split; [reflexivity | constructor].
  - destruct (ci_quantity item >? ci_stock item) eqn:Hq; [discriminate|].
    apply IH in H. destruct H as [Ht Hall]. split; [exact Ht|].
    constructor; [|exact Hall].
    rewrite Z.gtb_ltb, Z.ltb_ge in Hq. exact Hq.
Qed.

Lemma verify_stock_passes (cartItems : list cart_item) :
  forall total tx,
    Forall (fun item => ci_quantity item <= ci_stock item) cartItems ->
    exists tx', verify_stock flt cartItems total tx
                = Verified (fold_left step cartItems total) tx'.
Proof.
  induction cartItems as [|item rest IH]; simpl; intros total tx Hall.
  - exists tx. reflexivity.
  - inversion Hall as [|? ? Hq Hrest]; subst.
    replace (ci_quantity item >? ci_stock item) with false
      by (symmetry; rewrite Z.gtb_ltb; apply Z.ltb_ge; exact Hq).
    apply IH. exact Hrest.
Qed.

Lemma set_stock_id (p : product) (n : Z) : p_id (set_stock n p) = p_id p.
Proof. reflexivity. Qed.

(** The queued updates, when none of them raised, leave every stock lowered
    by the units requested of its product and touch nothing else. *)
Lemma verify_stock_live (cartItems : list cart_item) :
  forall total t total' t',
    verify_stock flt cartItems total (Live t) = Verified total' (Live t') ->
    users t' = users t /\ orders t' = orders t
    /\ order_items t' = order_items t
    /\ products t'
       = map (fun p => set_stock (p_stock p - requested (p_id p) cartItems) p)
             (products t).
Proof.
  induction cartItems as [|item rest IH]; simpl; intros total t total' t' H.
  - inversion H; subst. repeat split; try reflexivity.
    rewrite <- (map_id (products t')) at 1. apply map_ext.
    intros [i n dsc pr st img]. unfold set_stock; simpl. f_equal. lia.
  - destruct (ci_quantity item >? ci_stock item); [discriminate|].
    destruct (flt (UpdateStock (ci_id item))).
    { pose proof (verify_stock_aborted rest (step total item)) as A.
      rewrite <- loop_step, H in A. discriminate. }
    unfold sql_update_stock in H.
    destruct (existsb _ (products t)).
    { pose proof (verify_stock_aborted rest (step total item)) as A.
      rewrite <- loop_step, H in A. discriminate. }
    apply IH in H. simpl in H. destruct H as (Hu & Ho & Hl & Hp).
    repeat split; try assumption.
    rewrite Hp, map_map. apply map_ext. intro p.
    destruct (p_id p =? ci_product_id item) eqn:Hid.
    + rewrite set_stock_id. rewrite Z.eqb_sym in Hid. rewrite Hid.
      destruct p as [i n dsc pr st img]. unfold set_stock; simpl.
      f_equal. lia.
    + rewrite Z.eqb_sym in Hid. rewrite Hid. reflexivity.
Qed.

(** Every way the handler can end once it has its rows: without a trace in
    the tables, or with the order inserted, the cart bound and the queued
    updates applied. *)
Lemma checkout_from_outcome (user : claims) (cartItems : list cart_item)
  (d d' : db) (r : option response) :
  checkout_from env flt user cartItems d = (d', r) ->
  (store d' = store d
   /\ (r = None \/ r = Some internal_error \/ r = Some framework_error
       \/ (cartItems = []
           /\ r = Some {| status := 400;
                          json := Message "Your cart is empty." |})
       \/ exists pid,
            r = Some {| status := 400; json := InsufficientStock pid |}))
  \/ (exists totalAmount t1 uid amount t2,
         cartItems <> []
         /\ verify_stock flt cartItems 0%float (Live (store d))
            = Verified totalAmount (Live t1)
         /\ bind_int4 (pg_input env) (userId user) = Val uid
         /\ numeric_of_number totalAmount = Some amount
         /\ sql_insert_order (orders_id_seq d) uid amount "completed" t1
            = Some t2
         /\ d' = set_store (sql_bind_cart (orders_id_seq d) t2)
                           (next_orders_id d)
         /\ r = Some {| status := 200;
                        json := CheckoutReply "Checkout successful!"
                                              (orders_id_seq d)
                                              totalAmount |}).
Proof.
  intro H. unfold checkout_from, caught in H.
  assert (undone : forall d0 : db,
             store d0 = store d ->
             (d0, Some (if flt CatchRollback then framework_error
                        else internal_error))
             = (d', r) ->
             store d' = store d /\ (r = None \/ r = Some internal_error
               \/ r = Some framework_error
               \/ (cartItems = []
                   /\ r = Some {| status := 400;
                                  json := Message "Your cart is empty." |})
               \/ exists pid,
                    r = Some {| status := 400;
                                json := InsufficientStock pid |})).
  { intros d0 Hd0 E. inversion E; subst. split; [exact Hd0|].
    destruct (flt CatchRollback); auto. }
  destruct cartItems as [|item rest].
  { destruct (flt Rollback).
    - left. apply (undone d); [reflexivity | exact H].
    - inversion H; subst. left. split; [reflexivity|]. auto 6. }
  destruct (verify_stock flt (item :: rest) 0%float (Live (store d)))
    as [pid [t1|] | totalAmount [t1|]] eqn:Hloop.
  - destruct (flt Rollback).
    + left. apply (undone d); [reflexivity | exact H].
    + inversion H; subst. left. split; [reflexivity|].
      right; right; right; right. exists pid. reflexivity.
  - inversion H; subst. left. split; [reflexivity|]. now left.
  - destruct (flt InsertOrder).
    { left. apply (undone d); [reflexivity | exact H]. }
    destruct (bind_int4 (pg_input env) (userId user)) as [| |uid] eqn:Huid.
    + left. apply (undone d); [reflexivity | exact H].
    + left. destruct (numeric_of_number totalAmount).
      * apply (undone (next_orders_id d)); [reflexivity | exact H].
      * apply (undone d); [reflexivity | exact H].
    + destruct (numeric_of_number totalAmount) as [amount|] eqn:Hamount;
        [|left; apply (undone d); [reflexivity | exact H]].
      destruct (sql_insert_order (orders_id_seq d) uid amount "completed" t1)
        as [t2|] eqn:Hins;
        [|left; apply (undone (next_orders_id d)); [reflexivity | exact H]].
      destruct (flt BindCart);
        [left; apply (undone (next_orders_id d)); [reflexivity | exact H]|].
      destruct (flt Commit);
        [left; apply (undone (next_orders_id d)); [reflexivity | exact H]|].
      inversion H; subst. right.
      exists totalAmount, t1, uid, amount, t2.
      repeat split; try assumption; try reflexivity. discriminate.
  - inversion H; subst. left. split; [reflexivity|]. now left.
Qed.

(** The same for the handler served alone, on the rows of its SELECT. *)
Lemma post_checkout_outcome (plan : executor cart_item) (user : claims)
  (d d' : db) (r : option response) :
  post_checkout env plan flt user d = (d', r) ->
  (store d' = store d
   /\ (r = None \/ r = Some internal_error \/ r = Some framework_error
       \/ (cart_join cart_item_of (store d) = []
           /\ r = Some {| status := 400;
                          json := Message "Your cart is empty." |})
       \/ exists pid,
            r = Some {| status := 400; json := InsufficientStock pid |}))
  \/ (exists totalAmount t1 uid amount t2,
         cart_join cart_item_of (store d) <> []
         /\ verify_stock flt (select_cart_items plan (store d)) 0%float
                         (Live (store d))
            = Verified totalAmount (Live t1)
         /\ bind_int4 (pg_input env) (userId user) = Val uid
         /\ numeric_of_number totalAmount = Some amount
         /\ sql_insert_order (orders_id_seq d) uid amount "completed" t1
            = Some t2
         /\ d' = set_store (sql_bind_cart (orders_id_seq d) t2)
                           (next_orders_id d)
         /\ r = Some {| status := 200;
                        json := CheckoutReply "Checkout successful!"
                                              (orders_id_seq d)
                                              totalAmount |}).
Proof.
  unfold post_checkout. intro H.
  destruct (flt Connect).
  { inversion H; subst. left. split; [reflexivity|]. auto. }
  destruct (flt Begin || flt SelectCart).
  { unfold caught in H. inversion H; subst. left. split; [reflexivity|].
    destruct (flt CatchRollback); auto. }
  apply checkout_from_outcome in H.
  destruct H as [[Hs Hr] | (total & t1 & uid & amount & t2 & Hne & Hrest)].
  - left. split; [exact Hs|].
    destruct Hr as [Hr | [Hr | [Hr | [[Hnil Hr] | Hr]]]]; auto.
    right; right; right; left. split; [|exact Hr].
    unfold select_cart_items in Hnil. now apply returned_nil in Hnil.
  - right. exists total, t1, uid, amount, t2. split; [|exact Hrest].
    intro E. apply Hne. unfold select_cart_items. rewrite E. reflexivity.
Qed.

End Checkout.

Lemma cart_join_empty {R : Type} (row : order_item -> product -> R)
  (t : tables) :
  cart t = [] -> cart_join row t = [].
Proof. unfold cart, cart_join. intro H. rewrite H. reflexivity. Qed.

Lemma sql_insert_order_some (id uid : Z) (amount : numeric) (st : string)
  (t t2 : tables) :
  sql_insert_order id uid amount st t = Some t2 ->
  t2 = set_orders (orders t ++ [{| o_id := id; o_user_id := uid;
                                   o_total_amount := amount;
                                   o_status := st |}]) t
  /\ existsb (fun u => u_id u =? uid) (users t) = true.
Proof.
  unfold sql_insert_order. intro H.
  destruct (in_int4 id && negb (existsb (fun o => o_id o =? id) (orders t))
            && existsb (fun u => u_id u =? uid) (users t)) eqn:E;
    [|discriminate].
  inversion H; subst. split; [reflexivity|].
  apply andb_true_iff in E. tauto.
Qed.

(** C6: with no cart line in the store, the checkout leaves the whole store
    as it was, so no order is created; it answers 400 "Your cart is empty."
    whenever the statements it issues are served, and 500 when one of them
    raises. *)
Theorem checkout_empty_cart
  (env : environment) (plan : executor cart_item) (flt : faults)
  (user : claims) (d : db) :
  cart (store d) = [] ->
  fst (post_checkout env plan flt user d) = d
  /\ (flt Connect = false -> flt Begin = false -> flt SelectCart = false ->
      flt Rollback = false ->
      snd (post_checkout env plan flt user d)
      = Some {| status := 400; json := Message "Your cart is empty." |})
  /\ (forall res, snd (post_checkout env plan flt user d) = Some res ->
                  status res = 400 \/ status res = 500).
Proof.
  intro Hcart. unfold post_checkout, select_cart_items, checkout_from, caught.
  rewrite (cart_join_empty cart_item_of _ Hcart).
  destruct (flt Connect), (flt Begin), (flt SelectCart), (flt Rollback),
    (flt CatchRollback); simpl;
    (split; [reflexivity|]); (split; [try discriminate; reflexivity|]);
    intros res E; inversion E; subst; simpl; auto.
Qed.

Lemma checkout_empty_cart_witness :
  post_checkout Sample.env Sample.table_order no_faults Sample.bob Sample.shop
  = (Sample.shop,
     Some {| status := 400; json := Message "Your cart is empty." |}).
Proof.
  pose proof (checkout_empty_cart Sample.env Sample.table_order no_faults
                Sample.bob Sample.shop eq_refl) as [Hd [Hr _]].
  rewrite (surjective_pairing (post_checkout _ _ _ _ _)).
  rewrite Hd, (Hr eq_refl eq_refl eq_refl eq_refl). reflexivity.
Defined.

Lemma sql_bind_cart_lines (order_id : Z) (t : tables) :
  order_items (sql_bind_cart order_id t)
  = map (bound_to order_id) (order_items t).
Proof.
  unfold sql_bind_cart. simpl. apply map_ext. intro l.
  unfold bound_to, in_cart, set_order_id.
  destruct (oi_order_id l); reflexivity.
Qed.

Lemma bound_to_bound (order_id : Z) (l : order_item) :
  oi_order_id (bound_to order_id l) <> None.
Proof.
  unfold bound_to. destruct (oi_order_id l) eqn:E; simpl; congruence.
Qed.

(** What a committed checkout has written, from the rows it was run on. *)
Lemma committed_tables (flt : faults) (cartItems : list cart_item)
  (d : db) (total : float) (t1 t2 : tables) (uid : Z) (amount : numeric) :
  verify_stock flt cartItems 0%float (Live (store d))
  = Verified total (Live t1) ->
  sql_insert_order (orders_id_seq d) uid amount "completed" t1 = Some t2 ->
  let t3 := sql_bind_cart (orders_id_seq d) t2 in
  users t3 = users (store d)
  /\ products t3
     = map (fun p => lowered (requested (p_id p) cartItems) p)
           (products (store d))
  /\ orders t3
     = orders (store d)
       ++ [{| o_id := orders_id_seq d; o_user_id := uid;
              o_total_amount := amount; o_status := "completed" |}]
  /\ order_items t3
     = map (bound_to (orders_id_seq d)) (order_items (store d)).
Proof.
  intros Hloop Hins t3. subst t3. rewrite sql_bind_cart_lines.
  apply verify_stock_live in Hloop. destruct Hloop as (Hu & Ho & Hl & Hp).
  apply sql_insert_order_some in Hins. destruct Hins as [-> _]. simpl.
  rewrite Hu, Ho, Hl, Hp. repeat split; reflexivity.
Qed.

(** C3: a checkout either commits everything together -- the new order of
    the calling user, every stock lowered by the units its product was asked
    for, and every cart line bound to the order, so that no line is left in
    the cart -- or leaves users, products, orders and order lines exactly as
    they were; the second is the case whenever the reply is not 200 (empty
    cart, insufficient stock, any statement raising after the transaction
    opened) and when the process ends without a reply. *)
Theorem checkout_all_or_nothing
  (env : environment) (plan : executor cart_item) (flt : faults)
  (user : claims) (d d' : db) (r : option response) :
  post_checkout env plan flt user d = (d', r) ->
  (exists totalAmount uid amount,
      r = Some {| status := 200;
                  json := CheckoutReply "Checkout successful!"
                                        (orders_id_seq d) totalAmount |}
      /\ totalAmount
         = fold_left step (select_cart_items plan (store d)) 0%float
      /\ bind_int4 (pg_input env) (userId user) = Val uid
      /\ numeric_of_number totalAmount = Some amount
      /\ Permutation
           (orders (store d'))
           ({| o_id := orders_id_seq d; o_user_id := uid;
               o_total_amount := amount; o_status := "completed" |}
            :: orders (store d))
      /\ Permutation
           (products (store d'))
           (map (fun p =>
                   lowered (requested (p_id p)
                                      (select_cart_items plan (store d))) p)
                (products (store d)))
      /\ Permutation
           (order_items (store d'))
           (map (bound_to (orders_id_seq d)) (order_items (store d)))
      /\ (forall l, In l (order_items (store d')) -> oi_order_id l <> None)
      /\ users (store d') = users (store d))
  \/ (store d' = store d
      /\ (r = None
          \/ exists res, r = Some res
                         /\ (status res = 400 \/ status res = 500))).
Proof.
  intro H. apply post_checkout_outcome in H.
  destruct H as [[Hs Hr] | (total & t1 & uid & amount & t2 & _ & Hloop
                             & Huid & Hamount & Hins & Hd & Hr)].
  - right. split; [exact Hs|].
    destruct Hr as [Hr | [Hr | [Hr | [[_ Hr] | [pid Hr]]]]];
      [now left | right ..]; (eexists; split; [exact Hr|]); simpl; auto.
  - left. exists total, uid, amount.
    pose proof (verify_stock_total _ _ _ _ _ _ Hloop) as [Htotal _].
    destruct (committed_tables _ _ _ _ _ _ _ _ Hloop Hins)
      as (Hu & Hp & Ho & Hl).
    subst d'. cbn [store set_store]. rewrite Hu, Hp, Ho, Hl.
    repeat split; try assumption; try reflexivity.
    + apply Permutation_sym, Permutation_cons_append.
    + intros l Hin. apply in_map_iff in Hin. destruct Hin as (l0 & <- & _).
      apply bound_to_bound.
Qed.

Lemma checkout_all_or_nothing_witness :
  (let out := post_checkout Sample.env Sample.table_order no_faults
                            Sample.alice Sample.two_mice in
   order_items (store (fst out))
   = [{| oi_id := 1; oi_order_id := Some 1; oi_product_id := 1;
         oi_quantity := 2; oi_price := NVal 2550 |}]
   /\ orders (store (fst out))
      = [{| o_id := 1; o_user_id := 1; o_total_amount := NVal 5100;
            o_status := "completed" |}]
   /\ Permutation (map p_stock (products (store (fst out)))) [98; 50])
  /\ (let out := post_checkout Sample.env Sample.table_order
                               Sample.commit_fails Sample.alice
                               Sample.two_mice
      in store (fst out) = store Sample.two_mice
         /\ snd out = Some internal_error).
Proof.
  split; intro out.
  - destruct (checkout_all_or_nothing Sample.env Sample.table_order
                no_faults Sample.alice Sample.two_mice (fst out) (snd out)
                (surjective_pairing out))
      as [(total & uid & amount & Hr & _ & Huid & Hamount & Ho & Hp & Hl & _)
         | [Hs _]].
    + vm_compute in Hr. injection Hr as <-.
      vm_compute in Huid. injection Huid as <-.
      vm_compute in Hamount. injection Hamount as <-.
      split; [|split].
      * symmetry. apply Permutation_length_1_inv, Permutation_sym. exact Hl.
      * symmetry. apply Permutation_length_1_inv, Permutation_sym. exact Ho.
      * exact (Permutation_map p_stock Hp).
    + discriminate Hs.
  - destruct (checkout_all_or_nothing Sample.env Sample.table_order
                Sample.commit_fails Sample.alice Sample.two_mice (fst out)
                (snd out) (surjective_pairing out))
      as [(total & uid & amount & Hr & _) | [Hs _]].
    + discriminate Hr.
    + split; [exact Hs | reflexivity].
Defined.

(** ** The cart as a join *)

Lemma filter_none {A : Type} (f : A -> bool) (l : list A) :
  (forall x, In x l -> f x = false) -> filter f l = [].
Proof.
  induction l as [|a l IH]; simpl; intro H; [reflexivity|].
  rewrite (H a (or_introl eq_refl)). apply IH. intros x Hx. apply H. now right.
Qed.

Lemma key_injective (ps : list product) (p q : product) :
  NoDup (map p_id ps) -> In p ps -> In q ps -> p_id p = p_id q -> p = q.
Proof.
  induction ps as [|a ps IH]; simpl; intros Hnd Hp Hq E; [contradiction|].
  inversion Hnd as [|? ? Hnotin Hrest]; subst.
  destruct Hp as [Hp | Hp], Hq as [Hq | Hq]; subst.
  - reflexivity.
  - exfalso. apply Hnotin. rewrite E. now apply in_map.
  - exfalso. apply Hnotin. rewrite <- E. now apply in_map.
  - now apply IH.
Qed.

Lemma filter_key (ps : list product) (p : product) :
  NoDup (map p_id ps) -> In p ps ->
  filter (fun q => p_id q =? p_id p) ps = [p].
Proof.
  induction ps as [|a ps IH]; simpl; intros Hnd Hp; [contradiction|].
  inversion Hnd as [|? ? Hnotin Hrest]; subst.
  destruct Hp as [Hp | Hp].
  - subst a. rewrite Z.eqb_refl. f_equal. apply filter_none.
    intros x Hx. apply Z.eqb_neq. intro E. apply Hnotin.
    rewrite <- E. now apply in_map.
  - replace (p_id a =? p_id p) with false; [now apply IH|].
    symmetry. apply Z.eqb_neq. intro E. apply Hnotin.
    rewrite E. now apply in_map.
Qed.

Lemma cart_join_in {R : Type} (row : order_item -> product -> R)
  (t : tables) (x : R) :
  In x (cart_join row t) ->
  exists l p, In l (cart t) /\ In p (products t)
              /\ p_id p = oi_product_id l /\ x = row l p.
Proof.
  unfold cart_join. intro H. apply in_flat_map in H.
  destruct H as (l & Hl & Hx). apply in_map_iff in Hx.
  destruct Hx as (p & Hrow & Hp). apply filter_In in Hp.
  destruct Hp as [Hp Hid]. apply Z.eqb_eq in Hid.
  exists l, p. auto.
Qed.

(** In a consistent store the join has exactly one row for each cart
    line. *)
Lemma cart_join_lines {R : Type} (row : order_item -> product -> R)
  (t : tables) :
  consistent t ->
  Forall2 (fun l x => In l (cart t)
                      /\ exists p, In p (products t)
                                   /\ p_id p = oi_product_id l
                                   /\ x = row l p)
          (cart t) (cart_join row t).
Proof.
  intros [Hkey Href]. unfold cart_join. fold (cart t).
  assert (G : forall ls,
             (forall l, In l ls -> In l (cart t)) ->
             Forall2 (fun l x => In l (cart t)
                                 /\ exists p, In p (products t)
                                              /\ p_id p = oi_product_id l
                                              /\ x = row l p)
                     ls
                     (flat_map
                        (fun oi =>
                           map (row oi)
                               (filter (fun p => p_id p =? oi_product_id oi)
                                       (products t))) ls)).
  { induction ls as [|l ls IH]; simpl; intro Hin.
    - constructor.
    - assert (Hl : In l (order_items t)).
      { specialize (Hin l (or_introl eq_refl)). unfold cart in Hin.
        apply filter_In in Hin. tauto. }
      destruct (Href l Hl) as (p & Hp & Hid).
      rewrite <- Hid, (filter_key _ _ Hkey Hp). simpl.
      constructor.
      + split; [apply Hin; now left|]. exists p. auto.
      + apply IH. intros l' Hl'. apply Hin. now right. }
  apply G. auto.
Qed.

Lemma cart_after_bind (order_id : Z) (ls : list order_item) :
  filter in_cart (map (bound_to order_id) ls) = [].
Proof.
  apply filter_none. intros x Hx. apply in_map_iff in Hx.
  destruct Hx as (l & E & _). subst x. unfold bound_to, in_cart.
  destruct (oi_order_id l) eqn:Hl; [rewrite Hl|]; reflexivity.
Qed.

(** ** Adding to the cart *)

Lemma signed_nonzero (s : bool) (n : Z) :
  0 < n -> (if s then - n else n) <> 0.
Proof. destruct s; lia. Qed.

Lemma integer_of_truthy_number (x : float) (z : Z) :
  Js.truthy (Js.Num x) = true -> Js.integer_of_number x = Some z -> z <> 0.
Proof.
  unfold Js.truthy, Js.integer_of_number.
  destruct (Prim2SF x) as [s | s | | s m e]; try discriminate.
  intros _ H.
  destruct (0 <=? e) eqn:He.
  - apply Z.leb_le in He. injection H as Hz. rewrite <- Hz.
    apply signed_nonzero. change (0 < Z.pos m * 2 ^ e).
    apply Z.mul_pos_pos; [lia|]. apply Z.pow_pos_nonneg; lia.
  - destruct (Z.pos m mod 2 ^ (- e) =? 0) eqn:Hm; [|discriminate].
    apply Z.eqb_eq in Hm. apply Z.leb_gt in He.
    injection H as Hz. rewrite <- Hz. apply signed_nonzero.
    assert (Hpow : 0 < 2 ^ (- e)) by (apply Z.pow_pos_nonneg; lia).
    pose proof (Z.div_mod (Z.pos m) (2 ^ (- e)) ltac:(lia)) as Hdm.
    rewrite Hm in Hdm.
    pose proof (Z.div_pos (Z.pos m) (2 ^ (- e)) ltac:(lia) Hpow) as Hnn.
    assert (Z.pos m / 2 ^ (- e) <> 0) by (intro E; rewrite E in Hdm; lia).
    lia.
Qed.

Lemma post_cart_outcome (env : environment) (body : cart_body)
  (user : claims) (d d' : db) (r : option response) :
  post_cart env body user d = (d', r) ->
  (store d' = store d
   /\ exists res, r = Some res
                  /\ (status res = 400 \/ status res = 404
                      \/ status res = 500))
  \/ (exists key q p,
         Js.truthy (product_id body) = true
         /\ Js.truthy (quantity body) = true
         /\ bind_int4 (pg_input env) (product_id body) = Val key
         /\ bind_int4 (pg_input env) (quantity body) = Val q
         /\ In p (products (store d)) /\ p_id p = key
         /\ d' = set_store
                   (set_order_items
                      (order_items (store d)
                       ++ [{| oi_id := order_items_id_seq d;
                              oi_order_id := None; oi_product_id := key;
                              oi_quantity := q; oi_price := p_price p |}])
                      (store d))
                   (next_order_items_id d)
         /\ r = Some {| status := 201;
                        json := ItemReply "Item added to cart successfully!"
                                  {| oi_id := order_items_id_seq d;
                                     oi_order_id := None;
                                     oi_product_id := key;
                                     oi_quantity := q;
                                     oi_price := p_price p |} |}).
Proof.
  unfold post_cart. intro H.
  destruct (negb (Js.truthy (product_id body))
            || negb (Js.truthy (quantity body))) eqn:Hfalsy.
  { inversion H; subst. left. split; [reflexivity|].
    eexists; split; [reflexivity|]. simpl; auto. }
  apply orb_false_iff in Hfalsy. destruct Hfalsy as [Hpid Hq].
  apply negb_false_iff in Hpid, Hq.
  destruct (bind_int4 (pg_input env) (product_id body)) as [| |key] eqn:Hkey.
  1,2: inversion H; subst; left; (split; [reflexivity|]);
       eexists; (split; [reflexivity|]); simpl; auto.
  destruct (products_with_id key (store d)) as [|p rest] eqn:Hrows.
  { inversion H; subst. left. split; [reflexivity|].
    eexists; split; [reflexivity|]. simpl; auto. }
  assert (Hp : In p (products (store d)) /\ p_id p = key).
  { assert (Hin : In p (products_with_id key (store d)))
      by (rewrite Hrows; now left).
    unfold products_with_id in Hin. apply filter_In in Hin.
    destruct Hin as [Hin Hid]. apply Z.eqb_eq in Hid. auto. }
  destruct (bind_int4 (pg_input env) (quantity body)) as [| |q] eqn:Hbq;
    simpl in H.
  1,2: inversion H; subst; left; (split; [reflexivity|]);
       eexists; (split; [reflexivity|]); simpl; auto.
  destruct (in_int4 (order_items_id_seq d)
            && negb (existsb (fun l => oi_id l =? order_items_id_seq d)
                             (order_items (store d)))).
  - inversion H; subst. right. exists key, q, p. tauto.
  - inversion H; subst. left. split; [reflexivity|].
    eexists; split; [reflexivity|]. simpl; auto.
Qed.

Lemma post_cart_consistent (env : environment) (body : cart_body)
  (user : claims) (d d' : db) (r : option response) :
  consistent (store d) -> post_cart env body user d = (d', r) ->
  consistent (store d').
Proof.
  intros [Hkey Href] H. apply post_cart_outcome in H.
  destruct H as [[Hs _] | (key & q & p & _ & _ & _ & _ & Hp & Hid & Hd & _)].
  - rewrite Hs. split; assumption.
  - subst d'. split.
    + exact Hkey.
    + intros l Hl. simpl in Hl. apply in_app_or in Hl.
      destruct Hl as [Hl | [Hl | []]].
      * apply Href. exact Hl.
      * subst l. exists p. simpl. auto.
Qed.

(** C8 (as amended): POST /api/cart either stores nothing (400 when
    product_id or quantity is falsy, otherwise 404 or 500) or appends exactly
    one cart line whose quantity is the integer the store reads from the
    request; a quantity sent as a JSON number is stored only when it is a
    non-zero integer of the INTEGER range.  Its sign is not checked. *)
Theorem post_cart_stores_bound_quantity
  (env : environment) (body : cart_body) (user : claims) (d d' : db)
  (r : option response) :
  post_cart env body user d = (d', r) ->
  (Js.truthy (product_id body) = false \/ Js.truthy (quantity body) = false ->
   d' = d
   /\ r = Some {| status := 400;
                  json := Message "Product ID and quantity are required." |})
  /\ ((store d' = store d
       /\ exists res, r = Some res
                      /\ (status res = 400 \/ status res = 404
                          \/ status res = 500))
      \/ (exists row,
             r = Some {| status := 201;
                         json := ItemReply "Item added to cart successfully!"
                                           row |}
             /\ order_items (store d') = order_items (store d) ++ [row]
             /\ products (store d') = products (store d)
             /\ orders (store d') = orders (store d)
             /\ users (store d') = users (store d)
             /\ oi_order_id row = None
             /\ bind_int4 (pg_input env) (quantity body)
                = Val (oi_quantity row)
             /\ (forall x, quantity body = Js.Num x ->
                           Js.integer_of_number x = Some (oi_quantity row)
                           /\ oi_quantity row <> 0
                           /\ in_int4 (oi_quantity row) = true))).
Proof.
  intro H. split.
  - intro Hfalsy. unfold post_cart in H.
    replace (negb (Js.truthy (product_id body))
             || negb (Js.truthy (quantity body))) with true in H.
    + inversion H; subst. split; reflexivity.
    + symmetry. apply orb_true_iff.
      destruct Hfalsy as [E | E]; rewrite E; auto.
  - apply post_cart_outcome in H.
    destruct H as [Hleft | (key & q & p & _ & Htq & _ & Hbq & _ & _ & Hd & Hr)].
    + left. exact Hleft.
    + right. eexists. split; [exact Hr|]. subst d'. simpl.
      repeat split; try reflexivity; try exact Hbq.
      * rewrite H in Hbq. simpl in Hbq.
        destruct (Js.integer_of_number x) as [z|]; [|discriminate].
        destruct (in_int4 z); [|discriminate]. congruence.
      * rewrite H in Hbq, Htq. simpl in Hbq.
        destruct (Js.integer_of_number x) as [z|] eqn:Hz; [|discriminate].
        destruct (in_int4 z); [|discriminate].
        injection Hbq as <-. exact (integer_of_truthy_number x z Htq Hz).
      * rewrite H in Hbq. simpl in Hbq.
        destruct (Js.integer_of_number x) as [z|]; [|discriminate].
        destruct (in_int4 z) eqn:Hr4; [|discriminate]. congruence.
Qed.

Lemma post_cart_stores_bound_quantity_witness :
  exists row,
    snd (post_cart Sample.env (Sample.add 1 2) Sample.alice Sample.shop)
    = Some {| status := 201;
              json := ItemReply "Item added to cart successfully!" row |}
    /\ oi_quantity row = 2.
Proof.
  destruct (proj2 (post_cart_stores_bound_quantity Sample.env
                     (Sample.add 1 2) Sample.alice Sample.shop _ _
                     (surjective_pairing _)))
    as [[_ (res & Hr & Hs)] | (row & Hr & _ & _ & _ & _ & _ & _ & Hnum)].
  - exfalso. vm_compute in Hr. injection Hr as <-. simpl in Hs. lia.
  - exists row. split; [exact Hr|].
    destruct (Hnum 2%float eq_refl) as [Hz _].
    injection Hz as <-. reflexivity.
Defined.

(** Counterexample to C8 as stated: a request with quantity -1 is accepted
    with 201 and its line is stored with quantity -1; the next checkout
    processes that line, returns a negative total and raises the stock. *)
Lemma post_cart_stores_negative_quantity :
  let row := {| oi_id := 1; oi_order_id := None; oi_product_id := 1;
                oi_quantity := -1; oi_price := NVal 2550 |} in
  let out := post_cart Sample.env (Sample.add 1 (-1)) Sample.alice
                       Sample.shop in
  snd out = Some {| status := 201;
                    json := ItemReply "Item added to cart successfully!"
                                      row |}
  /\ order_items (store (fst out)) = [row]
  /\ ~ 0 < oi_quantity row
  /\ snd (post_checkout Sample.env Sample.table_order no_faults Sample.alice
                        (fst out))
     = Some {| status := 200;
               json := CheckoutReply "Checkout successful!" 1 (-25.5)%float |}
  /\ map p_stock
         (products
            (store (fst (post_checkout Sample.env Sample.table_order
                           no_faults Sample.alice (fst out)))))
     = [101; 50].
Proof.
  cbv zeta. repeat split; try reflexivity. simpl. lia.
Qed.

(** ** One cart for all users *)

Lemma shop_consistent : consistent (store Sample.shop).
Proof.
  split.
  - unfold keyed. simpl. repeat constructor; simpl; intuition discriminate.
  - intros l Hl. simpl in Hl. contradiction.
Qed.

Lemma Forall2_map_eq {A B C : Type} (f : A -> C) (g : B -> C)
  (l : list A) (l' : list B) :
  Forall2 (fun a b => g b = f a) l l' -> map g l' = map f l.
Proof.
  induction 1 as [|a b l l' E _ IH]; simpl; [reflexivity|].
  now rewrite E, IH.
Qed.

(** In a store that respects its keys, the rows a query has of the cart
    are one for each cart line, whatever the order in which they come
    back. *)
Lemma returned_lines {R : Type} (row : order_item -> product -> R)
  (plan : executor R) (t : tables) :
  consistent t ->
  exists lines,
    Permutation lines (cart t)
    /\ Forall2 (fun l x => In l (cart t)
                           /\ exists p, In p (products t)
                                        /\ p_id p = oi_product_id l
                                        /\ x = row l p)
               lines (returned plan (cart_join row t)).
Proof.
  intro Hc.
  pose proof (Forall2_flip (cart_join_lines row t Hc)) as F.
  destruct (Permutation_Forall2
              (Permutation_sym (returned_permutation plan (cart_join row t)))
              F) as (lines & P & F').
  exists lines. split; [now apply Permutation_sym|].
  exact (Forall2_flip F').
Qed.

Lemma total_at_rows (price_of : order_item -> numeric)
  (lines : list order_item) (cartItems : list cart_item) :
  Forall2 (fun l item => ci_price item = price_of l
                         /\ ci_quantity item = oi_quantity l)
          lines cartItems ->
  fold_left step cartItems 0%float = total_at price_of lines.
Proof.
  unfold total_at. generalize 0%float.
  intros acc F. revert acc.
  induction F as [|l item ls items [Hp Hq] _ IH]; intro acc; simpl.
  - reflexivity.
  - rewrite IH. unfold step. rewrite Hp, Hq. reflexivity.
Qed.

Lemma catalog_price_of (t : tables) (l : order_item) (p : product) :
  keyed t -> In p (products t) -> p_id p = oi_product_id l ->
  catalog_price t l = p_price p.
Proof.
  intros Hkey Hp Hid. unfold catalog_price.
  rewrite <- Hid, (filter_key _ _ Hkey Hp). reflexivity.
Qed.

(** C7: the cart is one global set.  In a store that respects its keys,
    GET /api/cart returns to any user the same rows, one for each
    unassigned line, in whatever order; POST /api/cart stores the same line
    whichever user sends it; and a successful checkout by [u] totals every
    unassigned line at the catalog price of its product, creates one order
    owned by [u] and binds every unassigned line to it, leaving the cart
    empty. *)
Theorem cart_is_shared_by_all_users
  (env : environment) (u v : claims) (d : db) :
  consistent (store d) ->
  (forall plan, exists rows,
      get_cart plan u d
      = (d, Some {| status := 200; json := CartReply rows |})
      /\ get_cart plan v d = get_cart plan u d
      /\ Permutation
           (map (fun row => (cr_product_id row, cr_quantity row, cr_price row))
                rows)
           (map (fun l => (oi_product_id l, oi_quantity l, oi_price l))
                (cart (store d))))
  /\ (forall body d1 r,
         post_cart env body v d = (d1, r) ->
         post_cart env body u d = (d1, r)
         /\ consistent (store d1)
         /\ forall msg item,
              r = Some {| status := 201; json := ItemReply msg item |} ->
              In item (cart (store d1)))
  /\ (forall plan flt d' msg orderId total,
         post_checkout env plan flt u d
         = (d', Some {| status := 200;
                        json := CheckoutReply msg orderId total |}) ->
         (exists uid amount,
             bind_int4 (pg_input env) (userId u) = Val uid
             /\ numeric_of_number total = Some amount
             /\ Permutation
                  (orders (store d'))
                  ({| o_id := orderId; o_user_id := uid;
                      o_total_amount := amount; o_status := "completed" |}
                   :: orders (store d)))
         /\ Permutation (order_items (store d'))
                        (map (bound_to orderId) (order_items (store d)))
         /\ (forall l, In l (cart (store d)) ->
                       In {| oi_id := oi_id l; oi_order_id := Some orderId;
                             oi_product_id := oi_product_id l;
                             oi_quantity := oi_quantity l;
                             oi_price := oi_price l |}
                          (order_items (store d')))
         /\ cart (store d') = []
         /\ exists lines,
              Permutation lines (cart (store d))
              /\ map oi_id lines
                 = map ci_id (select_cart_items plan (store d))
              /\ total = catalog_total (store d) lines).
Proof.
  intro Hc. split; [|split].
  - intro plan. exists (returned plan (cart_join cart_row_of (store d))).
    split; [reflexivity|]. split; [reflexivity|].
    apply Permutation_trans
      with (map (fun row => (cr_product_id row, cr_quantity row, cr_price row))
                (cart_join cart_row_of (store d))).
    + apply Permutation_map, returned_permutation.
    + rewrite (Forall2_map_eq
                 (fun l => (oi_product_id l, oi_quantity l, oi_price l))
                 (fun row => (cr_product_id row, cr_quantity row,
                              cr_price row))
                 (cart (store d)) (cart_join cart_row_of (store d)));
        [apply Permutation_refl|].
      refine (Forall2_impl _ _ (cart_join_lines cart_row_of _ Hc)).
      intros l x (_ & p & _ & _ & Hx). subst x. reflexivity.
  - intros body d1 r H. split; [exact H|].
    split; [exact (post_cart_consistent _ _ _ _ _ _ Hc H)|].
    intros msg item Hr. apply post_cart_outcome in H.
    destruct H as [[_ (res & E & Hs)]
                  | (key & q & p & _ & _ & _ & _ & _ & _ & Hd & E)].
    + rewrite Hr in E. injection E as <-. simpl in Hs. lia.
    + rewrite Hr in E. injection E as _ Hitem. subst d1 item.
      unfold cart. simpl. rewrite filter_app. apply in_or_app. right.
      simpl. now left.
  - intros plan flt d' msg orderId total H. apply post_checkout_outcome in H.
    destruct H as [[_ Hr] | (total' & t1 & uid & amount & t2 & _ & Hloop
                             & Huid & Hamount & Hins & Hd & Hr)].
    { destruct Hr as [Hr | [Hr | [Hr | [[_ Hr] | [pid Hr]]]]];
        discriminate Hr. }
    injection Hr as _ Hid Htot. subst orderId total.
    pose proof (verify_stock_total _ _ _ _ _ _ Hloop) as [Htotal _].
    destruct (committed_tables _ _ _ _ _ _ _ _ Hloop Hins)
      as (_ & _ & Ho & Hl).
    assert (Hitems : order_items (store d')
                     = map (bound_to (orders_id_seq d))
                           (order_items (store d))).
    { subst d'. exact Hl. }
    split; [|split; [|split; [|split]]].
    + exists uid, amount. split; [exact Huid|]. split; [exact Hamount|].
      subst d'. cbn [store set_store]. rewrite Ho.
      apply Permutation_sym, Permutation_cons_append.
    + rewrite Hitems. apply Permutation_refl.
    + intros l Hl'. unfold cart in Hl'. apply filter_In in Hl'.
      destruct Hl' as [Hin Hcart]. rewrite Hitems.
      apply in_map_iff. exists l. split; [|exact Hin].
      unfold bound_to. unfold in_cart in Hcart.
      destruct (oi_order_id l); [discriminate | reflexivity].
    + unfold cart. rewrite Hitems. apply cart_after_bind.
    + destruct (returned_lines cart_item_of plan (store d) Hc)
        as (lines & P & F).
      exists lines. split; [exact P|]. split.
      * symmetry. apply (Forall2_map_eq oi_id ci_id).
        refine (Forall2_impl _ _ F).
        intros l x (_ & p & _ & _ & Hx). subst x. reflexivity.
      * rewrite Htotal. apply total_at_rows.
        refine (Forall2_impl _ _ F).
        intros l x (_ & p & Hp & Hid & Hx). subst x. simpl.
        split; [|reflexivity]. symmetry.
        apply catalog_price_of; [exact (proj1 Hc) | exact Hp | exact Hid].
Qed.

Lemma cart_is_shared_by_all_users_witness :
  let d1 := Sample.after Sample.shop
              (post_cart Sample.env (Sample.add 2 1) Sample.bob) in
  let out := post_checkout Sample.env Sample.table_order no_faults
                           Sample.alice d1 in
  order_items (store (fst out))
  = [{| oi_id := 1; oi_order_id := Some 1; oi_product_id := 2;
        oi_quantity := 1; oi_price := NVal 8999 |}]
  /\ orders (store (fst out))
     = [{| o_id := 1; o_user_id := 1; o_total_amount := NVal 8999;
           o_status := "completed" |}]
  /\ cart (store (fst out)) = []
  /\ 0x1.67f5c28f5c28fp+6%float
     = catalog_total (store d1)
         [{| oi_id := 1; oi_order_id := None; oi_product_id := 2;
             oi_quantity := 1; oi_price := NVal 8999 |}].
Proof.
  intros d1 out.
  assert (Hc : consistent (store d1)).
  { apply (post_cart_consistent Sample.env (Sample.add 2 1) Sample.bob
             Sample.shop d1
             (snd (post_cart Sample.env (Sample.add 2 1) Sample.bob
                             Sample.shop))
             shop_consistent).
    reflexivity. }
  destruct (proj2 (proj2 (cart_is_shared_by_all_users Sample.env
                            Sample.alice Sample.bob d1 Hc))
              Sample.table_order no_faults (fst out)
              "Checkout successful!"%string 1
              0x1.67f5c28f5c28fp+6%float eq_refl)
    as ((uid & amount & Huid & Hamount & Ho) & Hitems & _ & Hcart
        & (lines & P & _ & Htotal)).
  vm_compute in Huid. injection Huid as <-.
  vm_compute in Hamount. injection Hamount as <-.
  split; [|split; [|split]].
  - symmetry. apply Permutation_length_1_inv, Permutation_sym. exact Hitems.
  - symmetry. apply Permutation_length_1_inv, Permutation_sym. exact Ho.
  - exact Hcart.
  - rewrite Htotal. f_equal.
    apply Permutation_length_1_inv, Permutation_sym. exact P.
Defined.

(** ** Stock *)

Lemma requested_absent (pid : Z) (cartItems : list cart_item) :
  ~ In pid (map ci_product_id cartItems) -> requested pid cartItems = 0.
Proof.
  induction cartItems as [|item rest IH]; simpl; intro H; [reflexivity|].
  destruct (ci_product_id item =? pid) eqn:E.
  - apply Z.eqb_eq in E. exfalso. apply H. now left.
  - apply IH. intro Hin. apply H. now right.
Qed.

Lemma requested_once (pid : Z) (cartItems : list cart_item) :
  NoDup (map ci_product_id cartItems) ->
  requested pid cartItems = 0
  \/ exists item, In item cartItems /\ ci_product_id item = pid
                  /\ requested pid cartItems = ci_quantity item.
Proof.
  induction cartItems as [|item rest IH]; simpl; intro Hnd; [now left|].
  inversion Hnd as [|? ? Hnotin Hrest]; subst.
  destruct (ci_product_id item =? pid) eqn:E.
  - apply Z.eqb_eq in E. right. exists item. split; [now left|].
    split; [exact E|]. rewrite requested_absent; [lia|]. now rewrite <- E.
  - destruct (IH Hrest) as [H0 | (it & Hin & Hid & Hq)]; [now left|].
    right. exists it. auto.
Qed.

Lemma verify_stock_app (flt : faults) (before rest : list cart_item) :
  forall total tx,
    verify_stock flt (before ++ rest) total tx
    = match verify_stock flt before total tx with
      | Verified total' tx' => verify_stock flt rest total' tx'
      | Insufficient pid tx' => Insufficient pid tx'
      end.
Proof.
  induction before as [|item before IH]; intros total tx; simpl.
  - reflexivity.
  - destruct (ci_quantity item >? ci_stock item); [reflexivity|]. apply IH.
Qed.

(** The first row that is short, with the rows that come back before it. *)
Lemma first_short (cartItems : list cart_item) :
  Exists short cartItems ->
  exists before item rest,
    cartItems = before ++ item :: rest
    /\ Forall (fun i => ci_quantity i <= ci_stock i) before
    /\ short item.
Proof.
  induction cartItems as [|i items IH]; intro Hex; [inversion Hex|].
  destruct (Z_gt_le_dec (ci_quantity i) (ci_stock i)) as [Hs | Hok].
  - exists [], i, items. repeat split; [constructor | exact Hs].
  - inversion Hex as [? ? Hi | ? ? Hrest]; subst.
    + unfold short in Hi. lia.
    + destruct (IH Hrest) as (before & item & rest & -> & Hall & Hs).
      exists (i :: before), item, rest.
      repeat split; [constructor; assumption | exact Hs].
Qed.

(** The loop stops at the first short row, after the updates queued for the
    rows before it. *)
Lemma verify_stock_stops (flt : faults) (before rest : list cart_item)
  (item : cart_item) (total : float) (tx : transaction) :
  Forall (fun i => ci_quantity i <= ci_stock i) before -> short item ->
  exists tx',
    verify_stock flt (before ++ item :: rest) total tx
    = Insufficient (ci_product_id item) tx'
    /\ verify_stock flt before total tx
       = Verified (fold_left step before total) tx'.
Proof.
  intros Hall Hs.
  destruct (verify_stock_passes flt before total tx Hall) as [tx' Hpass].
  exists tx'. split; [|exact Hpass].
  rewrite verify_stock_app, Hpass. simpl.
  replace (ci_quantity item >? ci_stock item) with true; [reflexivity|].
  symmetry. apply Z.gtb_lt. unfold short in Hs. lia.
Qed.

(** With one row for each product, updates that are served and stocks that
    stay in range, the loop runs through. *)
Lemma verify_stock_runs (flt : faults) (cartItems : list cart_item) :
  forall total t,
    NoDup (map ci_product_id cartItems) ->
    Forall (fun item => ci_quantity item <= ci_stock item) cartItems ->
    (forall item, In item cartItems ->
                  flt (UpdateStock (ci_id item)) = false) ->
    (forall item p, In item cartItems -> In p (products t) ->
                    p_id p = ci_product_id item ->
                    in_int4 (p_stock p - ci_quantity item) = true) ->
    exists t', verify_stock flt cartItems total (Live t)
               = Verified (fold_left step cartItems total) (Live t').
Proof.
  induction cartItems as [|item rest IH]; simpl;
    intros total t Hnd Hall Hflt Hrange.
  - exists t. reflexivity.
  - inversion Hnd as [|? ? Hnotin Hnd']; subst.
    inversion Hall as [|? ? Hq Hall']; subst.
    replace (ci_quantity item >? ci_stock item) with false
      by (symmetry; rewrite Z.gtb_ltb; apply Z.ltb_ge; exact Hq).
    unfold run. rewrite (Hflt item (or_introl eq_refl)).
    unfold sql_update_stock.
    assert (Hok : existsb (fun p => (p_id p =? ci_product_id item)
                                    && negb (in_int4 (p_stock p
                                                      - ci_quantity item)))
                          (products t) = false).
    { apply not_true_is_false. intro Hex. apply existsb_exists in Hex.
      destruct Hex as (p & Hp & Hb). apply andb_true_iff in Hb.
      destruct Hb as [Hid Hneg]. apply Z.eqb_eq in Hid.
      rewrite (Hrange item p (or_introl eq_refl) Hp Hid) in Hneg.
      discriminate Hneg. }
    rewrite Hok. apply IH; [exact Hnd' | exact Hall' | |].
    + intros item' Hin'. apply Hflt. now right.
    + intros item' p' Hin' Hp' Hid'. simpl in Hp'.
      apply in_map_iff in Hp'. destruct Hp' as (p0 & E & Hp0).
      destruct (p_id p0 =? ci_product_id item) eqn:Hsame.
      * exfalso. apply Hnotin. apply Z.eqb_eq in Hsame.
        subst p'. simpl in Hid'. rewrite <- Hsame, Hid'.
        now apply in_map.
      * subst p'. apply (Hrange item' p0); auto.
Qed.

(** The rows of the checkout's SELECT, in a store that respects its keys:
    one for each cart line, with the stock and price of its product. *)
Lemma select_cart_items_in (plan : executor cart_item) (t : tables)
  (item : cart_item) :
  In item (select_cart_items plan t) ->
  exists l p, In l (cart t) /\ In p (products t)
              /\ p_id p = oi_product_id l /\ item = cart_item_of l p.
Proof.
  intro H. apply returned_in in H. now apply cart_join_in.
Qed.

Lemma select_cart_items_products (plan : executor cart_item) (t : tables) :
  consistent t ->
  Permutation (map ci_product_id (select_cart_items plan t))
              (map oi_product_id (cart t)).
Proof.
  intro Hc. unfold select_cart_items.
  apply Permutation_trans
    with (map ci_product_id (cart_join cart_item_of t)).
  - apply Permutation_map, returned_permutation.
  - rewrite (Forall2_map_eq oi_product_id ci_product_id
               (cart t) (cart_join cart_item_of t));
      [apply Permutation_refl|].
    refine (Forall2_impl _ _ (cart_join_lines cart_item_of _ Hc)).
    intros l x (_ & q & _ & _ & Hx). subst x. reflexivity.
Qed.

(** A checkout whose SELECT has a short row changes nothing; it answers
    400, naming the first short row, when the statements around the loop
    are served and no update queued before that row has raised. *)
Lemma checkout_from_short (env : environment) (flt : faults) (user : claims)
  (before rest : list cart_item) (item : cart_item) (d : db) :
  Forall (fun i => ci_quantity i <= ci_stock i) before -> short item ->
  exists tx,
    verify_stock flt before 0%float (Live (store d))
    = Verified (fold_left step before 0%float) tx
    /\ checkout_from env flt user (before ++ item :: rest) d
       = match tx with
         | Aborted => (d, None)
         | Live _ =>
             if flt Rollback then caught flt d
             else (d, Some {| status := 400;
                              json := InsufficientStock
                                        (ci_product_id item) |})
         end.
Proof.
  intros Hall Hs.
  destruct (verify_stock_stops flt before rest item 0%float
              (Live (store d)) Hall Hs) as (tx & Hloop & Hpass).
  exists tx. split; [exact Hpass|].
  unfold checkout_from. rewrite Hloop.
  destruct (before ++ item :: rest) eqn:E;
    [destruct before; discriminate|].
  destruct tx; reflexivity.
Qed.

Lemma put_products_stock (env : environment) (id : string)
  (body : product_body) (user : claims) (d d' : db) (res : response)
  (key z : Z) :
  put_products env id body user d = (d', Some res) -> status res = 200 ->
  bind_int4 (pg_input env) (Js.Str id) = Val key ->
  bind_int4 (pg_input env) (stock body) = Val z ->
  (exists p, In p (products (store d')) /\ p_id p = key)
  /\ forall p, In p (products (store d')) -> p_id p = key -> p_stock p = z.
Proof.
  unfold put_products. intros H Hs Hkey Hz. rewrite Hkey, Hz in H.
  simpl in H.
  destruct (nullable (bind_varchar (pg_input env) (name body))) as [n|];
    [|inversion H; subst; discriminate].
  destruct (nullable (bind_text (pg_input env) (description body))) as [dsc|];
    [|inversion H; subst; discriminate].
  destruct (nullable (bind_numeric (pg_input env) (price body))) as [pr|];
    [|inversion H; subst; discriminate].
  destruct (nullable (bind_varchar (pg_input env) (image_url body)))
    as [img|]; [|inversion H; subst; discriminate].
  destruct (products_with_id key (store d)) as [|p0 rest] eqn:Hrows;
    simpl in H; inversion H; subst; [discriminate|].
  assert (Hp0 : In p0 (products (store d)) /\ p_id p0 = key).
  { assert (Hin : In p0 (products_with_id key (store d)))
      by (rewrite Hrows; now left).
    unfold products_with_id in Hin. apply filter_In in Hin.
    destruct Hin as [Hin Hid]. apply Z.eqb_eq in Hid. auto. }
  destruct Hp0 as [Hin0 Hid0]. simpl. split.
  - eexists. split.
    + apply in_map_iff. exists p0. split; [reflexivity | exact Hin0].
    + rewrite Hid0, Z.eqb_refl. reflexivity.
  - intros p Hp Hid. apply in_map_iff in Hp. destruct Hp as (q & E & _).
    destruct (p_id q =? key) eqn:Hq; subst p.
    + reflexivity.
    + apply Z.eqb_neq in Hq. contradiction.
Qed.

(** C2 (as amended), for a checkout served alone, with no other request
    between its SELECT and its COMMIT.  In a store that respects its keys,
    whose stocks are all non-negative and whose cart has at most one line
    for each product, every stock is still non-negative after the checkout,
    whatever its outcome.  A checkout whose SELECT returns a row that asks
    for more than the stock of its product leaves every table as it was;
    when the statements around the loop are served it answers 400 and names
    the product of such a row, unless a stock update queued for an earlier
    row raises, in which case the process ends without a reply.
    PUT /api/products/:id stores the stock it is given, of either sign. *)
Theorem checkout_keeps_stock_non_negative
  (env : environment) (plan : executor cart_item) (flt : faults)
  (user : claims) (d : db) :
  (consistent (store d) ->
   NoDup (map oi_product_id (cart (store d))) ->
   (forall p, In p (products (store d)) -> 0 <= p_stock p) ->
   forall p,
     In p (products (store (fst (post_checkout env plan flt user d)))) ->
     0 <= p_stock p)
  /\ (Exists short (select_cart_items plan (store d)) ->
      store (fst (post_checkout env plan flt user d)) = store d
      /\ (forall res, snd (post_checkout env plan flt user d) = Some res ->
                      status res = 400 \/ status res = 500)
      /\ (flt Connect = false -> flt Begin = false ->
          flt SelectCart = false -> flt Rollback = false ->
          snd (post_checkout env plan flt user d) = None
          \/ exists item,
               In item (select_cart_items plan (store d)) /\ short item
               /\ snd (post_checkout env plan flt user d)
                  = Some {| status := 400;
                            json := InsufficientStock
                                      (ci_product_id item) |})
      /\ (flt Connect = false -> flt Begin = false ->
          flt SelectCart = false -> flt Rollback = false ->
          consistent (store d) ->
          NoDup (map oi_product_id (cart (store d))) ->
          updates_served flt (select_cart_items plan (store d)) ->
          exists item,
            In item (select_cart_items plan (store d)) /\ short item
            /\ snd (post_checkout env plan flt user d)
               = Some {| status := 400;
                         json := InsufficientStock (ci_product_id item) |}))
  /\ (forall id body d' res key z,
         put_products env id body user d = (d', Some res) ->
         status res = 200 ->
         bind_int4 (pg_input env) (Js.Str id) = Val key ->
         bind_int4 (pg_input env) (stock body) = Val z ->
         (exists p, In p (products (store d')) /\ p_id p = key)
         /\ forall p, In p (products (store d')) -> p_id p = key ->
                      p_stock p = z).
Proof.
  split; [|split].
  - intros Hc Hnd Hpos p Hp.
    destruct (post_checkout env plan flt user d) as [d' r] eqn:H.
    simpl in Hp. apply post_checkout_outcome in H.
    destruct H as [[Hs _] | (total & t1 & uid & amount & t2 & _ & Hloop
                             & _ & _ & Hins & Hd & _)].
    { rewrite Hs in Hp. apply Hpos. exact Hp. }
    pose proof (verify_stock_total _ _ _ _ _ _ Hloop) as [_ Hall].
    destruct (committed_tables _ _ _ _ _ _ _ _ Hloop Hins)
      as (_ & Hprod & _ & _).
    subst d'. cbn [store set_store] in Hp. rewrite Hprod in Hp.
    apply in_map_iff in Hp. destruct Hp as (p0 & E & Hp0). subst p. simpl.
    assert (Hids : NoDup (map ci_product_id
                              (select_cart_items plan (store d)))).
    { apply (Permutation_NoDup
               (Permutation_sym (select_cart_items_products plan _ Hc))).
      exact Hnd. }
    destruct (requested_once (p_id p0) _ Hids)
      as [H0 | (item & Hin & Hid & Hq)].
    + rewrite H0. specialize (Hpos p0 Hp0). lia.
    + rewrite Hq. rewrite Forall_forall in Hall. specialize (Hall item Hin).
      apply select_cart_items_in in Hin.
      destruct Hin as (l & p1 & _ & Hp1 & Hl & Hitem). subst item.
      simpl in *. destruct Hc as [Hkey _].
      assert (p1 = p0)
        by (apply (key_injective _ _ _ Hkey Hp1 Hp0); congruence).
      subst p1. lia.
  - intro Hex.
    destruct (first_short _ Hex) as (before & item & rest & E & Hall & Hs).
    destruct (checkout_from_short env flt user before rest item d Hall Hs)
      as (tx & Hpass & Hout).
    assert (Hitem : In item (select_cart_items plan (store d))).
    { rewrite E. apply in_or_app. right. now left. }
    assert (Hpc : post_checkout env plan flt user d
                  = if flt Connect then (d, Some framework_error)
                    else if flt Begin || flt SelectCart then caught flt d
                    else match tx with
                         | Aborted => (d, None)
                         | Live _ =>
                             if flt Rollback then caught flt d
                             else (d, Some {| status := 400;
                                              json := InsufficientStock
                                                        (ci_product_id item)
                                           |})
                         end).
    { unfold post_checkout. rewrite E, Hout. reflexivity. }
    rewrite Hpc. clear Hpc. unfold caught.
    split; [|split; [|split]].
    + destruct (flt Connect); [reflexivity|].
      destruct (flt Begin || flt SelectCart); [reflexivity|].
      destruct tx; [destruct (flt Rollback)|]; reflexivity.
    + intros res.
      destruct (flt Connect); [intro R; inversion R; subst; simpl; auto|].
      destruct (flt Begin || flt SelectCart);
        [destruct (flt CatchRollback); intro R; inversion R; subst; simpl;
         auto|].
      destruct tx; [destruct (flt Rollback);
                    [destruct (flt CatchRollback)|]|];
        intro R; inversion R; subst; simpl; auto.
    + intros -> -> -> ->. simpl.
      destruct tx; [right; exists item; auto | now left].
    + intros -> -> -> -> Hc Hnd Hserved. simpl.
      exists item. split; [exact Hitem|]. split; [exact Hs|].
      assert (Hids : NoDup (map ci_product_id before)).
      { pose proof (Permutation_NoDup
                      (Permutation_sym
                         (select_cart_items_products plan _ Hc)) Hnd) as N.
        rewrite E, map_app in N. exact (NoDup_app_remove_r _ _ N). }
      assert (Hin : forall i, In i before ->
                              In i (select_cart_items plan (store d))).
      { intros i Hi. rewrite E. apply in_or_app. now left. }
      destruct (verify_stock_runs flt before 0%float (store d) Hids Hall)
        as [t' Hruns].
      * intros i Hi. exact (proj1 (Hserved i (Hin i Hi))).
      * intros i p Hi Hp Hid.
        destruct (select_cart_items_in _ _ _ (Hin i Hi))
          as (l & p1 & _ & Hp1 & Hl & Hrow).
        assert (p1 = p).
        { apply (key_injective _ _ _ (proj1 Hc) Hp1 Hp).
          rewrite Hid, Hrow. simpl. exact Hl. }
        subst p1. pose proof (proj2 (Hserved i (Hin i Hi))) as Hr.
        rewrite Hrow in Hr |- *. exact Hr.
      * rewrite Hruns in Hpass. injection Hpass as <-. reflexivity.
  - intros id body d' res key z. apply put_products_stock.
Qed.

Lemma too_many_consistent : consistent (store Sample.too_many).
Proof.
  apply (post_cart_consistent Sample.env (Sample.add 1 101) Sample.alice
           Sample.shop Sample.too_many
           (snd (post_cart Sample.env (Sample.add 1 101) Sample.alice
                           Sample.shop))
           shop_consistent).
  reflexivity.
Qed.

Lemma checkout_keeps_stock_non_negative_witness :
  Forall (fun p => 0 <= p_stock p)
         (products
            (store (fst (post_checkout Sample.env Sample.table_order
                           no_faults Sample.alice Sample.two_mice))))
  /\ store (fst (post_checkout Sample.env Sample.table_order no_faults
                               Sample.alice Sample.too_many))
     = store Sample.too_many
  /\ snd (post_checkout Sample.env Sample.table_order no_faults
                        Sample.alice Sample.too_many)
     = Some {| status := 400; json := InsufficientStock 1 |}
  /\ Forall (fun p => p_id p = 1 -> p_stock p = 7)
            (products
               (store (fst (put_products Sample.env "1" (Sample.with_stock 7)
                                         Sample.alice Sample.shop)))).
Proof.
  assert (Hshort : Exists short
                     (select_cart_items Sample.table_order
                                        (store Sample.too_many))).
  { vm_compute. constructor. reflexivity. }
  split; [|split; [|split]].
  - apply Forall_forall.
    apply (proj1 (checkout_keeps_stock_non_negative Sample.env
                    Sample.table_order no_faults Sample.alice
                    Sample.two_mice)).
    + apply (post_cart_consistent Sample.env (Sample.add 1 2) Sample.alice
               Sample.shop Sample.two_mice
               (snd (post_cart Sample.env (Sample.add 1 2) Sample.alice
                               Sample.shop))
               shop_consistent).
      reflexivity.
    + vm_compute. constructor; [intros [] | constructor].
    + intros p Hp. simpl in Hp.
      destruct Hp as [<- | [<- | []]]; simpl; lia.
  - apply (proj1 (proj2 (checkout_keeps_stock_non_negative Sample.env
                           Sample.table_order no_faults Sample.alice
                           Sample.too_many))).
    exact Hshort.
  - destruct (proj1 (proj2 (checkout_keeps_stock_non_negative Sample.env
                              Sample.table_order no_faults Sample.alice
                              Sample.too_many)) Hshort)
      as (_ & _ & _ & H400).
    destruct (H400 eq_refl eq_refl eq_refl eq_refl too_many_consistent)
      as (item & Hin & _ & Hr).
    + vm_compute. constructor; [intros [] | constructor].
    + intros i Hi. vm_compute in Hi. destruct Hi as [<- | []].
      split; reflexivity.
    + rewrite Hr. vm_compute in Hin. destruct Hin as [<- | []].
      reflexivity.
  - apply Forall_forall. intros p Hp.
    apply (proj2 (proj2 (checkout_keeps_stock_non_negative Sample.env
                           Sample.table_order no_faults Sample.alice
                           Sample.shop))
             "1"%string (Sample.with_stock 7) _ _ 1 7
             (surjective_pairing _) eq_refl eq_refl eq_refl).
    exact Hp.
Defined.

(** Counterexample to C2 as stated: every stock is non-negative, and
    PUT /api/products/1 with [{"stock": -1}] is answered 200 and leaves the
    product with stock -1. *)
Lemma put_products_sets_negative_stock :
  Forall (fun p => 0 <= p_stock p) (products (store Sample.shop))
  /\ (let out := put_products Sample.env "1" (Sample.with_stock (-1))
                              Sample.alice Sample.shop in
      snd out
      = Some {| status := 200;
                json := ProductReply "Product updated successfully!"
                                     (set_stock (-1) Sample.mouse) |}
      /\ map p_stock (products (store (fst out))) = [-1; 50]
      /\ ~ Forall (fun p => 0 <= p_stock p) (products (store (fst out)))).
Proof.
  split.
  - repeat constructor; simpl; lia.
  - cbv zeta. split; [reflexivity|]. split; [reflexivity|].
    intro H. inversion H as [|? ? Hneg _]; subst.
    vm_compute in Hneg. apply Hneg. reflexivity.
Qed.

(** The stock check of the checkout is made line by line: two lines of 60
    on a product with 100 in stock both pass, and the checkout commits a
    stock of -20. *)
Lemma checkout_overdraws_shared_product :
  map (fun item => (ci_product_id item, ci_quantity item, ci_stock item))
      (select_cart_items Sample.table_order (store Sample.two_lines))
  = [(1, 60, 100); (1, 60, 100)]
  /\ (let out := post_checkout Sample.env Sample.table_order no_faults
                               Sample.alice Sample.two_lines in
      snd out = Some {| status := 200;
                        json := CheckoutReply "Checkout successful!" 1
                                              3060%float |}
      /\ map p_stock (products (store (fst out))) = [-20; 50]).
Proof. cbv zeta. repeat split; reflexivity. Qed.

(** ** The total *)

(** C5 (as amended): for a cart whose rows all pass the stock check, over
    products that still carry the prices captured in the lines, the loop of
    the checkout computes, and a successful checkout returns, the sum of
    quantity times price snapshot taken in binary64 floating-point
    arithmetic, line after line from 0, the lines taken in the order in
    which the SELECT returns their rows. *)
Theorem checkout_total_is_binary64_sum
  (env : environment) (plan : executor cart_item) (flt : faults)
  (user : claims) (d : db) :
  consistent (store d) -> prices_current (store d) ->
  exists lines,
    Permutation lines (cart (store d))
    /\ map oi_id lines = map ci_id (select_cart_items plan (store d))
    /\ (Forall (fun item => ci_quantity item <= ci_stock item)
               (select_cart_items plan (store d)) ->
        exists tx,
          verify_stock flt (select_cart_items plan (store d)) 0%float
                       (Live (store d))
          = Verified (snapshot_total lines) tx)
    /\ (forall d' msg orderId total,
           post_checkout env plan flt user d
           = (d', Some {| status := 200;
                          json := CheckoutReply msg orderId total |}) ->
           total = snapshot_total lines).
Proof.
  intros Hc Hcur.
  destruct (returned_lines cart_item_of plan (store d) Hc) as (lines & P & F).
  assert (Htotal : fold_left step (select_cart_items plan (store d)) 0%float
                   = snapshot_total lines).
  { apply total_at_rows. refine (Forall2_impl _ _ F).
    intros l x (Hl & p & Hp & Hid & Hx). subst x. simpl.
    split; [|reflexivity]. apply Hcur; assumption. }
  exists lines. split; [exact P|]. split; [|split].
  - symmetry. apply (Forall2_map_eq oi_id ci_id).
    refine (Forall2_impl _ _ F).
    intros l x (_ & p & _ & _ & Hx). subst x. reflexivity.
  - intro Hall.
    destruct (verify_stock_passes flt _ 0%float (Live (store d)) Hall)
      as [tx Htx].
    exists tx. rewrite Htx, Htotal. reflexivity.
  - intros d' msg orderId total H. apply post_checkout_outcome in H.
    destruct H as [[_ Hr] | (total' & t1 & uid & amount & t2 & _ & Hloop
                             & _ & _ & _ & _ & Hr)].
    { destruct Hr as [Hr | [Hr | [Hr | [[_ Hr] | [pid Hr]]]]];
        discriminate Hr. }
    injection Hr as _ _ Htot. subst total.
    apply verify_stock_total in Hloop. destruct Hloop as [Hfold _].
    rewrite Hfold. exact Htotal.
Qed.

Lemma two_mice_consistent : consistent (store Sample.two_mice).
Proof.
  apply (post_cart_consistent Sample.env (Sample.add 1 2) Sample.alice
           Sample.shop Sample.two_mice
           (snd (post_cart Sample.env (Sample.add 1 2) Sample.alice
                           Sample.shop))
           shop_consistent).
  reflexivity.
Qed.

Lemma checkout_total_is_binary64_sum_witness :
  snd (post_checkout Sample.env Sample.table_order no_faults Sample.alice
                     Sample.two_mice)
  = Some {| status := 200;
            json := CheckoutReply "Checkout successful!" 1 51%float |}
  /\ 51%float
     = snapshot_total
         [{| oi_id := 1; oi_order_id := None; oi_product_id := 1;
             oi_quantity := 2; oi_price := NVal 2550 |}].
Proof.
  assert (Hcur : prices_current (store Sample.two_mice)).
  { intros l p Hl Hp Hid. simpl in Hl, Hp.
    destruct Hl as [<- | []]. destruct Hp as [<- | [<- | []]].
    - reflexivity.
    - discriminate Hid. }
  destruct (checkout_total_is_binary64_sum Sample.env Sample.table_order
              no_faults Sample.alice Sample.two_mice
              two_mice_consistent Hcur) as (lines & P & _ & _ & Htotal).
  split; [reflexivity|].
  rewrite (Htotal _ "Checkout successful!"%string 1 51%float eq_refl).
  f_equal. apply Permutation_length_1_inv, Permutation_sym. exact P.
Defined.

(** Counterexample to C5 as stated: one pencil at 0.10 and one eraser at
    0.20, both in stock and at their current prices.  The exact sum is 0.30;
    the checkout returns 0.30000000000000004, which is not the Number of
    0.30. *)
Lemma checkout_total_drifts :
  map (fun l => (oi_quantity l, oi_price l))
      (cart (store Sample.pencil_and_eraser))
  = [(1, NVal 10); (1, NVal 20)]
  /\ exact_total (cart (store Sample.pencil_and_eraser)) = Some 30
  /\ snd (post_checkout Sample.env Sample.table_order no_faults Sample.alice
                        Sample.pencil_and_eraser)
     = Some {| status := 200;
               json := CheckoutReply "Checkout successful!" 1
                                     0x1.3333333333334p-2%float |}
  /\ nearest_binary64 (NVal 30) = 0x1.3333333333333p-2%float
  /\ 0x1.3333333333334p-2%float <> nearest_binary64 (NVal 30).
Proof.
  repeat split; try reflexivity.
  intro H. apply (f_equal Prim2SF) in H. vm_compute in H. discriminate H.
Qed.

(** The total follows the order of the rows: a ruler at 0.30, an eraser at
    0.20 and a pencil at 0.10 total 0.6 when their rows come back in that
    order and 0.6000000000000001 when they come back in the opposite one. *)
Lemma checkout_total_follows_row_order :
  map ci_price (select_cart_items Sample.table_order
                                  (store Sample.three_prices))
  = [NVal 30; NVal 20; NVal 10]
  /\ map ci_price (select_cart_items Sample.last_first
                                     (store Sample.three_prices))
     = [NVal 10; NVal 20; NVal 30]
  /\ snd (post_checkout Sample.env Sample.table_order no_faults Sample.alice
                        Sample.three_prices)
     = Some {| status := 200;
               json := CheckoutReply "Checkout successful!" 1
                                     0x1.3333333333333p-1%float |}
  /\ snd (post_checkout Sample.env Sample.last_first no_faults Sample.alice
                        Sample.three_prices)
     = Some {| status := 200;
               json := CheckoutReply "Checkout successful!" 1
                                     0x1.3333333333334p-1%float |}
  /\ 0x1.3333333333333p-1%float <> 0x1.3333333333334p-1%float.
Proof.
  repeat split; try reflexivity.
  intro H. apply (f_equal Prim2SF) in H. vm_compute in H. discriminate H.
Qed.

(** ** Two checkouts at once *)

(** C4, the code at the failing input: one mouse is left in stock and it is
    in the cart; two checkouts overlap, each having read the cart before the
    other writes.  Both pass the stock check on the row they have read,
    both are answered 200, two orders are stored, and the stock of the mouse
    is left at -1.  Neither is answered with insufficient stock. *)
Lemma overlapping_checkouts_oversell :
  map (fun item => (ci_product_id item, ci_quantity item, ci_stock item))
      (select_cart_items Sample.table_order (store Sample.last_unit))
  = [(1, 1, 1)]
  /\ (let out := overlapping_checkouts Sample.env
                   Sample.table_order no_faults Sample.alice
                   Sample.table_order no_faults Sample.bob
                   Sample.last_unit in
      snd (fst out)
      = Some {| status := 200;
                json := CheckoutReply "Checkout successful!" 1 25.5%float |}
      /\ snd out
         = Some {| status := 200;
                   json := CheckoutReply "Checkout successful!" 2
                                         25.5%float |}
      /\ map (fun p => (p_id p, p_stock p))
             (products (store (fst (fst out))))
         = [(1, -1); (2, 50)]
      /\ map (fun o => (o_id o, o_user_id o, o_total_amount o))
             (orders (store (fst (fst out))))
         = [(1, 1, NVal 2550); (2, 2, NVal 2550)]
      /\ order_items (store (fst (fst out)))
         = [{| oi_id := 1; oi_order_id := Some 1; oi_product_id := 1;
               oi_quantity := 1; oi_price := NVal 2550 |}]).
Proof. cbv zeta. repeat split; reflexivity. Qed.

(** The same two checkouts served one after the other: the second finds
    the cart empty and the stock stays at 0. *)
Lemma checkouts_in_turn :
  let first := post_checkout Sample.env Sample.table_order no_faults
                             Sample.alice Sample.last_unit in
  let second := post_checkout Sample.env Sample.table_order no_faults
                              Sample.bob (fst first) in
  snd first
  = Some {| status := 200;
            json := CheckoutReply "Checkout successful!" 1 25.5%float |}
  /\ snd second
     = Some {| status := 400; json := Message "Your cart is empty." |}
  /\ map (fun p => (p_id p, p_stock p)) (products (store (fst second)))
     = [(1, 0); (2, 50)].
Proof. cbv zeta. repeat split; reflexivity. Qed.

(** ** The catalog price at checkout *)

(** C1, the code at the failing input: two mice go into the cart at 25.50
    each, the catalog price is then raised to 30, and the checkout returns
    and stores 60.00, not the 51.00 of the price snapshots, which the bound
    line still carries. *)
Lemma checkout_total_follows_catalog_price :
  map (fun l => (oi_quantity l, oi_price l)) (cart (store Sample.repriced))
  = [(2, NVal 2550)]
  /\ exact_total (cart (store Sample.repriced)) = Some 5100
  /\ snapshot_total (cart (store Sample.repriced)) = 51%float
  /\ (let out := post_checkout Sample.env Sample.table_order no_faults
                               Sample.alice Sample.repriced in
      snd out = Some {| status := 200;
                        json := CheckoutReply "Checkout successful!" 1
                                              60%float |}
      /\ orders (store (fst out))
         = [{| o_id := 1; o_user_id := 1; o_total_amount := NVal 6000;
               o_status := "completed" |}]
      /\ order_items (store (fst out))
         = [{| oi_id := 1; oi_order_id := Some 1; oi_product_id := 1;
               oi_quantity := 2; oi_price := NVal 2550 |}]).
Proof. cbv zeta. repeat split; reflexivity. Qed.

(** The scenario of the specification: the mouse has stock 100 and price
    25.50; two go into the cart; the checkout answers 200 with total 51,
    stores the order with 51.00, leaves a stock of 98 and an empty cart. *)
Lemma end_to_end_scenario :
  let out := post_checkout Sample.env Sample.table_order no_faults
                           Sample.alice Sample.two_mice in
  snd out = Some {| status := 200;
                    json := CheckoutReply "Checkout successful!" 1
                                          51%float |}
  /\ orders (store (fst out))
     = [{| o_id := 1; o_user_id := 1; o_total_amount := NVal 5100;
           o_status := "completed" |}]
  /\ map p_stock (products (store (fst out))) = [98; 50]
  /\ cart (store (fst out)) = []
  /\ snd (get_cart Sample.table_order Sample.alice (fst out))
     = Some {| status := 200; json := CartReply [] |}.
Proof. cbv zeta. repeat split; reflexivity. Qed.

(** ** Consistency is kept by every handler *)

Lemma existsb_key_false (ps : list product) (id : Z) :
  existsb (fun p => p_id p =? id) ps = false -> ~ In id (map p_id ps).
Proof.
  induction ps as [|a ps IH]; simpl; intros H Hin; [contradiction|].
  apply orb_false_iff in H. destruct H as [Ha Hps].
  destruct Hin as [E | Hin].
  - apply Z.eqb_neq in Ha. contradiction.
  - exact (IH Hps Hin).
Qed.

Lemma map_key_filter (key : Z) (ps : list product) :
  map p_id (filter (fun p => negb (p_id p =? key)) ps)
  = filter (fun k => negb (k =? key)) (map p_id ps).
Proof.
  induction ps as [|a ps IH]; simpl; [reflexivity|].
  destruct (p_id a =? key); simpl; now rewrite IH.
Qed.

Lemma post_products_consistent (env : environment) (body : product_body)
  (user : claims) (d : db) :
  consistent (store d) ->
  consistent (store (fst (post_products env body user d))).
Proof.
  intros [Hkey Href]. unfold post_products.
  destruct (negb (Js.truthy (name body)) || negb (Js.truthy (price body))
            || negb (Js.truthy (stock body))); [split; assumption|].
  destruct (required (bind_varchar (pg_input env) (name body)));
    [|split; assumption].
  destruct (nullable (bind_text (pg_input env) (description body)));
    [|split; assumption].
  destruct (required (bind_numeric (pg_input env) (price body)));
    [|split; assumption].
  destruct (required (bind_int4 (pg_input env) (stock body)));
    [|split; assumption].
  destruct (nullable (bind_varchar (pg_input env) (image_url body)));
    [|split; assumption].
  destruct (in_int4 (products_id_seq d)
            && negb (existsb (fun p => p_id p =? products_id_seq d)
                             (products (store d)))) eqn:E;
    [|split; assumption].
  apply andb_true_iff in E. destruct E as [_ E]. apply negb_true_iff in E.
  split.
  - unfold keyed. simpl. rewrite map_app. simpl.
    apply (NoDup_Add (a := products_id_seq d)
                     (l := map p_id (products (store d)))).
    + pose proof (Add_app (products_id_seq d)
                          (map p_id (products (store d))) []) as A.
      rewrite app_nil_r in A. exact A.
    + split; [exact Hkey | exact (existsb_key_false _ _ E)].
  - intros l Hl. simpl in Hl. destruct (Href l Hl) as (p & Hp & Hid).
    exists p. simpl. split; [apply in_or_app; now left | exact Hid].
Qed.

Lemma put_products_consistent (env : environment) (id : string)
  (body : product_body) (user : claims) (d : db) :
  consistent (store d) ->
  consistent (store (fst (put_products env id body user d))).
Proof.
  intros [Hkey Href]. unfold put_products.
  destruct (nullable (bind_varchar (pg_input env) (name body))) as [n|];
    [|split; assumption].
  destruct (nullable (bind_text (pg_input env) (description body))) as [dsc|];
    [|split; assumption].
  destruct (nullable (bind_numeric (pg_input env) (price body))) as [pr|];
    [|split; assumption].
  destruct (nullable (bind_int4 (pg_input env) (stock body))) as [st|];
    [|split; assumption].
  destruct (nullable (bind_varchar (pg_input env) (image_url body)))
    as [img|]; [|split; assumption].
  destruct (required (bind_int4 (pg_input env) (Js.Str id))) as [key|];
    [|split; assumption].
  destruct (map _ (products_with_id key (store d))) as [|row rows];
    [split; assumption|].
  simpl.
  assert (Hids : forall ps f,
             (forall p : product, p_id (f p) = p_id p) ->
             map p_id (map (fun p => if p_id p =? key then f p else p) ps)
             = map p_id ps).
  { intros ps f Hf. rewrite map_map. apply map_ext. intro p.
    destruct (p_id p =? key); [apply Hf | reflexivity]. }
  split.
  - unfold keyed. simpl. rewrite Hids; [exact Hkey | reflexivity].
  - intros l Hl. simpl in Hl. destruct (Href l Hl) as (p & Hp & Hid).
    simpl. eexists. split.
    + apply in_map. exact Hp.
    + destruct (p_id p =? key); exact Hid.
Qed.

Lemma delete_products_consistent (env : environment) (id : string)
  (user : claims) (d : db) :
  consistent (store d) ->
  consistent (store (fst (delete_products env id user d))).
Proof.
  intros [Hkey Href]. unfold delete_products.
  destruct (required (bind_int4 (pg_input env) (Js.Str id))) as [key|];
    [|split; assumption].
  destruct (products_with_id key (store d)) as [|row rows];
    [split; assumption|].
  split.
  - unfold keyed. simpl. rewrite map_key_filter. apply NoDup_filter.
    exact Hkey.
  - intros l Hl. simpl in Hl. apply filter_In in Hl. destruct Hl as [Hl Hne].
    destruct (Href l Hl) as (p & Hp & Hid). exists p. simpl.
    split; [|exact Hid]. apply filter_In. split; [exact Hp|].
    rewrite Hid. exact Hne.
Qed.

Lemma checkout_from_consistent (env : environment) (flt : faults)
  (user : claims) (cartItems : list cart_item) (d : db) :
  consistent (store d) ->
  consistent (store (fst (checkout_from env flt user cartItems d))).
Proof.
  intros [Hkey Href].
  destruct (checkout_from env flt user cartItems d) as [d' r] eqn:H. simpl.
  apply checkout_from_outcome in H.
  destruct H as [[Hs _] | (total & t1 & uid & amount & t2 & _ & Hloop
                           & _ & _ & Hins & Hd & _)].
  { rewrite Hs. split; assumption. }
  destruct (committed_tables _ _ _ _ _ _ _ _ Hloop Hins)
    as (_ & Hp & _ & Hl).
  subst d'. split.
  - unfold keyed. cbn [store set_store]. rewrite Hp, map_map. exact Hkey.
  - intros l Hin. cbn [store set_store] in *. rewrite Hl in Hin.
    apply in_map_iff in Hin. destruct Hin as (l0 & E & Hl0).
    destruct (Href l0 Hl0) as (p & Hp0 & Hid). rewrite Hp.
    eexists. split.
    + apply in_map. exact Hp0.
    + subst l. simpl. rewrite Hid. unfold bound_to.
      destruct (oi_order_id l0); reflexivity.
Qed.

Lemma post_checkout_consistent (env : environment)
  (plan : executor cart_item) (flt : faults) (user : claims) (d : db) :
  consistent (store d) ->
  consistent (store (fst (post_checkout env plan flt user d))).
Proof.
  intro Hc. unfold post_checkout, caught.
  destruct (flt Connect); [exact Hc|].
  destruct (flt Begin || flt SelectCart); [exact Hc|].
  now apply checkout_from_consistent.
Qed.

(** * Further properties of the handlers *)

Import Routes.

(** ** Invariants along any sequence of requests *)

Lemma handler_consistent (env : environment) (req : request)
  (user : claims) (d : db) :
  consistent (store d) ->
  consistent (store (fst (handler env req user d))).
Proof.
  intro Hc. destruct req as [|body|id body|id|body|plan|plan flt]; simpl.
  - exact Hc.
  - now apply post_products_consistent.
  - now apply put_products_consistent.
  - now apply delete_products_consistent.
  - apply (post_cart_consistent env body user d _
             (snd (post_cart env body user d)) Hc).
    apply surjective_pairing.
  - exact Hc.
  - now apply post_checkout_consistent.
Qed.

Lemma serve_consistent (env : environment) (authHeader : option string)
  (req : request) (d : db) :
  consistent (store d) ->
  consistent (store (fst (serve env authHeader req d))).
Proof.
  intro Hc. unfold serve, protected.
  destruct (verifyToken env authHeader) as [res | user].
  - exact Hc.
  - now apply handler_consistent.
Qed.

(** X1: whatever requests are served, with whatever tokens and whatever
    statements raising during the checkouts, product keys stay unique and
    every order line keeps referring to a stored product. *)
Theorem serve_all_keeps_keys
  (env : environment) (reqs : list (option string * request)) (d : db) :
  consistent (store d) -> consistent (store (serve_all env reqs d)).
Proof.
  revert d. induction reqs as [|[authHeader req] rest IH]; simpl; intros d Hc.
  - exact Hc.
  - pose proof (serve_consistent env authHeader req d Hc) as Hc'.
    destruct (serve env authHeader req d) as [d' [res|]].
    + apply IH. exact Hc'.
    + exact Hc'.
Qed.

Lemma serve_all_keeps_keys_witness :
  consistent
    (store (serve_all Sample.env
              [(Some "Bearer alice.token"%string,
                PostCart (Sample.add 1 2));
               (Some "Bearer bob.token"%string, DeleteProducts "1");
               (Some "Bearer bob.token"%string,
                PostCheckout Sample.table_order no_faults)]
              Sample.shop)).
Proof. apply serve_all_keeps_keys. exact shop_consistent. Defined.

Lemma post_checkout_sequences (env : environment)
  (plan : executor cart_item) (flt : faults) (user : claims) (d : db) :
  products_id_seq (fst (post_checkout env plan flt user d))
  = products_id_seq d
  /\ order_items_id_seq (fst (post_checkout env plan flt user d))
     = order_items_id_seq d
  /\ (orders_id_seq (fst (post_checkout env plan flt user d))
      = orders_id_seq d
      \/ orders_id_seq (fst (post_checkout env plan flt user d))
         = orders_id_seq d + 1).
Proof.
  unfold post_checkout, checkout_from, caught.
  destruct (flt Connect); simpl; [auto|].
  destruct (flt Begin || flt SelectCart); simpl; [auto|].
  destruct (select_cart_items plan (store d)) as [|item rest];
    [destruct (flt Rollback); simpl; auto|].
  destruct (verify_stock flt (item :: rest) 0%float (Live (store d)))
    as [pid [t1|] | total [t1|]];
    [destruct (flt Rollback); simpl; auto | simpl; auto | | simpl; auto].
  destruct (flt InsertOrder); simpl; [auto|].
  destruct (bind_int4 (pg_input env) (userId user)) as [| |uid];
    simpl; [auto | destruct (numeric_of_number total); simpl; auto |].
  destruct (numeric_of_number total) as [amount|]; simpl; [|auto].
  destruct (sql_insert_order (orders_id_seq d) uid amount "completed" t1);
    simpl; [|auto].
  destruct (flt BindCart); simpl; [auto|].
  destruct (flt Commit); simpl; auto.
Qed.

Lemma post_checkout_sequenced (env : environment)
  (plan : executor cart_item) (flt : faults) (user : claims) (d : db) :
  sequenced d -> sequenced (fst (post_checkout env plan flt user d)).
Proof.
  intros (Hp & Ho & Hl).
  pose proof (post_checkout_sequences env plan flt user d) as (Sp & Sl & So).
  destruct (post_checkout env plan flt user d) as [d' r] eqn:H. simpl in *.
  apply post_checkout_outcome in H.
  destruct H as [[Hs _] | (total & t1 & uid & amount & t2 & _ & Hloop
                           & _ & _ & Hins & Hd & _)].
  - unfold sequenced. rewrite Hs, Sp, Sl. repeat split; try assumption.
    intros o Hin. specialize (Ho o Hin). lia.
  - destruct (committed_tables _ _ _ _ _ _ _ _ Hloop Hins)
      as (_ & Hpr & Hor & Hit).
    subst d'. unfold sequenced. cbn [store set_store next_orders_id
      products_id_seq orders_id_seq order_items_id_seq].
    repeat split.
    + intros p Hin. rewrite Hpr in Hin. apply in_map_iff in Hin.
      destruct Hin as (p0 & E & Hin). subst p. simpl. now apply Hp.
    + intros o Hin. rewrite Hor in Hin. apply in_app_or in Hin.
      destruct Hin as [Hin | [E | []]].
      * specialize (Ho o Hin). lia.
      * subst o. simpl. lia.
    + intros l Hin. rewrite Hit in Hin. apply in_map_iff in Hin.
      destruct Hin as (l0 & E & Hin). subst l.
      specialize (Hl l0 Hin). unfold bound_to.
      destruct (oi_order_id l0); simpl; exact Hl.
Qed.

Lemma post_products_sequenced (env : environment) (body : product_body)
  (user : claims) (d : db) :
  sequenced d -> sequenced (fst (post_products env body user d)).
Proof.
  intros (Hp & Ho & Hl). unfold post_products.
  destruct (negb (Js.truthy (name body)) || negb (Js.truthy (price body))
            || negb (Js.truthy (stock body))); [repeat split; assumption|].
  destruct (required (bind_varchar (pg_input env) (name body)));
    [|repeat split; assumption].
  destruct (nullable (bind_text (pg_input env) (description body)));
    [|repeat split; assumption].
  destruct (required (bind_numeric (pg_input env) (price body)));
    [|repeat split; assumption].
  destruct (required (bind_int4 (pg_input env) (stock body)));
    [|repeat split; assumption].
  destruct (nullable (bind_varchar (pg_input env) (image_url body)));
    [|repeat split; assumption].
  destruct (in_int4 (products_id_seq d)
            && negb (existsb (fun p => p_id p =? products_id_seq d)
                             (products (store d))));
    unfold sequenced; simpl; repeat split; try assumption.
  - intros p Hin. apply in_app_or in Hin. destruct Hin as [Hin | [E | []]].
    + specialize (Hp p Hin). lia.
    + subst p. simpl. lia.
  - intros p Hin. specialize (Hp p Hin). lia.
Qed.

Lemma put_products_sequenced (env : environment) (id : string)
  (body : product_body) (user : claims) (d : db) :
  sequenced d -> sequenced (fst (put_products env id body user d)).
Proof.
  intros (Hp & Ho & Hl). unfold put_products.
  destruct (nullable (bind_varchar (pg_input env) (name body))) as [n|];
    [|repeat split; assumption].
  destruct (nullable (bind_text (pg_input env) (description body))) as [dsc|];
    [|repeat split; assumption].
  destruct (nullable (bind_numeric (pg_input env) (price body))) as [pr|];
    [|repeat split; assumption].
  destruct (nullable (bind_int4 (pg_input env) (stock body))) as [st|];
    [|repeat split; assumption].
  destruct (nullable (bind_varchar (pg_input env) (image_url body)))
    as [img|]; [|repeat split; assumption].
  destruct (required (bind_int4 (pg_input env) (Js.Str id))) as [key|];
    [|repeat split; assumption].
  destruct (map _ (products_with_id key (store d))) as [|row rows];
    [repeat split; assumption|].
  unfold sequenced. simpl. repeat split; try assumption.
  intros p Hin. apply in_map_iff in Hin. destruct Hin as (p0 & E & Hin).
  specialize (Hp p0 Hin). destruct (p_id p0 =? key); subst p; exact Hp.
Qed.

Lemma delete_products_sequenced (env : environment) (id : string)
  (user : claims) (d : db) :
  sequenced d -> sequenced (fst (delete_products env id user d)).
Proof.
  intros (Hp & Ho & Hl). unfold delete_products.
  destruct (required (bind_int4 (pg_input env) (Js.Str id))) as [key|];
    [|repeat split; assumption].
  destruct (products_with_id key (store d)) as [|row rows];
    [repeat split; assumption|].
  unfold sequenced. simpl. repeat split; try assumption.
  - intros p Hin. apply filter_In in Hin. now apply Hp.
  - intros l Hin. apply filter_In in Hin. now apply Hl.
Qed.

Lemma post_cart_sequenced (env : environment) (body : cart_body)
  (user : claims) (d : db) :
  sequenced d -> sequenced (fst (post_cart env body user d)).
Proof.
  intros (Hp & Ho & Hl). unfold post_cart.
  destruct (negb (Js.truthy (product_id body))
            || negb (Js.truthy (quantity body))); [repeat split; assumption|].
  destruct (bind_int4 (pg_input env) (product_id body)) as [| |key];
    try (repeat split; assumption).
  destruct (products_with_id key (store d)) as [|p rest];
    [repeat split; assumption|].
  destruct (required (bind_int4 (pg_input env) (quantity body))) as [q|];
    [|repeat split; assumption].
  destruct (in_int4 (order_items_id_seq d)
            && negb (existsb (fun l => oi_id l =? order_items_id_seq d)
                             (order_items (store d))));
    unfold sequenced; simpl; repeat split; try assumption.
  - intros l Hin. apply in_app_or in Hin. destruct Hin as [Hin | [E | []]].
    + specialize (Hl l Hin). lia.
    + subst l. simpl. lia.
  - intros l Hin. specialize (Hl l Hin). lia.
Qed.

Lemma existsb_below {A : Type} (key : A -> Z) (l : list A) (n : Z) :
  (forall x, In x l -> key x < n) -> existsb (fun x => key x =? n) l = false.
Proof.
  induction l as [|a l IH]; simpl; intro H; [reflexivity|].
  rewrite IH by (intros x Hx; apply H; now right).
  specialize (H a (or_introl eq_refl)).
  replace (key a =? n) with false by (symmetry; apply Z.eqb_neq; lia).
  reflexivity.
Qed.

Lemma handler_sequenced (env : environment) (req : request) (user : claims)
  (d : db) :
  sequenced d -> sequenced (fst (handler env req user d)).
Proof.
  intro Hs. destruct req as [|body|id body|id|body|plan|plan flt]; simpl.
  - exact Hs.
  - now apply post_products_sequenced.
  - now apply put_products_sequenced.
  - now apply delete_products_sequenced.
  - now apply post_cart_sequenced.
  - exact Hs.
  - now apply post_checkout_sequenced.
Qed.

(** X2: whatever requests are served, every key of a product, an order or
    an order line stays below the next value of its sequence, also when a
    checkout is rolled back after drawing a key. *)
Theorem serve_all_keeps_keys_below_sequences
  (env : environment) (reqs : list (option string * request)) (d : db) :
  sequenced d -> sequenced (serve_all env reqs d).
Proof.
  revert d. induction reqs as [|[authHeader req] rest IH]; simpl; intros d Hs.
  - exact Hs.
  - assert (Hs' : sequenced (fst (serve env authHeader req d))).
    { unfold serve, protected.
      destruct (verifyToken env authHeader) as [res | user].
      - exact Hs.
      - now apply handler_sequenced. }
    destruct (serve env authHeader req d) as [d' [res|]].
    + apply IH. exact Hs'.
    + exact Hs'.
Qed.

Lemma shop_sequenced : sequenced Sample.shop.
Proof.
  repeat split; simpl; intros x Hx.
  - destruct Hx as [<- | [<- | []]]; simpl; lia.
  - contradiction.
  - contradiction.
Qed.

Lemma serve_all_keeps_keys_below_sequences_witness :
  sequenced
    (serve_all Sample.env
       [(Some "Bearer alice.token"%string, PostCart (Sample.add 1 2));
        (Some "Bearer alice.token"%string,
         PostCheckout Sample.table_order Sample.commit_fails);
        (Some "Bearer alice.token"%string,
         PostCheckout Sample.last_first no_faults)]
       Sample.shop).
Proof.
  apply serve_all_keeps_keys_below_sequences. exact shop_sequenced.
Defined.

(** ** Adding to the cart *)

(** X3: in a store whose keys lie below their sequences, a request to add
    a stored product with a quantity the store can read is answered 201 as
    long as the sequence is in the INTEGER range.  The new line takes the
    next key and the current catalog price of the product; the stock of the
    product is neither read nor changed. *)
Theorem post_cart_accepts_stored_product
  (env : environment) (body : cart_body) (user : claims) (d : db)
  (key q : Z) (p : product) :
  sequenced d -> keyed (store d) ->
  in_int4 (order_items_id_seq d) = true ->
  Js.truthy (product_id body) = true -> Js.truthy (quantity body) = true ->
  bind_int4 (pg_input env) (product_id body) = Val key ->
  bind_int4 (pg_input env) (quantity body) = Val q ->
  In p (products (store d)) -> p_id p = key ->
  post_cart env body user d
  = (set_store
       (set_order_items
          (order_items (store d)
           ++ [{| oi_id := order_items_id_seq d; oi_order_id := None;
                  oi_product_id := key; oi_quantity := q;
                  oi_price := p_price p |}])
          (store d))
       (next_order_items_id d),
     Some {| status := 201;
             json := ItemReply "Item added to cart successfully!"
                       {| oi_id := order_items_id_seq d;
                          oi_order_id := None; oi_product_id := key;
                          oi_quantity := q; oi_price := p_price p |} |}).
Proof.
  intros (_ & _ & Hl) Hkey Hseq Htp Htq Hbp Hbq Hp Hid.
  unfold post_cart. rewrite Htp, Htq, Hbp, Hbq. simpl.
  unfold products_with_id. subst key.
  rewrite (filter_key _ _ Hkey Hp), Hseq.
  rewrite (existsb_below oi_id _ _ Hl). reflexivity.
Qed.

Lemma post_cart_accepts_stored_product_witness :
  snd (post_cart Sample.env (Sample.add 2 500) Sample.bob Sample.shop)
  = Some {| status := 201;
            json := ItemReply "Item added to cart successfully!"
                      {| oi_id := 1; oi_order_id := None;
                         oi_product_id := 2; oi_quantity := 500;
                         oi_price := NVal 8999 |} |}.
Proof.
  rewrite (post_cart_accepts_stored_product Sample.env (Sample.add 2 500)
             Sample.bob Sample.shop 2 500 Sample.keyboard
             shop_sequenced (proj1 shop_consistent)
             eq_refl eq_refl eq_refl eq_refl eq_refl
             (or_intror (or_introl eq_refl)) eq_refl).
  reflexivity.
Defined.

(** ** Updating and deleting products *)

Import Notions.

Lemma absent_binds_null (tin : text_input) (v : Js.value) :
  absent v ->
  bind_varchar tin v = IsNull /\ bind_text tin v = IsNull
  /\ bind_numeric tin v = IsNull /\ bind_int4 tin v = IsNull.
Proof. intros [-> | ->]; repeat split; reflexivity. Qed.

Lemma products_with_id_head (key : Z) (t : tables) (p : product)
  (rest : list product) :
  products_with_id key t = p :: rest -> In p (products t) /\ p_id p = key.
Proof.
  intro H.
  assert (Hin : In p (products_with_id key t)) by (rewrite H; now left).
  unfold products_with_id in Hin. apply filter_In in Hin.
  destruct Hin as [Hin Hid]. apply Z.eqb_eq in Hid. auto.
Qed.

(** X4: PUT /api/products/:id is a partial update.  It either changes
    nothing (404 when no product has the key, 500 when a field cannot be
    read) or answers 200 and rewrites only the product with that key, and of
    it only the columns whose field is present: a field that is missing or
    null keeps its column, so no column can be cleared.  The products with
    another key, the keys in use, the other tables and the sequences
    stay. *)
Theorem put_products_partial_update
  (env : environment) (id : string) (body : product_body) (user : claims)
  (d d' : db) (r : option response) :
  put_products env id body user d = (d', r) ->
  (d' = d
   /\ exists res, r = Some res /\ (status res = 404 \/ status res = 500))
  \/ (exists key old row,
         bind_int4 (pg_input env) (Js.Str id) = Val key
         /\ r = Some {| status := 200;
                        json := ProductReply "Product updated successfully!"
                                             row |}
         /\ In old (products (store d)) /\ p_id old = key
         /\ kept_where_absent body old row
         /\ In row (products (store d'))
         /\ (forall p, p_id p <> key ->
                       (In p (products (store d'))
                        <-> In p (products (store d))))
         /\ (forall p', In p' (products (store d')) -> p_id p' = key ->
                        exists p, In p (products (store d)) /\ p_id p = key
                                  /\ kept_where_absent body p p')
         /\ Permutation (map p_id (products (store d')))
                        (map p_id (products (store d)))
         /\ d' = set_store (set_products (products (store d')) (store d)) d).
Proof.
  unfold put_products. intro H.
  destruct (nullable (bind_varchar (pg_input env) (name body)))
    as [n|] eqn:Hn;
    [|left; inversion H; subst; split; [reflexivity|];
      eexists; split; [reflexivity|]; simpl; auto].
  destruct (nullable (bind_text (pg_input env) (description body)))
    as [dsc|] eqn:Hdsc;
    [|left; inversion H; subst; split; [reflexivity|];
      eexists; split; [reflexivity|]; simpl; auto].
  destruct (nullable (bind_numeric (pg_input env) (price body)))
    as [pr|] eqn:Hpr;
    [|left; inversion H; subst; split; [reflexivity|];
      eexists; split; [reflexivity|]; simpl; auto].
  destruct (nullable (bind_int4 (pg_input env) (stock body)))
    as [st|] eqn:Hst;
    [|left; inversion H; subst; split; [reflexivity|];
      eexists; split; [reflexivity|]; simpl; auto].
  destruct (nullable (bind_varchar (pg_input env) (image_url body)))
    as [img|] eqn:Himg;
    [|left; inversion H; subst; split; [reflexivity|];
      eexists; split; [reflexivity|]; simpl; auto].
  destruct (bind_int4 (pg_input env) (Js.Str id)) as [| |key] eqn:Hkey;
    simpl in H;
    try (left; inversion H; subst; split; [reflexivity|];
         eexists; split; [reflexivity|]; simpl; auto).
  set (updated := fun p : product =>
         {| p_id := p_id p;
            p_name := coalesce n (p_name p);
            p_description := match dsc with
                             | Some s => Some s
                             | None => p_description p
                             end;
            p_price := coalesce pr (p_price p);
            p_stock := coalesce st (p_stock p);
            p_image_url := match img with
                           | Some s => Some s
                           | None => p_image_url p
                           end |}) in *.
  assert (Hkept : forall p, kept_where_absent body p (updated p)).
  { intro p. unfold kept_where_absent, updated. simpl.
    split; [reflexivity|].
    repeat split; intro Ha;
      destruct (absent_binds_null (pg_input env) _ Ha)
        as (Hv & Ht & Hnum & Hi).
    - rewrite Hv in Hn. injection Hn as <-. reflexivity.
    - rewrite Ht in Hdsc. injection Hdsc as <-. reflexivity.
    - rewrite Hnum in Hpr. injection Hpr as <-. reflexivity.
    - rewrite Hi in Hst. injection Hst as <-. reflexivity.
    - rewrite Hv in Himg. injection Himg as <-. reflexivity. }
  destruct (products_with_id key (store d)) as [|p0 rest] eqn:Hrows;
    simpl in H.
  { left. inversion H; subst. split; [reflexivity|].
    eexists; split; [reflexivity|]. simpl; auto. }
  apply products_with_id_head in Hrows. destruct Hrows as [Hin0 Hid0].
  right. injection H as Hd Hr. subst d' r.
  exists key, p0, (updated p0).
  cbn [store set_store set_products products].
  split; [reflexivity|]. split; [reflexivity|].
  split; [exact Hin0|]. split; [exact Hid0|]. split; [apply Hkept|].
  split; [|split; [|split; [|split; [|reflexivity]]]].
  - apply in_map_iff. exists p0. split; [|exact Hin0].
    replace (p_id p0 =? key) with true; [reflexivity|].
    symmetry. now apply Z.eqb_eq.
  - intros p Hne. split; intro Hp.
    + apply in_map_iff in Hp. destruct Hp as (q & E & Hq).
      destruct (p_id q =? key) eqn:Hqk.
      * apply Z.eqb_eq in Hqk. subst p. simpl in Hne. contradiction.
      * now subst p.
    + apply in_map_iff. exists p. split; [|exact Hp].
      replace (p_id p =? key) with false; [reflexivity|].
      symmetry. now apply Z.eqb_neq.
  - intros p' Hp' Hid'. apply in_map_iff in Hp'. destruct Hp' as (q & E & Hq).
    exists q. destruct (p_id q =? key) eqn:Hqk.
    + apply Z.eqb_eq in Hqk. subst p'. auto.
    + subst p'. apply Z.eqb_neq in Hqk. contradiction.
  - rewrite map_map.
    rewrite (map_ext (fun p => p_id (if p_id p =? key then updated p else p))
                     p_id); [apply Permutation_refl|].
    intro p. destruct (p_id p =? key); reflexivity.
Qed.

Lemma put_products_partial_update_witness :
  let out := put_products Sample.env "2" (Sample.with_price 80) Sample.alice
                          Sample.shop in
  exists row,
    snd out = Some {| status := 200;
                      json := ProductReply "Product updated successfully!"
                                           row |}
    /\ In row (products (store (fst out)))
    /\ In Sample.mouse (products (store (fst out)))
    /\ p_price row = NVal 8000
    /\ p_stock row = 50
    /\ p_name row = "Mechanical Keyboard"%string.
Proof.
  intro out.
  destruct (put_products_partial_update Sample.env "2"
              (Sample.with_price 80) Sample.alice Sample.shop
              (fst out) (snd out) (surjective_pairing out))
    as [[_ (res & Hr & Hs)]
       | (key & old & row & Hkey & Hr & Hold & Hid & Hkept & Hrow & Hrest
          & _)].
  - exfalso. vm_compute in Hr. injection Hr as <-. simpl in Hs. lia.
  - vm_compute in Hkey. injection Hkey as <-.
    exists row. split; [exact Hr|]. split; [exact Hrow|].
    split; [apply (Hrest Sample.mouse); [discriminate | now left]|].
    destruct Hkept as (_ & Hname & _ & _ & Hstock & _).
    simpl in Hold. destruct Hold as [<- | [<- | []]]; [discriminate Hid|].
    split; [|split].
    + vm_compute in Hr. now injection Hr as <-.
    + apply Hstock. now left.
    + apply Hname. now left.
Defined.

(** X5: DELETE /api/products/:id either changes nothing (404 when no
    product has the key, 500 when the key cannot be read) or answers 200,
    removes the product with that key and, with it, every order line on it,
    whether still in the cart or already bound to an order; other products,
    other lines, orders, users and sequences stay.  Afterwards the key is
    gone: deleting it again is answered 404, and so is adding it to the
    cart. *)
Theorem delete_products_cascades
  (env : environment) (id : string) (user : claims) (d d' : db)
  (r : option response) :
  delete_products env id user d = (d', r) ->
  (d' = d
   /\ exists res, r = Some res /\ (status res = 404 \/ status res = 500))
  \/ (exists key,
         bind_int4 (pg_input env) (Js.Str id) = Val key
         /\ r = Some {| status := 200;
                        json := DeletedReply "Product deleted successfully!"
                                             key |}
         /\ d' = set_store
                   (set_order_items
                      (filter (fun l => negb (oi_product_id l =? key))
                              (order_items (store d)))
                      (set_products
                         (filter (fun p => negb (p_id p =? key))
                                 (products (store d))) (store d))) d
         /\ (forall p, In p (products (store d')) -> p_id p <> key)
         /\ (forall l, In l (order_items (store d')) ->
                       oi_product_id l <> key)
         /\ (forall u, delete_products env id u d'
                       = (d', Some {| status := 404;
                                      json := Message "Product not found." |}))
         /\ (forall u body,
                Js.truthy (product_id body) = true ->
                Js.truthy (quantity body) = true ->
                bind_int4 (pg_input env) (product_id body) = Val key ->
                post_cart env body u d'
                = (d', Some {| status := 404;
                               json := Message "Product not found." |}))).
Proof.
  unfold delete_products. intro H.
  destruct (bind_int4 (pg_input env) (Js.Str id)) as [| |key] eqn:Hkey;
    simpl in H;
    try (left; inversion H; subst; split; [reflexivity|];
         eexists; split; [reflexivity|]; simpl; auto).
  destruct (products_with_id key (store d)) as [|p0 rest] eqn:Hrows.
  { left. inversion H; subst. split; [reflexivity|].
    eexists; split; [reflexivity|]. simpl; auto. }
  apply products_with_id_head in Hrows. destruct Hrows as [_ Hid0].
  right. exists key. inversion H; subst d' r. clear H.
  assert (Hgone : products_with_id key
                    (set_order_items
                       (filter (fun l => negb (oi_product_id l =? key))
                               (order_items (store d)))
                       (set_products
                          (filter (fun p => negb (p_id p =? key))
                                  (products (store d))) (store d))) = []).
  { unfold products_with_id. simpl. apply filter_none.
    intros p Hp. apply filter_In in Hp. destruct Hp as [_ Hne].
    apply negb_true_iff in Hne. exact Hne. }
  split; [reflexivity|]. rewrite Hid0.
  split; [reflexivity|]. split; [reflexivity|]. simpl.
  split; [|split; [|split]].
  - intros p Hp. apply filter_In in Hp. destruct Hp as [_ Hne].
    apply negb_true_iff, Z.eqb_neq in Hne. exact Hne.
  - intros l Hl. apply filter_In in Hl. destruct Hl as [_ Hne].
    apply negb_true_iff, Z.eqb_neq in Hne. exact Hne.
  - intro u. rewrite Hgone. reflexivity.
  - intros u body Htp Htq Hbp. unfold post_cart.
    rewrite Htp, Htq, Hbp. simpl. rewrite Hgone. reflexivity.
Qed.

Lemma delete_products_cascades_witness :
  let out := delete_products Sample.env "1" Sample.bob Sample.two_mice in
  map p_id (products (store (fst out))) = [2]
  /\ order_items (store (fst out)) = []
  /\ snd (post_cart Sample.env (Sample.add 1 2) Sample.alice (fst out))
     = Some {| status := 404; json := Message "Product not found." |}.
Proof.
  intro out.
  destruct (delete_products_cascades Sample.env "1" Sample.bob
              Sample.two_mice (fst out) (snd out) (surjective_pairing out))
    as [[_ (res & Hr & Hs)] | (key & Hkey & _ & Hd & _ & _ & _ & Hcart)].
  - exfalso. vm_compute in Hr. injection Hr as <-. simpl in Hs. lia.
  - split; [reflexivity|]. split; [reflexivity|].
    vm_compute in Hkey. injection Hkey as <-.
    rewrite (Hcart Sample.alice (Sample.add 1 2) eq_refl eq_refl eq_refl).
    reflexivity.
Defined.

(** ** Creating and listing products *)

Import Rest.

(** X6: in a store whose keys lie below their sequences, a request to
    create a product whose name, price and stock are truthy and readable is
    answered 201 as long as the sequence is in the INTEGER range.  The
    product takes the next key and is stored: GET /api/products then lists
    the former products and it, in whatever order the rows come back; a
    lookup by its key finds it alone, and the sequence moves on by one. *)
Theorem post_products_stores_and_lists
  (env : environment) (body : product_body) (user : claims) (d : db)
  (n : string) (dsc : option string) (pr : numeric) (st : Z)
  (img : option string) :
  sequenced d -> in_int4 (products_id_seq d) = true ->
  Js.truthy (name body) = true -> Js.truthy (price body) = true ->
  Js.truthy (stock body) = true ->
  bind_varchar (pg_input env) (name body) = Val n ->
  nullable (bind_text (pg_input env) (description body)) = Some dsc ->
  bind_numeric (pg_input env) (price body) = Val pr ->
  bind_int4 (pg_input env) (stock body) = Val st ->
  nullable (bind_varchar (pg_input env) (image_url body)) = Some img ->
  exists d',
    post_products env body user d
    = (d', Some {| status := 201;
                   json := ProductReply "Product added successfully!"
                             {| p_id := products_id_seq d; p_name := n;
                                p_description := dsc; p_price := pr;
                                p_stock := st; p_image_url := img |} |})
    /\ (forall plan, exists rows,
           get_products plan d'
           = (d', {| code := 200; body := ProductRows rows |})
           /\ Permutation
                rows
                ({| p_id := products_id_seq d; p_name := n;
                    p_description := dsc; p_price := pr;
                    p_stock := st; p_image_url := img |}
                 :: products (store d)))
    /\ products_with_id (products_id_seq d) (store d')
       = [{| p_id := products_id_seq d; p_name := n; p_description := dsc;
             p_price := pr; p_stock := st; p_image_url := img |}]
    /\ products_id_seq d' = products_id_seq d + 1
    /\ order_items (store d') = order_items (store d)
    /\ orders (store d') = orders (store d).
Proof.
  intros (Hp & _ & _) Hseq Htn Htp Hts Hn Hdsc Hpr Hst Himg.
  unfold post_products.
  rewrite Htn, Htp, Hts, Hn, Hdsc, Hpr, Hst, Himg, Hseq. simpl.
  rewrite (existsb_below p_id _ _ Hp). simpl.
  eexists. split; [reflexivity|]. simpl.
  split; [|split; [|auto]].
  - intro plan. eexists. split; [reflexivity|]. simpl.
    eapply Permutation_trans; [apply returned_permutation|].
    apply Permutation_sym, Permutation_cons_append.
  - unfold products_with_id. simpl. rewrite filter_app. simpl.
    rewrite Z.eqb_refl. rewrite filter_none; [reflexivity|].
    intros p Hin. apply Z.eqb_neq. specialize (Hp p Hin). lia.
Qed.

Lemma post_products_stores_and_lists_witness :
  exists d' rows,
    post_products Sample.env
      {| name := Js.Str "Gift card"; description := Js.Undefined;
         price := Js.Num 5; stock := Js.Num 10; image_url := Js.Undefined |}
      Sample.alice Sample.shop
    = (d', Some {| status := 201;
                   json := ProductReply "Product added successfully!"
                             {| p_id := 3; p_name := "Gift card";
                                p_description := None; p_price := NVal 500;
                                p_stock := 10; p_image_url := None |} |})
    /\ get_products Sample.last_first d'
       = (d', {| code := 200; body := ProductRows rows |})
    /\ Permutation (map p_id rows) [3; 1; 2].
Proof.
  destruct (post_products_stores_and_lists Sample.env
              {| name := Js.Str "Gift card"; description := Js.Undefined;
                 price := Js.Num 5; stock := Js.Num 10;
                 image_url := Js.Undefined |}
              Sample.alice Sample.shop "Gift card" None (NVal 500) 10 None
              shop_sequenced eq_refl eq_refl eq_refl eq_refl eq_refl eq_refl
              eq_refl eq_refl eq_refl)
    as (d' & Hpost & Hget & _).
  destruct (Hget Sample.last_first) as (rows & Hrows & P).
  exists d', rows. split; [exact Hpost|]. split; [exact Hrows|].
  exact (Permutation_map p_id P).
Defined.

(** ** The cart listing *)

(** X7: a line that POST /api/cart has stored is listed by the next GET
    /api/cart, for any user: its rows are the former rows and one more, in
    whatever order they come back, and that row has the quantity of the
    line, its price snapshot -- the catalog price of the product at the
    time -- and the name and image of its product. *)
Theorem get_cart_lists_added_line
  (env : environment) (body : cart_body) (user u : claims) (d d' : db)
  (msg : string) (item : order_item) :
  keyed (store d) ->
  post_cart env body user d
  = (d', Some {| status := 201; json := ItemReply msg item |}) ->
  exists p,
    In p (products (store d)) /\ p_id p = oi_product_id item
    /\ oi_price item = p_price p
    /\ forall before after, exists rows rows',
         get_cart before u d
         = (d, Some {| status := 200; json := CartReply rows |})
         /\ get_cart after u d'
            = (d', Some {| status := 200; json := CartReply rows' |})
         /\ Permutation rows'
                        ({| cr_product_id := oi_product_id item;
                            cr_quantity := oi_quantity item;
                            cr_price := p_price p;
                            cr_product_name := p_name p;
                            cr_image_url := p_image_url p |} :: rows).
Proof.
  intros Hkey H. apply post_cart_outcome in H.
  destruct H as [[_ (res & E & Hs)]
                | (key & q & p & _ & _ & _ & _ & Hp & Hid & Hd & E)].
  { injection E as <-. simpl in Hs. lia. }
  injection E as _ Hitem. subst item d'. exists p. simpl.
  split; [exact Hp|]. split; [exact Hid|]. split; [reflexivity|].
  intros before after. eexists. eexists.
  split; [reflexivity|]. split; [reflexivity|].
  apply Permutation_trans
    with (cart_join cart_row_of (store d)
          ++ [{| cr_product_id := key; cr_quantity := q;
                 cr_price := p_price p; cr_product_name := p_name p;
                 cr_image_url := p_image_url p |}]).
  - apply Permutation_trans with (1 := returned_permutation _ _).
    unfold cart_join. simpl.
    rewrite filter_app, flat_map_app. simpl.
    rewrite <- Hid, (filter_key _ _ Hkey Hp). apply Permutation_refl.
  - apply Permutation_trans with (1 := Permutation_sym
                                         (Permutation_cons_append _ _)).
    apply perm_skip, Permutation_sym, returned_permutation.
Qed.

Lemma get_cart_lists_added_line_witness :
  exists rows,
    get_cart Sample.last_first Sample.bob Sample.two_mice
    = (Sample.two_mice, Some {| status := 200; json := CartReply rows |})
    /\ rows = [{| cr_product_id := 1; cr_quantity := 2;
                  cr_price := NVal 2550;
                  cr_product_name := "Wireless Mouse";
                  cr_image_url :=
                    Some "https://example.com/images/mouse.jpg"%string |}].
Proof.
  destruct (get_cart_lists_added_line Sample.env (Sample.add 1 2)
              Sample.alice Sample.bob Sample.shop Sample.two_mice
              "Item added to cart successfully!"
              {| oi_id := 1; oi_order_id := None; oi_product_id := 1;
                 oi_quantity := 2; oi_price := NVal 2550 |}
              (proj1 shop_consistent) eq_refl)
    as (p & Hin & Hid & _ & Hget).
  destruct (Hget Sample.table_order Sample.last_first)
    as (rows & rows' & H0 & H1 & P).
  exists rows'. split; [exact H1|].
  injection H0 as <-.
  simpl in Hin. destruct Hin as [<- | [<- | []]]; [|discriminate Hid].
  apply Permutation_length_1_inv, Permutation_sym. exact P.
Defined.

Lemma line_rows_ignore_product_columns (g : product -> product)
  (oi : order_item) (ps : list product) :
  (forall p, p_id (g p) = p_id p) ->
  map (fun row => (cr_product_id row, cr_quantity row, cr_price row))
      (map (cart_row_of oi)
           (filter (fun p => p_id p =? oi_product_id oi) (map g ps)))
  = map (fun row => (cr_product_id row, cr_quantity row, cr_price row))
        (map (cart_row_of oi)
             (filter (fun p => p_id p =? oi_product_id oi) ps)).
Proof.
  intro Hg. induction ps as [|p ps IH]; simpl; [reflexivity|].
  rewrite Hg. destruct (p_id p =? oi_product_id oi); simpl.
  - now rewrite IH.
  - exact IH.
Qed.

Lemma cart_rows_ignore_product_columns (g : product -> product)
  (t : tables) :
  (forall p, p_id (g p) = p_id p) ->
  map (fun row => (cr_product_id row, cr_quantity row, cr_price row))
      (cart_join cart_row_of (set_products (map g (products t)) t))
  = map (fun row => (cr_product_id row, cr_quantity row, cr_price row))
        (cart_join cart_row_of t).
Proof.
  intro Hg. unfold cart_join. simpl.
  induction (filter in_cart (order_items t)) as [|oi ls IH]; simpl.
  - reflexivity.
  - rewrite !map_app, IH.
    now rewrite (line_rows_ignore_product_columns g oi _ Hg).
Qed.

(** X8: no PUT /api/products/:id, whatever it changes and however it ends,
    touches an order line, and the rows of GET /api/cart keep their product
    key, quantity and price, whatever the order in which they come back
    before and after: the listed price is the snapshot of the line, not the
    catalog price. *)
Theorem put_products_keeps_cart_snapshots
  (env : environment) (id : string) (body : product_body) (user u : claims)
  (d : db) (before after : executor cart_row) :
  order_items (store (fst (put_products env id body user d)))
  = order_items (store d)
  /\ exists rows rows',
       snd (get_cart before u d)
       = Some {| status := 200; json := CartReply rows |}
       /\ snd (get_cart after u (fst (put_products env id body user d)))
          = Some {| status := 200; json := CartReply rows' |}
       /\ Permutation
            (map (fun row => (cr_product_id row, cr_quantity row,
                              cr_price row)) rows')
            (map (fun row => (cr_product_id row, cr_quantity row,
                              cr_price row)) rows).
Proof.
  assert (same : forall t t' : tables,
             map (fun row => (cr_product_id row, cr_quantity row,
                              cr_price row)) (cart_join cart_row_of t')
             = map (fun row => (cr_product_id row, cr_quantity row,
                                cr_price row)) (cart_join cart_row_of t) ->
             Permutation
               (map (fun row => (cr_product_id row, cr_quantity row,
                                 cr_price row))
                    (returned after (cart_join cart_row_of t')))
               (map (fun row => (cr_product_id row, cr_quantity row,
                                 cr_price row))
                    (returned before (cart_join cart_row_of t)))).
  { intros t t' E.
    apply Permutation_trans
      with (map (fun row => (cr_product_id row, cr_quantity row,
                             cr_price row)) (cart_join cart_row_of t')).
    - apply Permutation_map, returned_permutation.
    - rewrite E. apply Permutation_map, Permutation_sym,
        returned_permutation. }
  unfold put_products.
  destruct (nullable (bind_varchar (pg_input env) (name body))) as [n|];
    [|split; [reflexivity|]; eexists; eexists;
      split; [reflexivity|]; split; [reflexivity|]; now apply same].
  destruct (nullable (bind_text (pg_input env) (description body))) as [dsc|];
    [|split; [reflexivity|]; eexists; eexists;
      split; [reflexivity|]; split; [reflexivity|]; now apply same].
  destruct (nullable (bind_numeric (pg_input env) (price body))) as [pr|];
    [|split; [reflexivity|]; eexists; eexists;
      split; [reflexivity|]; split; [reflexivity|]; now apply same].
  destruct (nullable (bind_int4 (pg_input env) (stock body))) as [st|];
    [|split; [reflexivity|]; eexists; eexists;
      split; [reflexivity|]; split; [reflexivity|]; now apply same].
  destruct (nullable (bind_varchar (pg_input env) (image_url body)))
    as [img|];
    [|split; [reflexivity|]; eexists; eexists;
      split; [reflexivity|]; split; [reflexivity|]; now apply same].
  destruct (required (bind_int4 (pg_input env) (Js.Str id))) as [key|];
    [|split; [reflexivity|]; eexists; eexists;
      split; [reflexivity|]; split; [reflexivity|]; now apply same].
  destruct (map _ (products_with_id key (store d))) as [|row rows];
    [split; [reflexivity|]; eexists; eexists;
     split; [reflexivity|]; split; [reflexivity|]; now apply same|].
  simpl. split; [reflexivity|]. eexists; eexists.
  split; [reflexivity|]. split; [reflexivity|]. apply same.
  apply (cart_rows_ignore_product_columns
           (fun p => if p_id p =? key then _ else p)).
  intro p. destruct (p_id p =? key); reflexivity.
Qed.

(** ** More on the checkout *)

Lemma post_checkout_binds_cart (env : environment)
  (plan : executor cart_item) (flt : faults) (user : claims) (d d' : db)
  (msg : string) (orderId : Z) (total : float) :
  post_checkout env plan flt user d
  = (d', Some {| status := 200; json := CheckoutReply msg orderId total |}) ->
  order_items (store d') = map (bound_to orderId) (order_items (store d)).
Proof.
  intro H. apply post_checkout_outcome in H.
  destruct H as [[_ Hr] | (total' & t1 & uid & amount & t2 & _ & Hloop
                           & _ & _ & Hins & Hd & Hr)].
  { destruct Hr as [Hr | [Hr | [Hr | [[_ Hr] | [pid Hr]]]]];
      discriminate Hr. }
  injection Hr as _ Hid _. subst orderId.
  destruct (committed_tables _ _ _ _ _ _ _ _ Hloop Hins) as (_ & _ & _ & Hl).
  subst d'. exact Hl.
Qed.

(** X9: a successful checkout leaves no cart behind.  Right after it, GET
    /api/cart returns no row to any user and another checkout, by any user,
    is answered 400 "Your cart is empty." and changes nothing: one cart
    yields one order. *)
Theorem checkout_leaves_no_cart
  (env : environment) (plan next : executor cart_item)
  (listing : executor cart_row) (flt : faults) (user u : claims) (d d' : db)
  (msg : string) (orderId : Z) (total : float) :
  post_checkout env plan flt user d
  = (d', Some {| status := 200; json := CheckoutReply msg orderId total |}) ->
  get_cart listing u d'
  = (d', Some {| status := 200; json := CartReply [] |})
  /\ post_checkout env next no_faults u d'
     = (d', Some {| status := 400; json := Message "Your cart is empty." |}).
Proof.
  intro H. apply post_checkout_binds_cart in H.
  assert (Hcart : cart (store d') = []).
  { unfold cart. rewrite H. apply cart_after_bind. }
  split.
  - unfold get_cart. rewrite (cart_join_empty cart_row_of _ Hcart).
    reflexivity.
  - unfold post_checkout, select_cart_items, no_faults. simpl.
    rewrite (cart_join_empty cart_item_of _ Hcart). reflexivity.
Qed.

Lemma checkout_leaves_no_cart_witness :
  let d' := fst (post_checkout Sample.env Sample.table_order no_faults
                               Sample.alice Sample.two_mice) in
  post_checkout Sample.env Sample.last_first no_faults Sample.bob d'
  = (d', Some {| status := 400; json := Message "Your cart is empty." |}).
Proof.
  intro d'.
  apply (proj2 (checkout_leaves_no_cart Sample.env Sample.table_order
                  Sample.last_first Sample.table_order no_faults
                  Sample.alice Sample.bob Sample.two_mice d'
                  "Checkout successful!" 1 51%float eq_refl)).
Defined.

(** X10: a checkout goes through when nothing stands in its way.  In a
    consistent store with keys below their sequences, if the cart is not
    empty and has at most one line for each product, every quantity lies
    between 0 and the stock of its product, the caller is a stored user,
    the next order key is in the INTEGER range and the total fits
    NUMERIC(10,2), then the checkout is answered 200 with the next order
    key and the total of the rows, summed in the order in which they have
    come back. *)
Theorem checkout_succeeds
  (env : environment) (plan : executor cart_item) (user : claims) (d : db)
  (uid : Z) (amount : numeric) :
  consistent (store d) -> sequenced d ->
  cart (store d) <> [] ->
  NoDup (map oi_product_id (cart (store d))) ->
  (forall l p, In l (cart (store d)) -> In p (products (store d)) ->
               p_id p = oi_product_id l ->
               0 <= oi_quantity l <= p_stock p /\ in_int4 (p_stock p) = true) ->
  bind_int4 (pg_input env) (userId user) = Val uid ->
  In uid (map u_id (users (store d))) ->
  in_int4 (orders_id_seq d) = true ->
  numeric_of_number
    (fold_left step (select_cart_items plan (store d)) 0%float)
  = Some amount ->
  exists d',
    post_checkout env plan no_faults user d
    = (d', Some {| status := 200;
                   json := CheckoutReply "Checkout successful!"
                             (orders_id_seq d)
                             (fold_left step
                                (select_cart_items plan (store d))
                                0%float) |}).
Proof.
  intros Hc (_ & Hseq & _) Hne Hnd Hlines Huid Huser Hid Hamount.
  assert (Hrows : select_cart_items plan (store d) <> []).
  { intro E. apply returned_nil in E.
    pose proof (cart_join_lines cart_item_of _ Hc) as F.
    rewrite E in F. inversion F as [E' |]. now apply Hne. }
  assert (Hids : NoDup (map ci_product_id
                            (select_cart_items plan (store d)))).
  { apply (Permutation_NoDup
             (Permutation_sym (select_cart_items_products plan _ Hc))).
    exact Hnd. }
  assert (Hall : Forall (fun item => ci_quantity item <= ci_stock item)
                        (select_cart_items plan (store d))).
  { apply Forall_forall. intros item Hin.
    destruct (select_cart_items_in _ _ _ Hin)
      as (l & p & Hl & Hp & Hpid & E). subst item.
    simpl. destruct (Hlines l p Hl Hp Hpid) as [Hq _]. lia. }
  destruct (verify_stock_runs no_faults _ 0%float (store d) Hids Hall)
    as [t1 Hloop].
  { reflexivity. }
  { intros item p Hin Hp Hpid.
    destruct (select_cart_items_in _ _ _ Hin)
      as (l & p1 & Hl & Hp1 & Hpid1 & E).
    subst item. simpl in *.
    destruct (Hlines l p Hl Hp Hpid) as [Hq Hr].
    unfold in_int4, int4_min, int4_max in *.
    apply andb_true_iff in Hr. destruct Hr as [Hlo Hhi].
    apply Z.leb_le in Hlo, Hhi. apply andb_true_iff.
    split; apply Z.leb_le; lia. }
  pose proof (verify_stock_live _ _ _ _ _ _ Hloop) as (Hu & Ho & _ & _).
  assert (Hex : existsb (fun u => u_id u =? uid) (users (store d)) = true).
  { apply existsb_exists. apply in_map_iff in Huser.
    destruct Huser as (usr & E & Hin). exists usr. split; [exact Hin|].
    apply Z.eqb_eq. exact E. }
  assert (Hins : sql_insert_order (orders_id_seq d) uid amount "completed" t1
                 = Some (set_orders
                           (orders t1
                            ++ [{| o_id := orders_id_seq d; o_user_id := uid;
                                   o_total_amount := amount;
                                   o_status := "completed" |}]) t1)).
  { unfold sql_insert_order. rewrite Hid, Ho, Hu, Hex.
    rewrite (existsb_below o_id _ _ Hseq). reflexivity. }
  unfold post_checkout, checkout_from.
  change (no_faults Connect) with false.
  change (no_faults Begin || no_faults SelectCart) with false.
  change (no_faults InsertOrder) with false.
  change (no_faults BindCart) with false.
  change (no_faults Commit) with false.
  cbv beta iota zeta.
  destruct (select_cart_items plan (store d)) as [|item rest] eqn:Ejoin;
    [contradiction|].
  rewrite Hloop, Huid, Hamount, Hins.
  eexists. reflexivity.
Qed.

Lemma two_mice_sequenced : sequenced Sample.two_mice.
Proof.
  exact (post_cart_sequenced Sample.env (Sample.add 1 2) Sample.alice
                             Sample.shop shop_sequenced).
Qed.

Lemma checkout_succeeds_witness :
  exists d',
    post_checkout Sample.env Sample.last_first no_faults Sample.alice
                  Sample.two_mice
    = (d', Some {| status := 200;
                   json := CheckoutReply "Checkout successful!" 1
                                         51%float |}).
Proof.
  assert (Hne : cart (store Sample.two_mice) <> [])
    by (intro E; vm_compute in E; discriminate E).
  assert (Hnd : NoDup (map oi_product_id (cart (store Sample.two_mice))))
    by (vm_compute; constructor; [intros [] | constructor]).
  assert (Hlines : forall l p,
             In l (cart (store Sample.two_mice)) ->
             In p (products (store Sample.two_mice)) ->
             p_id p = oi_product_id l ->
             0 <= oi_quantity l <= p_stock p /\ in_int4 (p_stock p) = true).
  { intros l p Hl Hp Hid. simpl in Hl, Hp.
    destruct Hl as [<- | []]. destruct Hp as [<- | [<- | []]].
    - split; [|reflexivity].
      split; intro C; vm_compute in C; discriminate C.
    - discriminate Hid. }
  destruct (checkout_succeeds Sample.env Sample.last_first Sample.alice
              Sample.two_mice 1 (NVal 5100) two_mice_consistent
              two_mice_sequenced Hne Hnd Hlines eq_refl (or_introl eq_refl)
              eq_refl eq_refl)
    as [d' H].
  exists d'. exact H.
Defined.

Lemma verify_stock_names (flt : faults) (rows : list cart_item) :
  forall total tx pid tx',
    verify_stock flt rows total tx = Insufficient pid tx' ->
    exists before item rest,
      rows = before ++ item :: rest
      /\ Forall (fun i => ci_quantity i <= ci_stock i) before
      /\ short item
      /\ ci_product_id item = pid.
Proof.
  induction rows as [|item rest IH]; simpl; intros total tx pid tx' H.
  - discriminate H.
  - destruct (ci_quantity item >? ci_stock item) eqn:Hq.
    + injection H as <- _. exists [], item, rest.
      split; [reflexivity|]. split; [constructor|].
      split; [|reflexivity]. rewrite Z.gtb_ltb in Hq.
      apply Z.ltb_lt in Hq. unfold short. lia.
    + apply IH in H. destruct H as (before & it & rest' & E & Hb & Hi & Hp).
      exists (item :: before), it, rest'. subst rest.
      split; [reflexivity|]. split; [|auto].
      constructor; [|exact Hb]. rewrite Z.gtb_ltb, Z.ltb_ge in Hq. exact Hq.
Qed.

(** X11: an insufficient-stock reply names the first row that asks for
    more than its stock, in the order in which the SELECT has returned the
    rows: every row that came back before it passes the check, and the rows
    after it are not looked at.  The store is as it was. *)
Theorem insufficient_stock_names_first_row
  (env : environment) (plan : executor cart_item) (flt : faults)
  (user : claims) (d d' : db) (pid : Z) :
  post_checkout env plan flt user d
  = (d', Some {| status := 400; json := InsufficientStock pid |}) ->
  d' = d
  /\ exists before item rest,
       select_cart_items plan (store d) = before ++ item :: rest
       /\ Forall (fun i => ci_quantity i <= ci_stock i) before
       /\ short item
       /\ ci_product_id item = pid.
Proof.
  unfold post_checkout, checkout_from, caught. intro H.
  destruct (flt Connect); [discriminate H|].
  destruct (flt Begin || flt SelectCart);
    [destruct (flt CatchRollback); discriminate H|].
  destruct (select_cart_items plan (store d)) as [|item rest] eqn:Hrows.
  { destruct (flt Rollback); [destruct (flt CatchRollback)|];
      discriminate H. }
  destruct (verify_stock flt (item :: rest) 0%float (Live (store d)))
    as [pid' [t1|] | total [t1|]] eqn:E.
  - destruct (flt Rollback);
      [destruct (flt CatchRollback); discriminate H|].
    injection H as <- <-. split; [reflexivity|].
    exact (verify_stock_names _ _ _ _ _ _ E).
  - discriminate H.
  - destruct (flt InsertOrder);
      [destruct (flt CatchRollback); discriminate H|].
    destruct (bind_int4 (pg_input env) (userId user)) as [| |uid];
      [destruct (flt CatchRollback); discriminate H
      |destruct (numeric_of_number total), (flt CatchRollback);
       discriminate H|].
    destruct (numeric_of_number total) as [amount|];
      [|destruct (flt CatchRollback); discriminate H].
    destruct (sql_insert_order (orders_id_seq d) uid amount "completed" t1);
      [|destruct (flt CatchRollback); discriminate H].
    destruct (flt BindCart);
      [destruct (flt CatchRollback); discriminate H|].
    destruct (flt Commit);
      [destruct (flt CatchRollback); discriminate H|].
    discriminate H.
  - discriminate H.
Qed.

Lemma insufficient_stock_names_first_row_witness :
  map (fun l => (oi_product_id l, oi_quantity l))
      (cart (store Sample.both_short))
  = [(2, 51); (1, 101)]
  /\ exists item rest,
       select_cart_items Sample.last_first (store Sample.both_short)
       = item :: rest
       /\ ci_product_id item = 1
       /\ snd (post_checkout Sample.env Sample.last_first no_faults
                             Sample.alice Sample.both_short)
          = Some {| status := 400;
                    json := InsufficientStock (ci_product_id item) |}.
Proof.
  split; [reflexivity|].
  destruct (insufficient_stock_names_first_row Sample.env Sample.last_first
              no_faults Sample.alice Sample.both_short Sample.both_short 1
              eq_refl)
    as (_ & before & item & rest & E & Hb & _ & Hp).
  destruct before as [|b before].
  - exists item, rest. split; [exact E|]. split; [exact Hp|].
    rewrite Hp. reflexivity.
  - exfalso. vm_compute in E. injection E as <- _.
    inversion Hb as [|? ? Hq _]. vm_compute in Hq. now apply Hq.
Defined.

(** ** The Authorization header *)

Lemma split_first_word (a rest : string) :
  contains " " a = false ->
  Js.split " " (a ++ String " " rest) = a :: Js.split " " rest.
Proof.
  induction a as [|c a IH]; simpl; intro H.
  - reflexivity.
  - apply orb_false_iff in H. destruct H as [Hc Ha].
    rewrite Hc, (IH Ha). reflexivity.
Qed.

Lemma bearer_token_second_word (a rest : string) :
  contains " " a = false ->
  bearer_token (Some (a ++ String " " rest)%string)
  = hd_error (Js.split " " rest).
Proof.
  intro H. unfold bearer_token.
  rewrite (split_first_word a rest H).
  destruct a; reflexivity.
Qed.

(** X12: the middleware takes as token whatever stands between the first
    and the second space of the Authorization header.  The scheme word is
    not compared with "Bearer", so any scheme, even an empty one, does as
    well; what follows a second space is ignored; and a header without a
    space, such as a bare token, is answered 401 whatever it holds. *)
Theorem verifyToken_reads_second_word
  (env : environment) (S : Type)
  (handler : claims -> S -> S * option response) (s : S)
  (scheme token : string) :
  contains " " scheme = false -> contains " " token = false ->
  protected env handler (Some (scheme ++ String " " token)%string) s
  = protected env handler (Some ("Bearer " ++ token)%string) s
  /\ (forall trailer,
         protected env handler
           (Some (scheme ++ String " " (token ++ String " " trailer))%string)
           s
         = protected env handler (Some ("Bearer " ++ token)%string) s)
  /\ (token <> EmptyString ->
      protected env handler (Some token) s
      = (s, Some {| status := 401;
                    json := Message "Authorization token is missing." |})).
Proof.
  intros Hs Ht.
  assert (Href : bearer_token (Some ("Bearer " ++ token)%string) = Some token)
    by now apply bearer_token_of_header.
  split; [|split].
  - unfold protected, verifyToken.
    rewrite (bearer_token_second_word _ _ Hs), Href.
    rewrite (split_without_separator _ _ Ht). reflexivity.
  - intro trailer. unfold protected, verifyToken.
    rewrite (bearer_token_second_word _ _ Hs), Href.
    rewrite (split_first_word _ _ Ht). reflexivity.
  - intro Hne. unfold protected, verifyToken, bearer_token.
    destruct token as [|c rest]; [contradiction|].
    rewrite (split_without_separator _ _ Ht). reflexivity.
Qed.

Lemma verifyToken_reads_second_word_witness :
  protected Sample.env (get_cart Sample.table_order)
            (Some "Basic alice.token"%string) Sample.shop
  = get_cart Sample.table_order Sample.alice Sample.shop
  /\ protected Sample.env (get_cart Sample.table_order)
               (Some "alice.token"%string) Sample.shop
     = (Sample.shop,
        Some {| status := 401;
                json := Message "Authorization token is missing." |}).
Proof.
  destruct (verifyToken_reads_second_word Sample.env db
              (get_cart Sample.table_order) Sample.shop
              "Basic" "alice.token" eq_refl eq_refl) as (H1 & _ & H3).
  split.
  - exact (eq_trans H1 eq_refl).
  - apply H3. discriminate.
Defined.

(** ** The order history *)

Lemma order_lines_in (t : tables) (o : order) (item : order_line) :
  In item (order_lines t o) ->
  exists l p, In l (lines_of t (o_id o)) /\ In p (products t)
              /\ p_id p = oi_product_id l
              /\ item = {| ol_product_id := p_id p; ol_name := p_name p;
                           ol_quantity := oi_quantity l;
                           ol_price := oi_price l |}.
Proof.
  unfold order_lines. intro H. apply in_flat_map in H.
  destruct H as (l & Hl & Hx). apply in_map_iff in Hx.
  destruct Hx as (p & Hrow & Hp). apply filter_In in Hp.
  destruct Hp as [Hp Hid]. apply Z.eqb_eq in Hid.
  exists l, p. auto.
Qed.

(** X13: GET /api/orders answers 200 with exactly the orders of the caller
    that have at least one line on a stored product, each with its key,
    stored total and status; an order of another user is never listed, and
    an order left without lines is not listed either.  Every listed item is
    a line bound to that order, shown with its own quantity and price
    snapshot. *)
Theorem get_orders_lists_own_orders
  (env : environment) (newest_first : list order -> list order)
  (plan : executor order_line) (user : claims) (d : db) (uid : Z) :
  same_rows newest_first ->
  bind_int4 (pg_input env) (userId user) = Val uid ->
  exists rows,
    get_orders env newest_first plan user d
    = (d, {| code := 200; body := OrderRows rows |})
    /\ (forall row,
           In row rows <->
           exists o, In o (orders (store d)) /\ o_user_id o = uid
                     /\ order_lines (store d) o <> []
                     /\ row = order_row_of plan (store d) o)
    /\ (forall row item,
           In row rows -> In item (or_items row) ->
           exists l, In l (lines_of (store d) (or_order_id row))
                     /\ shows l item).
Proof.
  intros Hsame Huid. unfold get_orders. rewrite Huid.
  eexists. split; [reflexivity|].
  assert (Hrow : forall row,
             In row (map (order_row_of plan (store d))
                         (newest_first
                            (filter (fun o => (o_user_id o =? uid)
                                              && has_lines (store d) o)
                                    (orders (store d))))) <->
             exists o, In o (orders (store d)) /\ o_user_id o = uid
                       /\ order_lines (store d) o <> []
                       /\ row = order_row_of plan (store d) o).
  { intro row. rewrite in_map_iff. split.
    - intros (o & E & Hin). apply (proj1 (Hsame _ _)) in Hin.
      apply filter_In in Hin.
      destruct Hin as [Hin Hb]. apply andb_true_iff in Hb.
      destruct Hb as [Hu Hl]. apply Z.eqb_eq in Hu.
      exists o. repeat split; auto.
      unfold has_lines in Hl. intro E0. rewrite E0 in Hl. discriminate Hl.
    - intros (o & Hin & Hu & Hl & E). exists o. split; [auto|].
      apply (proj2 (Hsame _ _)). apply filter_In. split; [exact Hin|].
      apply andb_true_iff. split; [now apply Z.eqb_eq|].
      unfold has_lines. destruct (order_lines (store d) o);
        [contradiction | reflexivity]. }
  split; [exact Hrow|].
  intros row item Hin Hitem. apply Hrow in Hin.
  destruct Hin as (o & _ & _ & _ & E). subst row. simpl in *.
  apply returned_in, order_lines_in in Hitem.
  destruct Hitem as (l & p & Hl & _ & Hid & E). exists l.
  split; [exact Hl|]. subst item. unfold shows. simpl. auto.
Qed.

Lemma rev_same_rows : same_rows SampleRest.newest_first.
Proof.
  intros os o. unfold SampleRest.newest_first. symmetry. apply in_rev.
Qed.

Lemma get_orders_lists_own_orders_witness :
  let d1 := fst (post_checkout Sample.env Sample.table_order no_faults
                               Sample.alice Sample.two_mice) in
  (exists rows,
      get_orders Sample.env SampleRest.newest_first Sample.last_first
                 Sample.alice d1
      = (d1, {| code := 200; body := OrderRows rows |})
      /\ map or_order_id rows = [1])
  /\ (exists rows,
         get_orders Sample.env SampleRest.newest_first Sample.last_first
                    Sample.bob d1
         = (d1, {| code := 200; body := OrderRows rows |})
         /\ rows = []).
Proof.
  intro d1. split.
  - destruct (get_orders_lists_own_orders Sample.env SampleRest.newest_first
                Sample.last_first Sample.alice d1 1 rev_same_rows eq_refl)
      as (rows & Hget & _).
    exists rows. split; [exact Hget|].
    vm_compute in Hget. injection Hget as <-. reflexivity.
  - destruct (get_orders_lists_own_orders Sample.env SampleRest.newest_first
                Sample.last_first Sample.bob d1 2 rev_same_rows eq_refl)
      as (rows & Hget & _).
    exists rows. split; [exact Hget|].
    vm_compute in Hget. injection Hget as <-. reflexivity.
Defined.

Lemma filter_key_map (g : product -> product) (ps : list product) (k : Z) :
  (forall p, p_id (g p) = p_id p) ->
  filter (fun p => p_id p =? k) (map g ps)
  = map g (filter (fun p => p_id p =? k) ps).
Proof.
  intro Hg. induction ps as [|p ps IH]; simpl; [reflexivity|].
  rewrite Hg. destruct (p_id p =? k); simpl; now rewrite IH.
Qed.

Lemma lines_after_bind (orderId : Z) (ls : list order_item) :
  (forall l k, In l ls -> oi_order_id l = Some k -> k <> orderId) ->
  filter (fun oi => match oi_order_id oi with
                    | Some k => k =? orderId
                    | None => false
                    end) (map (bound_to orderId) ls)
  = map (set_order_id (Some orderId)) (filter in_cart ls).
Proof.
  induction ls as [|l ls IH]; intro H; [reflexivity|].
  assert (IH' := IH (fun l' k Hl' => H l' k (or_intror Hl'))).
  assert (Hl := fun k => H l k (or_introl eq_refl)).
  rewrite map_cons.
  destruct l as [i [k|] pid q pr].
  - change (bound_to orderId
              {| oi_id := i; oi_order_id := Some k; oi_product_id := pid;
                 oi_quantity := q; oi_price := pr |})
      with {| oi_id := i; oi_order_id := Some k; oi_product_id := pid;
              oi_quantity := q; oi_price := pr |}.
    cbn -[bound_to].
    replace (k =? orderId) with false; [exact IH'|].
    symmetry. apply Z.eqb_neq. now apply Hl.
  - change (bound_to orderId
              {| oi_id := i; oi_order_id := None; oi_product_id := pid;
                 oi_quantity := q; oi_price := pr |})
      with {| oi_id := i; oi_order_id := Some orderId;
              oi_product_id := pid; oi_quantity := q; oi_price := pr |}.
    cbn -[bound_to]. rewrite Z.eqb_refl, IH'. reflexivity.
Qed.

Lemma sql_insert_order_fresh (id uid : Z) (amount : numeric) (st : string)
  (t t2 : tables) :
  sql_insert_order id uid amount st t = Some t2 ->
  forall o, In o (orders t) -> o_id o <> id.
Proof.
  unfold sql_insert_order. intro H.
  destruct (in_int4 id) ; [|discriminate].
  destruct (existsb (fun o => o_id o =? id) (orders t)) eqn:E;
    [discriminate|].
  intros o Hin Heq.
  assert (existsb (fun o => o_id o =? id) (orders t) = true).
  { apply existsb_exists. exists o. split; [exact Hin|].
    now apply Z.eqb_eq. }
  congruence.
Qed.

Lemma history_items (t : tables) (g : product -> product) (orderId : Z)
  (ls : list order_item) :
  keyed t -> (forall p, p_id (g p) = p_id p) ->
  (forall l, In l ls ->
             exists p, In p (products t) /\ p_id p = oi_product_id l) ->
  Forall2 shows ls
    (flat_map
       (fun oi =>
          map (fun p => {| ol_product_id := p_id p; ol_name := p_name p;
                           ol_quantity := oi_quantity oi;
                           ol_price := oi_price oi |})
              (filter (fun p => p_id p =? oi_product_id oi)
                      (map g (products t))))
       (map (set_order_id (Some orderId)) ls)).
Proof.
  intros Hkey Hg. induction ls as [|l ls IH]; intro Href; simpl.
  - constructor.
  - destruct (Href l (or_introl eq_refl)) as (p & Hp & Hid).
    rewrite (filter_key_map g _ _ Hg), <- Hid, (filter_key _ _ Hkey Hp).
    simpl. constructor.
    + unfold shows. simpl. rewrite Hg. auto.
    + apply IH. intros l' Hl'. apply Href. now right.
Qed.

(** X14: a committed checkout shows in the history of the caller.  In a
    store that respects its keys and references, the next GET /api/orders
    of the same user lists the new order with the total and status that
    were stored and with one item for each line that was in the cart, each
    at the quantity and price snapshot of its line; the items come in the
    order in which the rows of the group come back. *)
Theorem checkout_appears_in_history
  (env : environment) (newest_first : list order -> list order)
  (plan : executor cart_item) (listing : executor order_line)
  (flt : faults) (user : claims) (d d' : db) (msg : string) (orderId : Z)
  (total : float) :
  consistent (store d) -> bound_lines_referenced (store d) ->
  same_rows newest_first ->
  post_checkout env plan flt user d
  = (d', Some {| status := 200; json := CheckoutReply msg orderId total |}) ->
  exists rows amount items lines,
    get_orders env newest_first listing user d'
    = (d', {| code := 200; body := OrderRows rows |})
    /\ In {| or_order_id := orderId; or_total_amount := amount;
             or_status := "completed"; or_items := items |} rows
    /\ numeric_of_number total = Some amount
    /\ Permutation lines (cart (store d))
    /\ Forall2 shows lines items.
Proof.
  intros [Hkey Href] Hfk Hsame H. apply post_checkout_outcome in H.
  destruct H as [[_ Hr] | (total' & t1 & uid & amount & t2 & Hrows & Hloop
                           & Hbind & Hamount & Hins & Hd & Hr)].
  { destruct Hr as [Hr | [Hr | [Hr | [[_ Hr] | [pid Hr]]]]];
      discriminate Hr. }
  injection Hr as _ Hoid Htot. subst orderId total.
  apply verify_stock_live in Hloop. destruct Hloop as (_ & Ho & Hl & Hp).
  pose proof (sql_insert_order_fresh _ _ _ _ _ _ Hins) as Hfresh.
  apply sql_insert_order_some in Hins. destruct Hins as [Ht2 _].
  rewrite Ho in Hfresh.
  assert (Hitems' : order_items (store d')
                    = map (bound_to (orders_id_seq d))
                          (order_items (store d))).
  { subst d' t2. cbn [store set_store]. rewrite sql_bind_cart_lines.
    simpl. now rewrite Hl. }
  assert (Hprods : products (store d') = products t1).
  { subst d' t2. reflexivity. }
  assert (Hlines : order_lines (store d')
                     {| o_id := orders_id_seq d; o_user_id := uid;
                        o_total_amount := amount; o_status := "completed" |}
                   = flat_map
                       (fun oi =>
                          map (fun p => {| ol_product_id := p_id p;
                                           ol_name := p_name p;
                                           ol_quantity := oi_quantity oi;
                                           ol_price := oi_price oi |})
                              (filter (fun p => p_id p =? oi_product_id oi)
                                      (products (store d'))))
                       (map (set_order_id (Some (orders_id_seq d)))
                            (cart (store d)))).
  { unfold order_lines. f_equal. rewrite Hitems'. simpl.
    apply lines_after_bind. intros l k Hin Hk Heq.
    destruct (Hfk l k Hin Hk) as (o & Hoin & Hoid).
    apply (Hfresh o Hoin). congruence. }
  assert (Hitems : Forall2 shows (cart (store d))
                     (order_lines (store d')
                        {| o_id := orders_id_seq d; o_user_id := uid;
                           o_total_amount := amount;
                           o_status := "completed" |})).
  { rewrite Hlines, Hprods, Hp.
    apply history_items; [exact Hkey | reflexivity |].
    intros l Hin. apply Href. unfold cart in Hin.
    apply filter_In in Hin. tauto. }
  destruct (Forall2_returned shows listing _ _ Hitems) as (lines & P & F).
  unfold get_orders. rewrite Hbind.
  eexists. exists amount. eexists. exists lines.
  split; [reflexivity|].
  split; [|split; [exact Hamount | split; [exact P | exact F]]].
  apply in_map_iff.
  exists {| o_id := orders_id_seq d; o_user_id := uid;
            o_total_amount := amount; o_status := "completed" |}.
  split; [reflexivity|]. apply (proj2 (Hsame _ _)). apply filter_In. split.
  - subst d' t2. simpl. rewrite Ho. apply in_or_app. right. now left.
  - simpl. rewrite Z.eqb_refl. simpl. unfold has_lines.
    destruct (order_lines (store d') _) as [|it its]; [|reflexivity].
    inversion Hitems as [Hcart |]. exfalso. apply Hrows.
    apply cart_join_empty. now symmetry.
Qed.

Lemma two_mice_bound_lines : bound_lines_referenced (store Sample.two_mice).
Proof.
  intros l k Hin Hk. simpl in Hin. destruct Hin as [<- | []].
  discriminate Hk.
Qed.

Lemma checkout_appears_in_history_witness :
  let d1 := fst (post_checkout Sample.env Sample.table_order no_faults
                               Sample.alice Sample.two_mice) in
  exists rows,
    get_orders Sample.env SampleRest.newest_first Sample.last_first
               Sample.alice d1
    = (d1, {| code := 200; body := OrderRows rows |})
    /\ rows = [{| or_order_id := 1; or_total_amount := NVal 5100;
                  or_status := "completed";
                  or_items := [{| ol_product_id := 1;
                                  ol_name := "Wireless Mouse";
                                  ol_quantity := 2;
                                  ol_price := NVal 2550 |}] |}].
Proof.
  intro d1.
  destruct (checkout_appears_in_history Sample.env SampleRest.newest_first
              Sample.table_order Sample.last_first
              no_faults Sample.alice Sample.two_mice d1
              "Checkout successful!" 1 51%float
              two_mice_consistent two_mice_bound_lines rev_same_rows
              eq_refl)
    as (rows & amount & items & lines & Hget & _).
  exists rows. split; [exact Hget|].
  vm_compute in Hget. injection Hget as <-. reflexivity.
Defined.

Lemma history_consistent_same (t t' : tables) :
  users t' = users t -> orders t' = orders t ->
  (forall l, In l (order_items t') ->
             oi_order_id l = None \/ In l (order_items t)) ->
  history_consistent t -> history_consistent t'.
Proof.
  intros Hu Ho Hl (Hkey & Husers & Hfk). unfold history_consistent.
  rewrite Hu, Ho. split; [exact Hkey|]. split; [exact Husers|].
  intros l k Hin Hk. unfold bound_lines_referenced in Hfk.
  rewrite Ho. destruct (Hl l Hin) as [Hnone | Hold].
  - congruence.
  - exact (Hfk l k Hold Hk).
Qed.

Lemma post_products_history (env : environment) (body : product_body)
  (user : claims) (d : db) :
  history_consistent (store d) ->
  history_consistent (store (fst (post_products env body user d))).
Proof.
  apply history_consistent_same; unfold post_products;
    destruct (negb (Js.truthy (name body)) || negb (Js.truthy (price body))
              || negb (Js.truthy (stock body)));
    try (simpl; auto; fail);
    destruct (required (bind_varchar (pg_input env) (name body)));
    try (simpl; auto; fail);
    destruct (nullable (bind_text (pg_input env) (description body)));
    try (simpl; auto; fail);
    destruct (required (bind_numeric (pg_input env) (price body)));
    try (simpl; auto; fail);
    destruct (required (bind_int4 (pg_input env) (stock body)));
    try (simpl; auto; fail);
    destruct (nullable (bind_varchar (pg_input env) (image_url body)));
    try (simpl; auto; fail);
    destruct (in_int4 (products_id_seq d)
              && negb (existsb (fun p => p_id p =? products_id_seq d)
                               (products (store d))));
    simpl; auto.
Qed.

Lemma put_products_history (env : environment) (id : string)
  (body : product_body) (user : claims) (d : db) :
  history_consistent (store d) ->
  history_consistent (store (fst (put_products env id body user d))).
Proof.
  apply history_consistent_same; unfold put_products;
    destruct (nullable (bind_varchar (pg_input env) (name body)));
    try (simpl; auto; fail);
    destruct (nullable (bind_text (pg_input env) (description body)));
    try (simpl; auto; fail);
    destruct (nullable (bind_numeric (pg_input env) (price body)));
    try (simpl; auto; fail);
    destruct (nullable (bind_int4 (pg_input env) (stock body)));
    try (simpl; auto; fail);
    destruct (nullable (bind_varchar (pg_input env) (image_url body)));
    try (simpl; auto; fail);
    destruct (required (bind_int4 (pg_input env) (Js.Str id)));
    try (simpl; auto; fail);
    destruct (map _ (products_with_id z (store d)));
    simpl; auto.
Qed.

Lemma delete_products_history (env : environment) (id : string)
  (user : claims) (d : db) :
  history_consistent (store d) ->
  history_consistent (store (fst (delete_products env id user d))).
Proof.
  apply history_consistent_same; unfold delete_products;
    destruct (required (bind_int4 (pg_input env) (Js.Str id)));
    try (simpl; auto; fail);
    destruct (products_with_id z (store d));
    simpl; auto.
  intros x Hx. apply filter_In in Hx. tauto.
Qed.

Lemma post_cart_history (env : environment) (body : cart_body)
  (user : claims) (d : db) :
  history_consistent (store d) ->
  history_consistent (store (fst (post_cart env body user d))).
Proof.
  destruct (post_cart env body user d) as [d' r] eqn:H. simpl.
  apply post_cart_outcome in H.
  destruct H as [[Hs _] | (key & q & p & _ & _ & _ & _ & _ & _ & Hd & _)].
  - rewrite Hs. auto.
  - subst d'. apply history_consistent_same; simpl; auto.
    intros l Hl. apply in_app_or in Hl. destruct Hl as [Hl | [<- | []]]; auto.
Qed.

Lemma post_checkout_history (env : environment)
  (plan : executor cart_item) (flt : faults) (user : claims) (d : db) :
  history_consistent (store d) ->
  history_consistent (store (fst (post_checkout env plan flt user d))).
Proof.
  intros (Hkey & Husers & Hfk).
  destruct (post_checkout env plan flt user d) as [d' r] eqn:H. simpl.
  apply post_checkout_outcome in H.
  destruct H as [[Hs _] | (total & t1 & uid & amount & t2 & _ & Hloop
                           & _ & _ & Hins & Hd & _)].
  { rewrite Hs. repeat split; assumption. }
  destruct (committed_tables _ _ _ _ _ _ _ _ Hloop Hins)
    as (Hu' & _ & Ho' & Hl').
  apply verify_stock_live in Hloop. destruct Hloop as (Hu & Ho & Hl & _).
  pose proof (sql_insert_order_fresh _ _ _ _ _ _ Hins) as Hfresh.
  apply sql_insert_order_some in Hins. destruct Hins as [Ht2 Hex].
  rewrite Ho in Hfresh. rewrite Hu in Hex.
  subst d'. unfold history_consistent, bound_lines_referenced.
  cbn [store set_store]. rewrite Ho', Hu', Hl'.
  split; [|split].
  - rewrite map_app. simpl.
    apply (NoDup_Add (a := orders_id_seq d)
                     (l := map o_id (orders (store d)))).
    + pose proof (Add_app (orders_id_seq d)
                          (map o_id (orders (store d))) []) as A.
      rewrite app_nil_r in A. exact A.
    + split; [exact Hkey|]. intro Hin. apply in_map_iff in Hin.
      destruct Hin as (o & E & Hin). exact (Hfresh o Hin E).
  - intros o Hin. apply in_app_or in Hin. destruct Hin as [Hin | [<- | []]].
    + now apply Husers.
    + simpl. apply existsb_exists in Hex. destruct Hex as (usr & Hin & E).
      apply Z.eqb_eq in E. apply in_map_iff. exists usr. auto.
  - intros l k Hin Hk. apply in_map_iff in Hin.
    destruct Hin as (l0 & E & Hin). unfold bound_to in E.
    destruct (oi_order_id l0) as [k0|] eqn:Hc; subst l; simpl in *.
    + rewrite Hc in Hk. destruct (Hfk l0 k Hin) as (o & Hoin & Hoid).
      { congruence. }
      exists o. split; [apply in_or_app; now left | exact Hoid].
    + injection Hk as <-. eexists. split.
      * apply in_or_app. right. now left.
      * reflexivity.
Qed.

(** X15: whatever requests are served, the order history stays well
    formed: order keys stay unique, every order belongs to a stored user,
    and every line bound to an order is bound to a stored order. *)
Theorem serve_all_keeps_history
  (env : environment) (reqs : list (option string * request)) (d : db) :
  history_consistent (store d) ->
  history_consistent (store (serve_all env reqs d)).
Proof.
  revert d. induction reqs as [|[authHeader req] rest IH]; simpl; intros d Hh.
  - exact Hh.
  - assert (Hh' : history_consistent
                    (store (fst (serve env authHeader req d)))).
    { unfold serve, protected.
      destruct (verifyToken env authHeader) as [res | user]; [exact Hh|].
      destruct req as [|body|id body|id|body|plan|plan flt]; simpl.
      - exact Hh.
      - now apply post_products_history.
      - now apply put_products_history.
      - now apply delete_products_history.
      - now apply post_cart_history.
      - exact Hh.
      - now apply post_checkout_history. }
    destruct (serve env authHeader req d) as [d' [res|]].
    + apply IH. exact Hh'.
    + exact Hh'.
Qed.

Lemma shop_history : history_consistent (store Sample.shop).
Proof.
  repeat split; simpl.
  - constructor.
  - contradiction.
  - intros l k [].
Qed.

Lemma serve_all_keeps_history_witness :
  history_consistent
    (store (serve_all Sample.env
              [(Some "Bearer bob.token"%string, PostCart (Sample.add 2 1));
               (Some "Bearer alice.token"%string,
                PostCheckout Sample.table_order no_faults);
               (Some "Bearer alice.token"%string, DeleteProducts "2")]
              Sample.shop)).
Proof. apply serve_all_keeps_history. exact shop_history. Defined.

Lemma order_key_injective (os : list order) (o o' : order) :
  NoDup (map o_id os) -> In o os -> In o' os -> o_id o = o_id o' -> o = o'.
Proof.
  induction os as [|a os IH]; simpl; intros Hnd Ho Ho' E; [contradiction|].
  inversion Hnd as [|? ? Hnotin Hrest]; subst.
  destruct Ho as [Ho | Ho], Ho' as [Ho' | Ho']; subst.
  - reflexivity.
  - exfalso. apply Hnotin. rewrite E. now apply in_map.
  - exfalso. apply Hnotin. rewrite <- E. now apply in_map.
  - now apply IH.
Qed.

(** X16: deleting a product rewrites the history.  The orders keep their
    rows and totals, but after a successful DELETE no GET /api/orders shows
    an item of that product, and an order all of whose lines were on it is
    no longer listed at all. *)
Theorem deleted_product_leaves_history
  (env : environment) (newest_first : list order -> list order)
  (plan : executor order_line) (id : string) (user u : claims) (d d' : db)
  (msg : string) (key uid : Z) :
  history_consistent (store d) -> same_rows newest_first ->
  delete_products env id user d
  = (d', Some {| status := 200; json := DeletedReply msg key |}) ->
  bind_int4 (pg_input env) (userId u) = Val uid ->
  orders (store d') = orders (store d)
  /\ exists rows,
       get_orders env newest_first plan u d'
       = (d', {| code := 200; body := OrderRows rows |})
       /\ (forall row item, In row rows -> In item (or_items row) ->
                            ol_product_id item <> key)
       /\ (forall o, In o (orders (store d)) ->
                     (forall l, In l (lines_of (store d) (o_id o)) ->
                                oi_product_id l = key) ->
                     forall row, In row rows -> or_order_id row <> o_id o).
Proof.
  intros (Hkey & _ & _) Hsame H Hu. unfold delete_products in H.
  destruct (bind_int4 (pg_input env) (Js.Str id)) as [| |k] eqn:Hk;
    simpl in H; try discriminate H.
  destruct (products_with_id k (store d)) as [|p0 rest] eqn:Hrows;
    [discriminate H|].
  apply products_with_id_head in Hrows. destruct Hrows as [_ Hid0].
  injection H as Hd _ Hkeyeq. rewrite Hkeyeq in Hid0. subst k.
  assert (Hord : orders (store d') = orders (store d))
    by (subst d'; reflexivity).
  assert (Hlines : forall l, In l (order_items (store d')) ->
                             In l (order_items (store d))
                             /\ oi_product_id l <> key).
  { subst d'. simpl. intros l Hl. apply filter_In in Hl.
    destruct Hl as [Hl Hne]. apply negb_true_iff, Z.eqb_neq in Hne. auto. }
  split; [exact Hord|].
  unfold get_orders. rewrite Hu. eexists. split; [reflexivity|].
  assert (Hrow : forall row,
             In row (map (order_row_of plan (store d'))
                         (newest_first
                            (filter (fun o => (o_user_id o =? uid)
                                              && has_lines (store d') o)
                                    (orders (store d'))))) ->
             exists o, In o (orders (store d))
                       /\ order_lines (store d') o <> []
                       /\ row = order_row_of plan (store d') o).
  { intros row Hin. apply in_map_iff in Hin. destruct Hin as (o & E & Hin).
    apply (proj1 (Hsame _ _)) in Hin. apply filter_In in Hin.
    destruct Hin as [Hin Hb]. apply andb_true_iff in Hb.
    destruct Hb as [_ Hl]. exists o. rewrite <- Hord.
    repeat split; auto.
    unfold has_lines in Hl. intro E0. rewrite E0 in Hl. discriminate Hl. }
  split.
  - intros row item Hin Hitem. apply Hrow in Hin.
    destruct Hin as (o & _ & _ & E). subst row. simpl in Hitem.
    apply returned_in, order_lines_in in Hitem.
    destruct Hitem as (l & p & Hl & _ & Hpid & E). subst item. simpl.
    unfold lines_of in Hl. apply filter_In in Hl. destruct Hl as [Hl _].
    rewrite Hpid. apply (Hlines l Hl).
  - intros o Ho Hall row Hin Heq. apply Hrow in Hin.
    destruct Hin as (o' & Ho' & Hne & E). subst row. simpl in Heq.
    assert (o' = o) by (apply (order_key_injective _ _ _ Hkey Ho' Ho Heq)).
    subst o'. apply Hne. unfold order_lines.
    replace (filter _ (order_items (store d'))) with (@nil order_item);
      [reflexivity|].
    symmetry. apply filter_none. intros l Hl.
    destruct (oi_order_id l) as [k|] eqn:Ek; [|reflexivity].
    apply Z.eqb_neq. intro Ekey. subst k.
    destruct (Hlines l Hl) as [Hold Hnk]. apply Hnk. apply Hall.
    unfold lines_of. apply filter_In. split; [exact Hold|].
    rewrite Ek. apply Z.eqb_refl.
Qed.

Lemma deleted_product_leaves_history_witness :
  let d1 := fst (post_checkout Sample.env Sample.table_order no_faults
                               Sample.alice Sample.two_mice) in
  let d2 := fst (delete_products Sample.env "1" Sample.bob d1) in
  List.length (orders (store d2)) = 1%nat
  /\ exists rows,
       get_orders Sample.env SampleRest.newest_first Sample.table_order
                  Sample.alice d2
       = (d2, {| code := 200; body := OrderRows rows |})
       /\ rows = [].
Proof.
  intros d1 d2.
  assert (Hh : history_consistent (store d1)).
  { apply post_checkout_history.
    exact (post_cart_history Sample.env (Sample.add 1 2) Sample.alice
                             Sample.shop shop_history). }
  destruct (deleted_product_leaves_history Sample.env SampleRest.newest_first
              Sample.table_order "1" Sample.bob Sample.alice d1 d2
              "Product deleted successfully!" 1 1 Hh rev_same_rows
              eq_refl eq_refl)
    as (Hord & rows & Hget & _ & _).
  split; [rewrite Hord; reflexivity|].
  exists rows. split; [exact Hget|].
  vm_compute in Hget. injection Hget as <-. reflexivity.
Defined.

(** ** Accounts *)

Lemma existsb_email (e : string) (accts : list account) :
  existsb (fun a => String.eqb (a_email a) e) accts = true
  <-> In e (map a_email accts).
Proof.
  rewrite existsb_exists, in_map_iff. split.
  - intros (a & Hin & E). apply String.eqb_eq in E. exists a. auto.
  - intros (a & E & Hin). exists a. split; [exact Hin|].
    now apply String.eqb_eq.
Qed.

Lemma existsb_account_id (id : Z) (accts : list account) :
  existsb (fun a => a_id a =? id) accts = true <-> In id (map a_id accts).
Proof.
  rewrite existsb_exists, in_map_iff. split.
  - intros (a & Hin & E). apply Z.eqb_eq in E. exists a. auto.
  - intros (a & E & Hin). exists a. split; [exact Hin|].
    now apply Z.eqb_eq.
Qed.

Lemma NoDup_snoc {A : Type} (l : list A) (a : A) :
  NoDup l -> ~ In a l -> NoDup (l ++ [a]).
Proof.
  intros Hnd Hnotin. apply (NoDup_Add (a := a) (l := l)).
  - pose proof (Add_app a l []) as H. rewrite app_nil_r in H. exact H.
  - auto.
Qed.

(** X17: POST /api/register either stores nothing (400, 409 or 500) or
    answers 201 and appends one account with the next key, the email as
    the store reads it, the hash of the password and no admin right.
    Emails and keys of the stored accounts stay pairwise distinct.  An
    email that is already stored is never registered again: when both
    fields are truthy, the password can be hashed and the next key is in
    the INTEGER range, the answer is 409 "Email already in use.". *)
Theorem post_register_keeps_accounts_distinct
  (env : environment) (lib : crypto) (salt : string) (body : credentials)
  (r r' : registry) (a : answer) :
  post_register env lib salt body r = (r', a) ->
  (distinct_accounts r -> distinct_accounts r')
  /\ ((accounts r' = accounts r
       /\ (code a = 400 \/ code a = 409 \/ code a = 500))
      \/ (exists e hash,
             bind_varchar (pg_input env) (cred_email body) = Val e
             /\ bcrypt_hash lib salt (cred_password body) = Some hash
             /\ ~ In e (map a_email (accounts r))
             /\ accounts r'
                = accounts r
                  ++ [{| a_id := users_id_seq r; a_email := e;
                         a_password_hash := hash; a_is_admin := false |}]
             /\ a = {| code := 201;
                       body := Registered "User registered successfully!"
                                          (users_id_seq r) e |}))
  /\ (forall e, bind_varchar (pg_input env) (cred_email body) = Val e ->
                In e (map a_email (accounts r)) ->
                accounts r' = accounts r /\ code a <> 201
                /\ (Js.truthy (cred_email body) = true ->
                    Js.truthy (cred_password body) = true ->
                    bcrypt_hash lib salt (cred_password body) <> None ->
                    in_int4 (users_id_seq r) = true ->
                    a = {| code := 409;
                           body := Failed "Email already in use." |})).
Proof.
  intro H. split; [|split].
  - unfold post_register in H.
    destruct (negb (Js.truthy (cred_email body))
              || negb (Js.truthy (cred_password body)));
      [injection H as <- <-; auto|].
    destruct (bcrypt_hash lib salt (cred_password body)) as [hash|];
      [|injection H as <- <-; auto].
    destruct (required (bind_varchar (pg_input env) (cred_email body)))
      as [e|]; [|injection H as <- <-; auto].
    destruct (negb (in_int4 (users_id_seq r)));
      [injection H as <- <-; auto|].
    destruct (existsb (fun a0 => a_id a0 =? users_id_seq r) (accounts r))
      eqn:Hid; simpl in H; [injection H as <- <-; auto|].
    destruct (existsb (fun a0 => String.eqb (a_email a0) e) (accounts r))
      eqn:Hem; [injection H as <- <-; auto|].
    injection H as <- <-. intros [Hemails Hids].
    unfold distinct_accounts. simpl. rewrite !map_app. simpl.
    split; apply NoDup_snoc; try assumption.
    + intro Hin. apply existsb_email in Hin. congruence.
    + intro Hin. apply existsb_account_id in Hin. congruence.
  - unfold post_register in H.
    destruct (negb (Js.truthy (cred_email body))
              || negb (Js.truthy (cred_password body)));
      [injection H as <- <-; left; simpl; auto|].
    destruct (bcrypt_hash lib salt (cred_password body)) as [hash|];
      [|injection H as <- <-; left; simpl; auto].
    destruct (bind_varchar (pg_input env) (cred_email body)) as [| |e];
      simpl in H; try (injection H as <- <-; left; simpl; auto; fail).
    destruct (negb (in_int4 (users_id_seq r)));
      [injection H as <- <-; left; simpl; auto|].
    destruct (existsb (fun a0 => a_id a0 =? users_id_seq r) (accounts r));
      simpl in H; [injection H as <- <-; left; simpl; auto|].
    destruct (existsb (fun a0 => String.eqb (a_email a0) e) (accounts r))
      eqn:Hem; [injection H as <- <-; left; simpl; auto|].
    injection H as <- <-. right. exists e, hash.
    repeat split; try reflexivity.
    intro Hin. apply existsb_email in Hin. congruence.
  - intros e He Hin. apply existsb_email in Hin.
    unfold post_register in H. rewrite He in H. simpl in H. rewrite Hin in H.
    rewrite orb_true_r in H.
    destruct (Js.truthy (cred_email body)), (Js.truthy (cred_password body));
      simpl in H;
      try (injection H as <- <-; repeat split; try discriminate; fail).
    destruct (bcrypt_hash lib salt (cred_password body)) as [hash|];
      [|injection H as <- <-; repeat split; try discriminate;
        intros _ _ Hh; now contradiction Hh].
    destruct (in_int4 (users_id_seq r)); simpl in H;
      injection H as <- <-; repeat split; try discriminate.
Qed.

Lemma post_register_keeps_accounts_distinct_witness :
  let first := post_register Sample.env SampleRest.lib "salt"
                 SampleRest.alice_signs_up SampleRest.nobody in
  let again := post_register Sample.env SampleRest.lib "pepper"
                 SampleRest.alice_signs_up (fst first) in
  code (snd first) = 201 /\ code (snd again) = 409
  /\ distinct_accounts (fst again).
Proof.
  intros first again.
  split; [reflexivity|]. split; [reflexivity|].
  apply (proj1 (post_register_keeps_accounts_distinct Sample.env
                  SampleRest.lib "pepper" SampleRest.alice_signs_up
                  (fst first) (fst again) (snd again)
                  (surjective_pairing again))).
  apply (proj1 (post_register_keeps_accounts_distinct Sample.env
                  SampleRest.lib "salt" SampleRest.alice_signs_up
                  SampleRest.nobody (fst first) (snd first)
                  (surjective_pairing first))).
  split; constructor.
Defined.

Lemma filter_email_new (e : string) (accts : list account) :
  ~ In e (map a_email accts) ->
  filter (fun a => String.eqb (a_email a) e) accts = [].
Proof.
  intro H. apply filter_none. intros a Hin.
  apply not_true_is_false. intro E. apply String.eqb_eq in E.
  apply H. rewrite <- E. now apply in_map.
Qed.

Lemma post_register_created (env : environment) (lib : crypto)
  (salt : string) (body : credentials) (r r' : registry) (msg : string)
  (id : Z) (e : string) :
  post_register env lib salt body r
  = (r', {| code := 201; body := Registered msg id e |}) ->
  exists hash,
    Js.truthy (cred_email body) = true
    /\ Js.truthy (cred_password body) = true
    /\ bind_varchar (pg_input env) (cred_email body) = Val e
    /\ bcrypt_hash lib salt (cred_password body) = Some hash
    /\ ~ In e (map a_email (accounts r))
    /\ id = users_id_seq r
    /\ accounts r'
       = accounts r
         ++ [{| a_id := id; a_email := e; a_password_hash := hash;
                a_is_admin := false |}].
Proof.
  unfold post_register. intro H.
  destruct (Js.truthy (cred_email body)); [|discriminate H].
  destruct (Js.truthy (cred_password body)); [|discriminate H].
  simpl in H.
  destruct (bcrypt_hash lib salt (cred_password body)) as [hash|];
    [|discriminate H].
  destruct (bind_varchar (pg_input env) (cred_email body)) as [| |e0];
    simpl in H; try discriminate H.
  destruct (negb (in_int4 (users_id_seq r))); [discriminate H|].
  destruct (existsb (fun a0 => a_id a0 =? users_id_seq r) (accounts r));
    simpl in H; [discriminate H|].
  destruct (existsb (fun a0 => String.eqb (a_email a0) e0) (accounts r))
    eqn:Hem; [discriminate H|].
  injection H as <- _ <- <-. exists hash. repeat split; try reflexivity.
  intro Hin. apply existsb_email in Hin. congruence.
Qed.

(** X18: the credentials that registered an account log it in.  After a
    201 from POST /api/register, and provided that the driver sends the
    same text for the email in both statements and that bcrypt accepts the
    password against the hash it made of it, POST /api/login with the same
    body answers 200 with a token signed for the new key and the stored
    email.  With the same email and a password that bcrypt rejects the
    answer is 401, word for word the answer given for an unknown email.
    When jsonwebtoken verifies that token to its payload, the token opens
    the protected routes, and the product and cart routes serve the new
    account, which has no admin right, as they serve any other user. *)
Theorem register_then_login
  (env : environment) (lib : crypto) (salt : string) (now : Z)
  (body : credentials) (r r' : registry) (msg : string) (id : Z)
  (e : string) :
  post_register env lib salt body r
  = (r', {| code := 201; body := Registered msg id e |}) ->
  text_in (pg_input env) (cred_email body)
  = varchar_in (pg_input env) (cred_email body) ->
  (forall hash, bcrypt_hash lib salt (cred_password body) = Some hash ->
                bcrypt_compare lib (cred_password body) hash = Some true) ->
  let payload := {| userId := Js.Num (Js.number_of_Z id);
                    email := Js.Str e |} in
  let token := jwt_sign lib now payload in
  post_login env lib now body r'
  = (r', {| code := 200; body := LoggedIn "Login successful!" token |})
  /\ (forall other hash,
         cred_email other = cred_email body ->
         Js.truthy (cred_password other) = true ->
         bcrypt_hash lib salt (cred_password body) = Some hash ->
         bcrypt_compare lib (cred_password other) hash = Some false ->
         post_login env lib now other r'
         = (r', {| code := 401; body := Failed "Invalid credentials." |}))
  /\ (forall stranger e',
         Js.truthy (cred_email stranger) = true ->
         Js.truthy (cred_password stranger) = true ->
         bind_text (pg_input env) (cred_email stranger) = Val e' ->
         ~ In e' (map a_email (accounts r')) ->
         post_login env lib now stranger r'
         = (r', {| code := 401; body := Failed "Invalid credentials." |}))
  /\ (contains " " token = false ->
      jwt_verify env token = Some payload ->
      forall (req : request) (d : db) (anyone : claims),
        serve env (Some ("Bearer " ++ token)%string) req d
        = handler env req payload d
        /\ match req with
           | GetProfile | PostCheckout _ _ => True
           | _ => handler env req payload d = handler env req anyone d
           end).
Proof.
  intros Hreg Htext Hbcrypt payload token.
  destruct (post_register_created _ _ _ _ _ _ _ _ _ Hreg)
    as (hash & Hte & Htp & He & Hhash & Hnew & Hid & Hacc).
  assert (Hbt : bind_text (pg_input env) (cred_email body) = Val e).
  { unfold bind_text, bind_varchar in *. rewrite Htext.
    destruct (cred_email body); try discriminate Hte; exact He. }
  assert (Hfind : filter (fun a => String.eqb (a_email a) e) (accounts r')
                  = [{| a_id := id; a_email := e;
                        a_password_hash := hash; a_is_admin := false |}]).
  { rewrite Hacc, filter_app, (filter_email_new _ _ Hnew). simpl.
    rewrite String.eqb_refl. reflexivity. }
  split; [|split; [|split]].
  - unfold post_login. rewrite Hte, Htp, Hbt. simpl. rewrite Hfind.
    simpl. rewrite (Hbcrypt hash Hhash). reflexivity.
  - intros other hash' Hsame Htp' Hhash' Hfalse.
    assert (hash' = hash) by congruence. subst hash'.
    unfold post_login. rewrite Hsame, Hte, Htp', Hbt. simpl. rewrite Hfind.
    simpl. rewrite Hfalse. reflexivity.
  - intros stranger e' Hte' Htp' Hbt' Hunknown.
    unfold post_login. rewrite Hte', Htp', Hbt'. simpl.
    rewrite (filter_email_new _ _ Hunknown). reflexivity.
  - intros Hsp Hverify req d anyone. split.
    + unfold serve, protected, verifyToken.
      rewrite (bearer_token_of_header _ Hsp), Hverify. reflexivity.
    + destruct req; try exact I; reflexivity.
Qed.

Lemma register_then_login_witness :
  let r' := fst (post_register Sample.env SampleRest.lib "salt"
                               SampleRest.alice_signs_up SampleRest.nobody) in
  post_login Sample.env SampleRest.lib 0 SampleRest.alice_signs_up r'
  = (r', {| code := 200;
            body := LoggedIn "Login successful!" "alice.token" |})
  /\ serve Sample.env (Some "Bearer alice.token"%string)
           (DeleteProducts "1") Sample.shop
     = delete_products Sample.env "1" Sample.bob Sample.shop.
Proof.
  intro r'.
  destruct (register_then_login Sample.env SampleRest.lib "salt" 0
              SampleRest.alice_signs_up SampleRest.nobody r'
              "User registered successfully!" 1 "alice@example.com"
              eq_refl eq_refl)
    as (Hlogin & _ & _ & Hopen).
  { intros hash H. vm_compute in H. injection H as <-. reflexivity. }
  split; [exact Hlogin|].
  destruct (Hopen eq_refl eq_refl (DeleteProducts "1") Sample.shop Sample.bob)
    as [Hserve Hsame].
  exact (eq_trans Hserve Hsame).
Defined.

(** ** What the checkout reads *)

Lemma cart_join_without_prices (ps : list product)
  (ls1 ls2 : list order_item) :
  map without_price ls1 = map without_price ls2 ->
  flat_map (fun oi =>
              map (cart_item_of oi)
                  (filter (fun p => p_id p =? oi_product_id oi) ps))
           (filter in_cart ls1)
  = flat_map (fun oi =>
                map (cart_item_of oi)
                    (filter (fun p => p_id p =? oi_product_id oi) ps))
             (filter in_cart ls2).
Proof.
  revert ls2. induction ls1 as [|l1 ls1 IH]; intros [|l2 ls2] H;
    try discriminate H; [reflexivity|].
  simpl in H. injection H as Hid Ho Hp Hq Hrest.
  specialize (IH ls2 Hrest).
  assert (Hc : in_cart l1 = in_cart l2) by (unfold in_cart; now rewrite Ho).
  cbn [filter]. rewrite Hc.
  destruct (in_cart l2); [|exact IH].
  cbn [flat_map]. rewrite IH, Hp. f_equal. apply map_ext. intro p.
  unfold cart_item_of. now rewrite Hid, Hp, Hq.
Qed.

Lemma verify_stock_products (flt : faults) (cartItems : list cart_item) :
  forall total t1 t2,
    products t1 = products t2 ->
    match verify_stock flt cartItems total (Live t1),
          verify_stock flt cartItems total (Live t2) with
    | Insufficient pid1 (Live _), Insufficient pid2 (Live _) => pid1 = pid2
    | Insufficient pid1 Aborted, Insufficient pid2 Aborted => pid1 = pid2
    | Verified total1 Aborted, Verified total2 Aborted => total1 = total2
    | Verified total1 (Live t1'), Verified total2 (Live t2') =>
        total1 = total2 /\ products t1' = products t2'
        /\ users t1' = users t1 /\ users t2' = users t2
        /\ orders t1' = orders t1 /\ orders t2' = orders t2
    | _, _ => False
    end.
Proof.
  induction cartItems as [|item rest IH]; simpl; intros total t1 t2 Hp.
  - repeat split; auto.
  - destruct (ci_quantity item >? ci_stock item); [reflexivity|].
    assert (same : forall acc,
               match verify_stock flt rest acc Aborted,
                     verify_stock flt rest acc Aborted with
               | Insufficient pid1 (Live _), Insufficient pid2 (Live _) =>
                   pid1 = pid2
               | Insufficient pid1 Aborted, Insufficient pid2 Aborted =>
                   pid1 = pid2
               | Verified total1 Aborted, Verified total2 Aborted =>
                   total1 = total2
               | Verified total1 (Live t1'), Verified total2 (Live t2') =>
                   total1 = total2 /\ products t1' = products t2'
                   /\ users t1' = users t1 /\ users t2' = users t2
                   /\ orders t1' = orders t1 /\ orders t2' = orders t2
               | _, _ => False
               end).
    { intro acc. pose proof (verify_stock_aborted flt rest acc) as A.
      destruct (verify_stock flt rest acc Aborted) as [pid tx | tot tx];
        subst tx; reflexivity. }
    destruct (flt (UpdateStock (ci_id item))); [apply same|].
    unfold sql_update_stock. rewrite Hp.
    destruct (existsb _ (products t2)); [apply same|].
    specialize (IH (PrimFloat.add total
                      (PrimFloat.mul (parseFloat (ci_price item))
                         (Js.number_of_Z (ci_quantity item))))
                   (set_products
                      (map (fun p => if p_id p =? ci_product_id item
                                     then set_stock
                                            (p_stock p - ci_quantity item) p
                                     else p) (products t2)) t1)
                   (set_products
                      (map (fun p => if p_id p =? ci_product_id item
                                     then set_stock
                                            (p_stock p - ci_quantity item) p
                                     else p) (products t2)) t2)
                   eq_refl).
    exact IH.
Qed.

(** X19: the checkout never reads a price snapshot.  Two stores that
    differ only in the price snapshots of their order lines get the same
    reply from the same checkout, its rows coming back in the same way: the
    same status, the same order key and the same total, which is therefore
    made of the catalog prices at the time of the checkout alone. *)
Theorem checkout_never_reads_snapshots
  (env : environment) (plan : executor cart_item) (flt : faults)
  (user : claims) (d1 d2 : db) :
  same_but_snapshots d1 d2 ->
  snd (post_checkout env plan flt user d1)
  = snd (post_checkout env plan flt user d2).
Proof.
  intros (Hu & Hp & Ho & Hl & Hseq).
  assert (Hjoin : select_cart_items plan (store d1)
                  = select_cart_items plan (store d2)).
  { unfold select_cart_items, cart_join. rewrite Hp. f_equal.
    now apply cart_join_without_prices. }
  unfold post_checkout, checkout_from, caught. rewrite Hjoin, Hseq.
  destruct (flt Connect); [reflexivity|].
  destruct (flt Begin || flt SelectCart); [reflexivity|].
  destruct (select_cart_items plan (store d2)) as [|item rest];
    [destruct (flt Rollback); reflexivity|].
  pose proof (verify_stock_products flt (item :: rest) 0%float
                (store d1) (store d2) Hp) as V.
  destruct (verify_stock flt (item :: rest) 0%float (Live (store d1)))
    as [pid1 [t1|] | total1 [t1|]],
     (verify_stock flt (item :: rest) 0%float (Live (store d2)))
    as [pid2 [t2|] | total2 [t2|]]; try contradiction.
  - subst pid2. destruct (flt Rollback); reflexivity.
  - reflexivity.
  - destruct V as (Ht & _ & Hu1 & Hu2 & Ho1 & Ho2). subst total2.
    destruct (flt InsertOrder); [reflexivity|].
    destruct (bind_int4 (pg_input env) (userId user))
      as [| |uid]; [reflexivity | destruct (numeric_of_number total1);
                                  reflexivity |].
    destruct (numeric_of_number total1) as [amount|]; [|reflexivity].
    unfold sql_insert_order. rewrite Ho1, Ho2, Hu1, Hu2, Ho, Hu.
    destruct (in_int4 (orders_id_seq d2)
              && negb (existsb (fun o => o_id o =? orders_id_seq d2)
                               (orders (store d2)))
              && existsb (fun u => u_id u =? uid) (users (store d2)));
      [|reflexivity].
    destruct (flt BindCart); [reflexivity|].
    destruct (flt Commit); reflexivity.
  - reflexivity.
Qed.

Lemma checkout_never_reads_snapshots_witness :
  snd (post_checkout Sample.env Sample.table_order no_faults Sample.alice
                     Sample.repriced)
  = snd (post_checkout Sample.env Sample.table_order no_faults Sample.alice
           (set_store
              (set_order_items
                 [{| oi_id := 1; oi_order_id := None; oi_product_id := 1;
                     oi_quantity := 2; oi_price := NVal 1 |}]
                 (store Sample.repriced))
              Sample.repriced)).
Proof.
  apply checkout_never_reads_snapshots. repeat split; reflexivity.
Defined.

(** ** The life of a cart line *)

Lemma post_products_order_items (env : environment) (body : product_body)
  (user : claims) (d : db) :
  order_items (store (fst (post_products env body user d)))
  = order_items (store d).
Proof.
  unfold post_products.
  destruct (negb (Js.truthy (name body)) || negb (Js.truthy (price body))
            || negb (Js.truthy (stock body))); [reflexivity|].
  destruct (required (bind_varchar (pg_input env) (name body)));
    [|reflexivity].
  destruct (nullable (bind_text (pg_input env) (description body)));
    [|reflexivity].
  destruct (required (bind_numeric (pg_input env) (price body)));
    [|reflexivity].
  destruct (required (bind_int4 (pg_input env) (stock body)));
    [|reflexivity].
  destruct (nullable (bind_varchar (pg_input env) (image_url body)));
    [|reflexivity].
  destruct (in_int4 (products_id_seq d)
            && negb (existsb (fun p => p_id p =? products_id_seq d)
                             (products (store d)))); reflexivity.
Qed.

Lemma put_products_order_items (env : environment) (id : string)
  (body : product_body) (user : claims) (d : db) :
  order_items (store (fst (put_products env id body user d)))
  = order_items (store d).
Proof.
  unfold put_products.
  destruct (nullable (bind_varchar (pg_input env) (name body)));
    [|reflexivity].
  destruct (nullable (bind_text (pg_input env) (description body)));
    [|reflexivity].
  destruct (nullable (bind_numeric (pg_input env) (price body)));
    [|reflexivity].
  destruct (nullable (bind_int4 (pg_input env) (stock body)));
    [|reflexivity].
  destruct (nullable (bind_varchar (pg_input env) (image_url body)));
    [|reflexivity].
  destruct (required (bind_int4 (pg_input env) (Js.Str id))) as [key|];
    [|reflexivity].
  destruct (map _ (products_with_id key (store d))); reflexivity.
Qed.

(** X20: a cart line stays as it is until it is checked out or its
    product is deleted.  Whatever protected request is served, a line of
    the cart is in the cart afterwards, with the same key, quantity and
    price snapshot, unless the request is a checkout answered 200 or the
    deletion of the product of the line: no route edits a cart line or
    takes it out of the cart. *)
Theorem cart_line_stays
  (env : environment) (req : request) (user : claims) (d : db)
  (l : order_item) :
  In l (cart (store d)) ->
  In l (cart (store (fst (handler env req user d))))
  \/ (exists plan flt msg orderId total,
         req = PostCheckout plan flt
         /\ snd (handler env req user d)
            = Some {| status := 200;
                      json := CheckoutReply msg orderId total |})
  \/ (exists id, req = DeleteProducts id
                 /\ bind_int4 (pg_input env) (Js.Str id)
                    = Val (oi_product_id l)).
Proof.
  intro Hl. destruct req as [|body|id body|id|body|plan|plan flt]; simpl.
  - now left.
  - left. unfold cart. now rewrite post_products_order_items.
  - left. unfold cart. now rewrite put_products_order_items.
  - unfold delete_products.
    destruct (bind_int4 (pg_input env) (Js.Str id)) as [| |key] eqn:Hk;
      simpl; try now left.
    destruct (products_with_id key (store d)); [now left|].
    destruct (oi_product_id l =? key) eqn:E.
    + apply Z.eqb_eq in E. right; right. exists id. split; [reflexivity|].
      now rewrite E.
    + left. unfold cart in *. simpl. apply filter_In in Hl.
      destruct Hl as [Hin Hc]. apply filter_In. split; [|exact Hc].
      apply filter_In. split; [exact Hin|]. now rewrite E.
  - left. destruct (post_cart env body user d) as [d' r] eqn:H. simpl.
    apply post_cart_outcome in H.
    destruct H as [[Hs _] | (key & q & p & _ & _ & _ & _ & _ & _ & Hd & _)].
    + now rewrite Hs.
    + subst d'. unfold cart in *. simpl. rewrite filter_app.
      apply in_or_app. now left.
  - now left.
  - destruct (post_checkout env plan flt user d) as [d' r] eqn:H. simpl.
    apply post_checkout_outcome in H.
    destruct H as [[Hs _] | (total & t1 & uid & amount & t2 & _ & _ & _ & _
                             & _ & _ & Hr)].
    + left. now rewrite Hs.
    + right; left. exists plan, flt. eauto.
Qed.

Lemma cart_line_stays_witness :
  In {| oi_id := 1; oi_order_id := None; oi_product_id := 1;
        oi_quantity := 2; oi_price := NVal 2550 |}
     (cart (store (fst (put_products Sample.env "1" (Sample.with_price 30)
                                     Sample.bob Sample.two_mice)))).
Proof.
  destruct (cart_line_stays Sample.env
              (PutProducts "1" (Sample.with_price 30)) Sample.bob
              Sample.two_mice
              {| oi_id := 1; oi_order_id := None; oi_product_id := 1;
                 oi_quantity := 2; oi_price := NVal 2550 |}
              (or_introl eq_refl))
    as [H | [(plan & flt & msg & o & t & E & _) | (id & E & _)]].
  - exact H.
  - discriminate E.
  - discriminate E.
Defined.
